(** * Sales analysis: loader, repository, strategies and factory

    A shallow embedding of [sales_analysis.py] and [app.py].  Both files
    define the same classes ([DataLoader], [SalesRepository], the
    [AnalysisStrategy] hierarchy and [AnalysisFactory]); they differ in the
    exception handling of [DataLoader._load_data].

    The repository code is a thin layer over a dataframe library.  The
    library primitives the code calls (boolean indexing, [groupby], [sum],
    [describe], [sort_values], [to_datetime], [astype(str)]) are modelled in
    the first half of the file; the second half transcribes the two source
    files over that model, one module per file.

    A number of a column is the rational it denotes, and a missing value
    (NaN, NaT, <NA>) is [None]; infinities are not modelled.  The sum of a
    column is the library's, in binary floating point: it is taken from the
    runtime, which fixes it only where binary64 addition is exact (whole
    numbers below 2^53).  The statistics of [describe] are given by their
    definitions over the rationals; the library computes them in binary64
    and rounds each operation. *)

From Stdlib Require Import ZArith QArith Qabs Qround Qreals Reals Lra Lqa.
From Stdlib Require Import String Ascii List Bool Lia.
From Stdlib Require Import Permutation Sorted DecimalString.
From Stdlib Require Decimal DecimalZ DecimalPos.
Import ListNotations.

Close Scope Q_scope.
Open Scope string_scope.
Open Scope list_scope.

(** ** Python values and exceptions *)

(** The exception classes that occur in the two files, with the two
    parser errors of the dataframe library, two representatives of "any
    other exception" a read can end in, the [TypeError] of subscripting
    [None], and the [AttributeError] of a method an object does not have. *)
Inductive ExcClass : Type :=
| FileNotFoundError
| ValueError
| IOError
| KeyError
| EmptyDataError
| ParserError
| PermissionError
| UnicodeDecodeError
| TypeError
| AttributeError.

(** An exception object: its class and [str(e)], the text an f-string
    interpolates. *)
Record Exc : Type := mkExc { exc_class : ExcClass; exc_msg : string }.

Inductive Result (A : Type) : Type :=
| Return (a : A)
| Raise (e : Exc).
Arguments Return {A} a.
Arguments Raise {A} e.

Definition is_raise {A} (r : Result A) : bool :=
  match r with Raise _ => true | Return _ => false end.

Definition raised_class {A} (r : Result A) : option ExcClass :=
  match r with Raise e => Some (exc_class e) | Return _ => None end.

(** [issubclass(c, base)] among the classes above ([IOError] is [OSError];
    the parser's errors and [UnicodeDecodeError] derive from [ValueError]).
    [Exception], above all of them, needs no name: a handler for it takes
    every exception. *)
Definition issubclass (c base : ExcClass) : bool :=
  match base, c with
  | IOError, (IOError | FileNotFoundError | PermissionError) => true
  | ValueError,
    (ValueError | EmptyDataError | ParserError | UnicodeDecodeError) => true
  | FileNotFoundError, FileNotFoundError => true
  | KeyError, KeyError => true
  | EmptyDataError, EmptyDataError => true
  | ParserError, ParserError => true
  | PermissionError, PermissionError => true
  | UnicodeDecodeError, UnicodeDecodeError => true
  | TypeError, TypeError => true
  | AttributeError, AttributeError => true
  | _, _ => false
  end.

(** A Python argument that is a string or [None] (the web form passes
    [None] when the field is absent). *)
Definition PyStr := option string.

(** [f"{v}"] for such a value. *)
Definition format_PyStr (v : PyStr) : string :=
  match v with Some s => s | None => "None" end.

(** [repr] of a string key, as [str(KeyError(key))] prints it. *)
Definition repr_key (k : string) : string := "'" ++ k ++ "'".

(** ** Cells, rows and frames *)

(** A cell of the [branch_id] column.  [read_csv] infers the column type:
    integers, floats (numeric with gaps), or text; NaN marks a gap. *)
Inductive Cell : Type :=
| CInt (z : Z)
| CFloat (q : Q)
| CStr (s : string)
| CNaN.

Definition is_text (c : Cell) : bool :=
  match c with CStr _ => true | _ => false end.

(** One record of the table.  [date] is the text read from the file,
    [week] the derived column (meaningful when the frame has it). *)
Record Row : Type := mkRow {
  branch_id : Cell;
  date : option string;
  product_id : option Z;
  sales_amount : option Q;
  price : option Q;
  week : option Z
}.

(** A frame: the column labels it has, in order, and its records in
    insertion order. *)
Record DataFrame : Type := mkFrame {
  columns : list string;
  rows : list Row
}.

Definition has_column (name : string) (df : DataFrame) : bool :=
  existsb (String.eqb name) (columns df).

(** [df[name]]: the column, or [KeyError]. *)
Definition getitem {X} (name : string) (proj : Row -> X) (df : DataFrame)
  : Result (list X) :=
  if has_column name df then Return (map proj (rows df))
  else Raise (mkExc KeyError (repr_key name)).

(** [df.groupby(key)[name]]: the value column of a grouping, or the
    [KeyError] the grouping raises for a label it does not find. *)
Definition groupby_getitem {X} (name : string) (proj : Row -> X)
  (df : DataFrame) : Result (list X) :=
  if has_column name df then Return (map proj (rows df))
  else Raise (mkExc KeyError (repr_key ("Column not found: " ++ name))).

(** [df.empty] *)
Definition empty (df : DataFrame) : bool :=
  match rows df with [] => true | _ => false end.

(** The five columns the input file must have. *)
Definition required_columns : list string :=
  ["branch_id"; "date"; "product_id"; "sales_amount"; "price"].

Definition schema_ok (df : DataFrame) : bool :=
  forallb (fun c => has_column c df) required_columns.

(** ** Calendar dates and the ISO week *)

Record Date : Type := mkDate { year : Z; month : Z; day : Z }.

Definition is_leap (y : Z) : bool :=
  ((y mod 4 =? 0) && (negb (y mod 100 =? 0) || (y mod 400 =? 0)))%Z.

Definition days_before_year (y : Z) : Z :=
  (let y' := y - 1 in y' * 365 + y' / 4 - y' / 100 + y' / 400)%Z.

Definition days_in_month (y m : Z) : Z :=
  (if m =? 2 then (if is_leap y then 29 else 28)
   else if (m =? 4) || (m =? 6) || (m =? 9) || (m =? 11) then 30 else 31)%Z.

Fixpoint days_before_month_aux (y : Z) (n : nat) : Z :=
  match n with
  | O => 0%Z
  | S k => (days_before_month_aux y k + days_in_month y (Z.of_nat (S k)))%Z
  end.

Definition days_before_month (y m : Z) : Z :=
  days_before_month_aux y (Z.to_nat (m - 1)).

(** Proleptic Gregorian ordinal, day 1 being 0001-01-01 (a Monday). *)
Definition ymd2ord (y m d : Z) : Z :=
  (days_before_year y + days_before_month y m + d)%Z.

Definition isoweek1monday (y : Z) : Z :=
  (let firstday := ymd2ord y 1 1 in
   let firstweekday := (firstday + 6) mod 7 in
   let week1monday := firstday - firstweekday in
   if 3 <? firstweekday then week1monday + 7 else week1monday)%Z.

(** [.dt.isocalendar().week] of one timestamp. *)
Definition isocalendar_week (t : Date) : Z :=
  (let today := ymd2ord (year t) (month t) (day t) in
   let wk := (today - isoweek1monday (year t)) / 7 in
   if wk <? 0 then (today - isoweek1monday (year t - 1)) / 7 + 1
   else if (52 <=? wk) && (isoweek1monday (year t + 1) <=? today) then 1
   else wk + 1)%Z.

Example isoweek_2023_01_01 : isocalendar_week (mkDate 2023 1 1) = 52%Z.
Proof. reflexivity. Qed.
Example isoweek_2023_01_02 : isocalendar_week (mkDate 2023 1 2) = 1%Z.
Proof. reflexivity. Qed.
Example isoweek_2023_01_15 : isocalendar_week (mkDate 2023 1 15) = 2%Z.
Proof. reflexivity. Qed.
Example isoweek_2020_12_31 : isocalendar_week (mkDate 2020 12 31) = 53%Z.
Proof. reflexivity. Qed.
Example isoweek_2024_12_30 : isocalendar_week (mkDate 2024 12 30) = 1%Z.
Proof. reflexivity. Qed.

(** ** The dataframe library *)

(** [l[idx]]: the elements of [l] at the positions [idx]. *)
Definition take {A} (d : A) (l : list A) (idx : list nat) : list A :=
  map (fun i => nth i l d) idx.

(** The sum of rationals, and the lists binary64 adds without rounding,
    in whatever order: whole numbers whose magnitudes sum to 2^53 at
    most. *)
Definition Qsum (xs : list Q) : Q := fold_right Qplus 0%Q xs.

Definition whole (q : Q) : Prop := exists z : Z, (q == inject_Z z)%Q.

Definition magnitude (xs : list Q) : Q := Qsum (map Qabs xs).

Definition exact_in_binary64 (xs : list Q) : Prop :=
  Forall whole xs /\ (magnitude xs <= inject_Z (2 ^ 53))%Q.

(** What the code takes from the library without fixing it:
    - how a float prints;
    - whether [astype(str)] leaves a missing value missing (releases from
      3.0 on) or turns it into the text [nan] (earlier releases); the
      repository names no release;
    - how a column of date texts is converted (the accepted formats and
      the format inference differ between releases);
    - the positions [numpy.argsort] returns with the default
      [kind='quicksort']: they sort the values, and where equal values go
      is the algorithm's;
    - the sum of a column in binary64, which is the sum of the rationals
      where no addition rounds. *)
Class PandasRuntime : Type := {
  float_repr : Q -> string;
  astype_str_keeps_missing : bool;
  to_datetime : list (option string) -> Result (list (option Date));
  to_datetime_length : forall col ts,
    to_datetime col = Return ts -> length ts = length col;
  argsort : list Q -> list nat;
  argsort_perm : forall xs, Permutation (argsort xs) (seq 0 (length xs));
  argsort_sorted : forall xs, StronglySorted Qle (take 0%Q xs (argsort xs));
  float_sum : list Q -> Q;
  float_sum_exact : forall xs,
    exact_in_binary64 xs -> (float_sum xs == Qsum xs)%Q
}.

(** [nargsort(items, ascending=False)] of the library on values none of
    which is missing: the values and their positions are reversed, the
    reversed values are sorted ascending by [argsort], and the positions
    so ordered are reversed again. *)
Definition nargsort_desc `{PandasRuntime} (items : list Q) : list nat :=
  let idx := seq 0 (length items) in
  let non_nans := rev items in
  let non_nan_idx := rev idx in
  let indexer := take 0%nat non_nan_idx (argsort non_nans) in
  rev indexer.

(** [Series.sort_values(ascending=False)] *)
Definition sort_values_desc `{PandasRuntime} (s : list (Z * Q))
  : list (Z * Q) :=
  take (0%Z, 0%Q) s (nargsort_desc (map snd s)).

Definition str_of_Z (z : Z) : string := NilZero.string_of_int (Z.to_int z).

(** [Series.astype(str)], cell by cell. *)
Definition astype_str `{PandasRuntime} (c : Cell) : Cell :=
  match c with
  | CInt z => CStr (str_of_Z z)
  | CFloat q => CStr (float_repr q)
  | CStr s => CStr s
  | CNaN => if astype_str_keeps_missing then CNaN else CStr "nan"
  end.

(** [column == value], element-wise: a text cell equals a string of the
    same characters; cells of another type, NaN and [None] equal nothing. *)
Definition cell_eq (v : PyStr) (c : Cell) : bool :=
  match c, v with
  | CStr s, Some b => String.eqb s b
  | _, _ => false
  end.

(** [df[mask]]: the rows at which the mask is true, in order. *)
Fixpoint boolean_index (mask : list bool) (rs : list Row) : list Row :=
  match mask, rs with
  | m :: mask', r :: rs' =>
      if m then r :: boolean_index mask' rs' else boolean_index mask' rs'
  | _, _ => []
  end.

(** [df[name] = values]: a new label goes last, an existing one keeps its
    place; a row the values do not reach gets the missing value. *)
Definition add_column (name : string) (cols : list string) : list string :=
  if existsb (String.eqb name) cols then cols else cols ++ [name].

Fixpoint assign {X} (set : X -> Row -> Row) (na : X) (vals : list X)
  (rs : list Row) : list Row :=
  match rs with
  | [] => []
  | r :: rs' =>
      match vals with
      | v :: vals' => set v r :: assign set na vals' rs'
      | [] => set na r :: assign set na [] rs'
      end
  end.

Definition set_branch_id (c : Cell) (r : Row) : Row :=
  mkRow c (date r) (product_id r) (sales_amount r) (price r) (week r).

Definition set_week (w : option Z) (r : Row) : Row :=
  mkRow (branch_id r) (date r) (product_id r) (sales_amount r) (price r) w.

Definition setitem_branch_id (vals : list Cell) (df : DataFrame) : DataFrame :=
  mkFrame (add_column "branch_id" (columns df))
          (assign set_branch_id CNaN vals (rows df)).

Definition setitem_week (vals : list (option Z)) (df : DataFrame) : DataFrame :=
  mkFrame (add_column "week" (columns df))
          (assign set_week None vals (rows df)).

(** *** Sums *)

Fixpoint dropna {X} (vs : list (option X)) : list X :=
  match vs with
  | [] => []
  | Some x :: vs' => x :: dropna vs'
  | None :: vs' => dropna vs'
  end.

(** [Series.sum()]: missing values are skipped, the rest is added in
    binary64. *)
Definition sum_skipna `{PandasRuntime} (vs : list (option Q)) : Q :=
  float_sum (dropna vs).

(** *** Grouping *)

Section GroupBy.
Context {V : Type}.

(** The groups met so far, keys ascending; a value joins its group at
    the end, so a group keeps the order of the rows. *)
Fixpoint add_to_group (k : Z) (v : V) (gs : list (Z * list V))
  : list (Z * list V) :=
  match gs with
  | [] => [(k, [v])]
  | (k', vs) :: gs' =>
      if (k <? k')%Z then (k, [v]) :: gs
      else if (k =? k')%Z then (k', vs ++ [v]) :: gs'
      else (k', vs) :: add_to_group k v gs'
  end.

Definition group_step (gs : list (Z * list V)) (kv : option Z * V)
  : list (Z * list V) :=
  match fst kv with
  | Some k => add_to_group k (snd kv) gs
  | None => gs
  end.

(** [groupby(key)[value]] with the defaults [sort=True], [dropna=True]:
    a row whose key is missing belongs to no group. *)
Definition groupby (keys : list (option Z)) (vals : list V)
  : list (Z * list V) :=
  fold_left group_step (combine keys vals) [].

Fixpoint find_group (k : Z) (gs : list (Z * list V)) : option (list V) :=
  match gs with
  | [] => None
  | (k', vs) :: gs' => if (k =? k')%Z then Some vs else find_group k gs'
  end.

(** The values of the rows whose key is [k], in row order. *)
Fixpoint select_key (k : Z) (kvs : list (option Z * V)) : list V :=
  match kvs with
  | [] => []
  | (Some k', v) :: kvs' =>
      if (k =? k')%Z then v :: select_key k kvs' else select_key k kvs'
  | (None, _) :: kvs' => select_key k kvs'
  end.
End GroupBy.

(** [groupby(key)[value].sum()] *)
Definition groupby_sum `{PandasRuntime} (keys : list (option Z))
  (vals : list (option Q)) : list (Z * Q) :=
  map (fun g => (fst g, sum_skipna (snd g))) (groupby keys vals).

(** The sum of a series' values, as rationals. *)
Definition series_total (s : list (Z * Q)) : Q := Qsum (map snd s).

(** *** Summary statistics *)

(** A statistic: a rational, the non-negative square root of a rational,
    or NaN. *)
Inductive Stat : Type :=
| Num (q : Q)
| Sqrt (q : Q)
| NaN.

(** The real number a statistic stands for. *)
Definition Stat_real (s : Stat) : option R :=
  match s with
  | Num q => Some (Q2R q)
  | Sqrt q => Some (sqrt (Q2R q))
  | NaN => None
  end.

Definition Qnat (n : nat) : Q := inject_Z (Z.of_nat n).

Definition mean (xs : list Q) : Q := (Qsum xs / Qnat (length xs))%Q.

Definition sum_sq_dev (xs : list Q) : Q :=
  Qsum (map (fun x => ((mean xs - x) * (mean xs - x))%Q) xs).

(** [nanvar]: squared deviations from the mean over [count - ddof];
    NaN when [count <= ddof]. *)
Definition nanvar (ddof : nat) (xs : list Q) : option Q :=
  if (length xs <=? ddof)%nat then None
  else Some (sum_sq_dev xs / Qnat (length xs - ddof))%Q.

(** [Series.std()], whose default is [ddof=1]. *)
Definition std (xs : list Q) : Stat :=
  match nanvar 1 xs with
  | Some v => Sqrt v
  | None => NaN
  end.

Fixpoint insert_asc (x : Q) (l : list Q) : list Q :=
  match l with
  | [] => [x]
  | y :: l' => if Qle_bool x y then x :: l else y :: insert_asc x l'
  end.

Definition sort_asc (xs : list Q) : list Q := fold_right insert_asc [] xs.

(** [quantile(q)] with linear interpolation, on ascending values. *)
Definition quantile (q : Q) (sorted : list Q) : Q :=
  let pos := (Qnat (length sorted - 1) * q)%Q in
  let lo := Qfloor pos in
  let frac := (pos - inject_Z lo)%Q in
  let a := nth (Z.to_nat lo) sorted 0%Q in
  let b := nth (S (Z.to_nat lo)) sorted a in
  (a + (b - a) * frac)%Q.

Definition describe_labels : list string :=
  ["count"; "mean"; "std"; "min"; "25%"; "50%"; "75%"; "max"].

(** [Series.describe()] of a numeric column. *)
Definition describe_numeric (vs : list (option Q)) : list (string * Stat) :=
  let xs := dropna vs in
  let s := sort_asc xs in
  let stat (q : Q) := match xs with [] => NaN | _ => Num q end in
  [ ("count", Num (Qnat (length xs)));
    ("mean", stat (mean xs));
    ("std", std xs);
    ("min", stat (hd 0%Q s));
    ("25%", stat (quantile (1#4)%Q s));
    ("50%", stat (quantile (1#2)%Q s));
    ("75%", stat (quantile (3#4)%Q s));
    ("max", stat (last s 0%Q)) ].

(** [Series.describe()] of a column of this table.  A column with a row
    is numeric (a gap makes it a float column); the columns of a table
    without rows, which a file with a header only gives, have the type
    [object], and [describe] summarises such a column by count, unique, top
    and freq. *)
Definition describe (vs : list (option Q)) : list (string * Stat) :=
  match vs with
  | [] => [ ("count", Num 0%Q); ("unique", Num 0%Q); ("top", NaN);
            ("freq", NaN) ]
  | _ :: _ => describe_numeric vs
  end.

(** [groupby(key)[value].describe()]: one row of statistics per group. *)
Definition groupby_describe (keys : list (option Z)) (vals : list (option Q))
  : list (Z * list (string * Stat)) :=
  map (fun g => (fst g, describe (snd g))) (groupby keys vals).

(** A statistic with its rational in lowest terms. *)
Definition Stat_red (s : Stat) : Stat :=
  match s with
  | Num q => Num (Qred q)
  | Sqrt q => Sqrt (Qred q)
  | NaN => NaN
  end.

(** A labelled statistic of a [describe] result. *)
Fixpoint stat_of (label : string) (d : list (string * Stat)) : option Stat :=
  match d with
  | [] => None
  | (l, s) :: d' => if String.eqb label l then Some s else stat_of label d'
  end.

(** ** The loader object, the file system and the effects of a call *)

(** What a call can observe of the outside: [os.path.exists] and the
    outcome of [pd.read_csv] at a path (a frame, or the exception the
    parser or the operating system raises). *)
Record World : Type := mkWorld {
  path_exists : string -> bool;
  read_csv : string -> Result DataFrame
}.

(** The attributes of the one [DataLoader] instance ([__new__] hands out
    the same object at every construction).  [data = None] is "nothing
    cached". *)
Record DataLoader : Type := mkLoader {
  file_path : string;
  data : option DataFrame
}.

(** A method call: it reads and writes the loader's attributes and returns
    or raises. *)
Definition M (A : Type) : Type := DataLoader -> Result A * DataLoader.

Definition ret {A} (a : A) : M A := fun self => (Return a, self).

Definition raise {A} (e : Exc) : M A := fun self => (Raise e, self).

Definition bind {A B} (c : M A) (k : A -> M B) : M B :=
  fun self =>
    match c self with
    | (Return a, self') => k a self'
    | (Raise e, self') => (Raise e, self')
    end.

Definition lift {A} (r : Result A) : M A := fun self => (r, self).

(** [try: body / except Exception as e: handler e] *)
Definition try_except {A} (body : M A) (handler : Exc -> M A) : M A :=
  fun self =>
    match body self with
    | (Return a, self') => (Return a, self')
    | (Raise e, self') => handler e self'
    end.

Definition get_self : M DataLoader := fun self => (Return self, self).

(** [self.data = v]; also an in-place change of the frame [self.data]
    refers to, which every holder of the reference sees. *)
Definition set_data (v : option DataFrame) : M unit :=
  fun self => (Return tt, mkLoader (file_path self) v).

Notation "x <- c ;; k" := (bind c (fun x => k))
  (at level 61, c at next level, right associativity).
Notation "c ;;; k" := (bind c (fun _ => k))
  (at level 61, right associativity).

(** Subscripting what [get_data] returned: [None] is not subscriptable. *)
Definition subscriptable (v : option DataFrame) : Result DataFrame :=
  match v with
  | Some df => Return df
  | None => Raise (mkExc TypeError "'NoneType' object is not subscriptable")
  end.

(** The results of the five reports. *)
Inductive Report : Type :=
| FrameReport (df : DataFrame)
| DescribeTable (t : list (Z * list (string * Stat)))
| SeriesReport (s : list (Z * Q))
| DescribeReport (d : list (string * Stat)).

(** [result.to_html()]: a frame renders as an HTML table, whose text is
    the library's; a series has no such method. *)
Inductive Html : Type := HtmlTable (r : Report).

Definition to_html (r : Report) : Result Html :=
  match r with
  | FrameReport _ | DescribeTable _ => Return (HtmlTable r)
  | SeriesReport _ | DescribeReport _ =>
      Raise (mkExc AttributeError "'Series' object has no attribute 'to_html'")
  end.

(** The one loader instance a repository refers to. *)
Inductive DataLoaderRef : Type := DataLoader_instance.

Record SalesRepository : Type := mkRepo { data_loader : DataLoaderRef }.

(** Keyword arguments, in call order. *)
Definition Kwargs := list (string * PyStr).

Fixpoint kwargs_get (key : string) (kw : Kwargs) : Result PyStr :=
  match kw with
  | [] => Raise (mkExc KeyError (repr_key key))
  | (k, v) :: kw' => if String.eqb key k then Return v else kwargs_get key kw'
  end.

(** What the terminal shows: [clear_screen()], a printed line, a printed
    report (its text is the library's), and the prompt of an [input]. *)
Inductive Output : Type :=
| ClearScreen
| Print (s : string)
| PrintReport (r : Report)
| Prompt (s : string).

(** How [main] ends: it returns, [input] meets the end of the input (an
    [EOFError] nothing catches), or an exception leaves it. *)
Inductive Ending : Type :=
| Returned
| EndOfInput
| Uncaught (e : Exc).

(** A request to the web form, and what comes back: the template rendered
    with the variables [result], [error] and [analysis_type], or the
    400 response of a missing form field. *)
Inductive Request : Type :=
| GET
| POST (form : list (string * string)).

Record TemplateContext : Type := mkContext {
  ctx_result : option Html;
  ctx_error : option string;
  ctx_analysis_type : option string
}.

Inductive Response : Type :=
| Rendered (ctx : TemplateContext)
| BadRequest (key : string).

(** [request.form.get(key, None)] *)
Fixpoint form_get (key : string) (form : list (string * string)) : PyStr :=
  match form with
  | [] => None
  | (k, v) :: form' => if String.eqb key k then Some v else form_get key form'
  end.

(** ** sales_analysis.py *)

Module SalesAnalysis.
Section WithRuntime.
Context `{PandasRuntime} (w : World).

Definition _load_data : M unit :=
  self <- get_self ;;
  if negb (path_exists w (file_path self)) then
    raise (mkExc FileNotFoundError
             ("The file " ++ file_path self ++ " does not exist."))
  else
    try_except
      (df <- lift (read_csv w (file_path self)) ;;
       set_data (Some df) ;;;
       col <- lift (getitem "branch_id" branch_id df) ;;
       set_data (Some (setitem_branch_id (map astype_str col) df)))
      (fun e =>
         match exc_class e with
         | FileNotFoundError =>
             raise (mkExc FileNotFoundError ("File not found: " ++ exc_msg e))
         | EmptyDataError => raise (mkExc ValueError "The file is empty.")
         | ParserError => raise (mkExc ValueError "Error parsing the file.")
         | _ =>
             raise (mkExc IOError
                      ("An unexpected error occurred while reading the file "
                         ++ file_path self ++ ": " ++ exc_msg e))
         end).

(** [DataLoader(file_path)]: the attributes are reset, then the file is
    loaded. *)
Definition __init__ (path : string) : M unit :=
  fun _ => _load_data (mkLoader path None).

Definition get_data : M (option DataFrame) :=
  self <- get_self ;;
  match data self with
  | None => _load_data ;;; self' <- get_self ;; ret (data self')
  | Some df => ret (Some df)
  end.

Definition get_monthly_sales (branch : PyStr) : M DataFrame :=
  try_except
    (data <- get_data ;;
     df <- lift (subscriptable data) ;;
     col <- lift (getitem "branch_id" branch_id df) ;;
     let branch_data :=
       mkFrame (columns df) (boolean_index (map (cell_eq branch) col) (rows df)) in
     if empty branch_data then
       raise (mkExc ValueError
                ("No data found for branch ID: " ++ format_PyStr branch))
     else ret branch_data)
    (fun e =>
       raise (mkExc ValueError
                ("Error fetching monthly sales data: " ++ exc_msg e))).

Definition get_product_price_analysis : M (list (Z * list (string * Stat))) :=
  try_except
    (data <- get_data ;;
     df <- lift (subscriptable data) ;;
     keys <- lift (getitem "product_id" product_id df) ;;
     vals <- lift (groupby_getitem "price" price df) ;;
     ret (groupby_describe keys vals))
    (fun e =>
       raise (mkExc ValueError
                ("Error fetching product price analysis: " ++ exc_msg e))).

Definition get_weekly_sales : M (list (Z * Q)) :=
  try_except
    (data <- get_data ;;
     df <- lift (subscriptable data) ;;
     dates <- lift (getitem "date" date df) ;;
     ts <- lift (to_datetime dates) ;;
     let df' := setitem_week (map (option_map isocalendar_week) ts) df in
     set_data (Some df') ;;;
     keys <- lift (getitem "week" week df') ;;
     vals <- lift (groupby_getitem "sales_amount" sales_amount df') ;;
     ret (groupby_sum keys vals))
    (fun e =>
       raise (mkExc ValueError
                ("Error fetching weekly sales data: " ++ exc_msg e))).

Definition get_product_preference : M (list (Z * Q)) :=
  try_except
    (data <- get_data ;;
     df <- lift (subscriptable data) ;;
     keys <- lift (getitem "product_id" product_id df) ;;
     vals <- lift (groupby_getitem "sales_amount" sales_amount df) ;;
     ret (sort_values_desc (groupby_sum keys vals)))
    (fun e =>
       raise (mkExc ValueError
                ("Error fetching product preference data: " ++ exc_msg e))).

Definition get_sales_distribution : M (list (string * Stat)) :=
  try_except
    (data <- get_data ;;
     df <- lift (subscriptable data) ;;
     vals <- lift (getitem "sales_amount" sales_amount df) ;;
     ret (describe vals))
    (fun e =>
       raise (mkExc ValueError
                ("Error fetching sales distribution data: " ++ exc_msg e))).

(** The strategy objects: each holds the repository, the first also the
    branch. *)
Inductive AnalysisStrategy : Type :=
| MonthlySalesAnalysis (repo : SalesRepository) (branch : PyStr)
| PriceAnalysis (repo : SalesRepository)
| WeeklySalesAnalysis (repo : SalesRepository)
| ProductPreferenceAnalysis (repo : SalesRepository)
| SalesDistributionAnalysis (repo : SalesRepository).

Definition map_M {A B} (f : A -> B) (c : M A) : M B :=
  a <- c ;; ret (f a).

Definition analyze (a : AnalysisStrategy) : M Report :=
  match a with
  | MonthlySalesAnalysis _ branch => map_M FrameReport (get_monthly_sales branch)
  | PriceAnalysis _ => map_M DescribeTable get_product_price_analysis
  | WeeklySalesAnalysis _ => map_M SeriesReport get_weekly_sales
  | ProductPreferenceAnalysis _ => map_M SeriesReport get_product_preference
  | SalesDistributionAnalysis _ => map_M DescribeReport get_sales_distribution
  end.

(** [AnalysisFactory.create_analysis(analysis_type, repo, **kwargs)] *)
Definition create_analysis (analysis_type : string) (repo : SalesRepository)
  (kwargs : Kwargs) : Result AnalysisStrategy :=
  if String.eqb analysis_type "monthly_sales" then
    match kwargs_get "branch_id" kwargs with
    | Return b => Return (MonthlySalesAnalysis repo b)
    | Raise e => Raise e
    end
  else if String.eqb analysis_type "price" then
    Return (PriceAnalysis repo)
  else if String.eqb analysis_type "weekly_sales" then
    Return (WeeklySalesAnalysis repo)
  else if String.eqb analysis_type "product_preference" then
    Return (ProductPreferenceAnalysis repo)
  else if String.eqb analysis_type "sales_distribution" then
    Return (SalesDistributionAnalysis repo)
  else Raise (mkExc ValueError "Unknown analysis type").
(** The menu [main] prints at the head of every round. *)
Definition menu : list Output :=
  [ ClearScreen;
    Print "Select Analysis Type:";
    Print "1. Monthly Sales Analysis";
    Print "2. Price Analysis";
    Print "3. Weekly Sales Analysis";
    Print "4. Product Preference Analysis";
    Print "5. Sales Distribution Analysis";
    Print "0. Exit";
    Prompt "Enter choice: " ].

(** The [try] block of a round: the analysis is run and its result or its
    error is printed. *)
Definition run_analysis (a : AnalysisStrategy) (l : DataLoader)
  : list Output * DataLoader :=
  match analyze a l with
  | (Return r, l') => ([Print "Result:"; PrintReport r], l')
  | (Raise e, l') =>
      if issubclass (exc_class e) ValueError
      then ([Print ("Value error: " ++ exc_msg e)], l')
      else ([Print ("An unexpected error occurred: " ++ exc_msg e)], l')
  end.

(** The tail of a round that ran an analysis: the [Press Enter] prompt and
    the screen cleared. *)
Definition round_end : list Output :=
  [Prompt "Press Enter to continue..."; ClearScreen].

(** The [while True] loop of [main] on the lines the user types. *)
Fixpoint menu_loop (inputs : list string) (l : DataLoader)
  : list Output * DataLoader * Ending :=
  let repo := mkRepo DataLoader_instance in
  match inputs with
  | [] => (menu, l, EndOfInput)
  | choice :: rest =>
      if String.eqb choice "0" then (menu, l, Returned)
      else if String.eqb choice "1" then
        match rest with
        | [] => (menu ++ [Prompt "Enter branch ID: "], l, EndOfInput)
        | branch :: rest1 =>
            match create_analysis "monthly_sales" repo
                    [("branch_id", Some branch)] with
            | Raise e => (menu ++ [Prompt "Enter branch ID: "], l, Uncaught e)
            | Return a =>
                let (shown, l1) := run_analysis a l in
                let head := menu ++ [Prompt "Enter branch ID: "] ++ shown in
                match rest1 with
                | [] =>
                    (head ++ [Prompt "Press Enter to continue..."], l1,
                     EndOfInput)
                | _ :: rest2 =>
                    let '(out, l2, e) := menu_loop rest2 l1 in
                    (head ++ round_end ++ out, l2, e)
                end
            end
        end
      else if (String.eqb choice "2" || String.eqb choice "3"
               || String.eqb choice "4" || String.eqb choice "5")%bool then
        let name :=
          if String.eqb choice "2" then "price"
          else if String.eqb choice "3" then "weekly_sales"
          else if String.eqb choice "4" then "product_preference"
          else "sales_distribution" in
        match create_analysis name repo [] with
        | Raise e => (menu, l, Uncaught e)
        | Return a =>
            let (shown, l1) := run_analysis a l in
            match rest with
            | [] =>
                (menu ++ shown ++ [Prompt "Press Enter to continue..."], l1,
                 EndOfInput)
            | _ :: rest1 =>
                let '(out, l2, e) := menu_loop rest1 l1 in
                (menu ++ shown ++ round_end ++ out, l2, e)
            end
        end
      else
        match rest with
        | [] =>
            (menu ++ [Print "Invalid choice";
                      Prompt "Press Enter to continue..."], l, EndOfInput)
        | _ :: rest1 =>
            let '(out, l2, e) := menu_loop rest1 l in
            (menu ++ [Print "Invalid choice";
                      Prompt "Press Enter to continue..."] ++ out, l2, e)
        end
  end.

(** [main()]: the loader is constructed; an error of the three classes the
    handler names is printed and [main] returns; otherwise the menu loop
    runs. *)
Definition main (inputs : list string) (l0 : DataLoader)
  : list Output * DataLoader * Ending :=
  match __init__ "sales_data.csv" l0 with
  | (Return _, l) => menu_loop inputs l
  | (Raise e, l) =>
      if (issubclass (exc_class e) FileNotFoundError
          || issubclass (exc_class e) ValueError
          || issubclass (exc_class e) IOError)%bool
      then ([Print ("Initialization error: " ++ exc_msg e)], l, Returned)
      else ([], l, Uncaught e)
  end.
End WithRuntime.
End SalesAnalysis.

(** ** app.py *)

Module App.
Section WithRuntime.
Context `{PandasRuntime} (w : World).

Definition _load_data : M unit :=
  self <- get_self ;;
  if negb (path_exists w (file_path self)) then
    raise (mkExc FileNotFoundError
             ("The file " ++ file_path self ++ " does not exist."))
  else
    try_except
      (df <- lift (read_csv w (file_path self)) ;;
       set_data (Some df) ;;;
       col <- lift (getitem "branch_id" branch_id df) ;;
       set_data (Some (setitem_branch_id (map astype_str col) df)))
      (fun e =>
         raise (mkExc IOError
                  ("An error occurred while reading the file "
                     ++ file_path self ++ ": " ++ exc_msg e))).

(** [DataLoader(file_path)]: the attributes are reset, then the file is
    loaded. *)
Definition __init__ (path : string) : M unit :=
  fun _ => _load_data (mkLoader path None).

Definition get_data : M (option DataFrame) :=
  self <- get_self ;;
  match data self with
  | None => _load_data ;;; self' <- get_self ;; ret (data self')
  | Some df => ret (Some df)
  end.

Definition get_monthly_sales (branch : PyStr) : M DataFrame :=
  try_except
    (data <- get_data ;;
     df <- lift (subscriptable data) ;;
     col <- lift (getitem "branch_id" branch_id df) ;;
     let branch_data :=
       mkFrame (columns df) (boolean_index (map (cell_eq branch) col) (rows df)) in
     if empty branch_data then
       raise (mkExc ValueError
                ("No data found for branch ID: " ++ format_PyStr branch))
     else ret branch_data)
    (fun e =>
       raise (mkExc ValueError
                ("Error fetching monthly sales data: " ++ exc_msg e))).

Definition get_product_price_analysis : M (list (Z * list (string * Stat))) :=
  try_except
    (data <- get_data ;;
     df <- lift (subscriptable data) ;;
     keys <- lift (getitem "product_id" product_id df) ;;
     vals <- lift (groupby_getitem "price" price df) ;;
     ret (groupby_describe keys vals))
    (fun e =>
       raise (mkExc ValueError
                ("Error fetching product price analysis: " ++ exc_msg e))).

Definition get_weekly_sales : M (list (Z * Q)) :=
  try_except
    (data <- get_data ;;
     df <- lift (subscriptable data) ;;
     dates <- lift (getitem "date" date df) ;;
     ts <- lift (to_datetime dates) ;;
     let df' := setitem_week (map (option_map isocalendar_week) ts) df in
     set_data (Some df') ;;;
     keys <- lift (getitem "week" week df') ;;
     vals <- lift (groupby_getitem "sales_amount" sales_amount df') ;;
     ret (groupby_sum keys vals))
    (fun e =>
       raise (mkExc ValueError
                ("Error fetching weekly sales data: " ++ exc_msg e))).

Definition get_product_preference : M (list (Z * Q)) :=
  try_except
    (data <- get_data ;;
     df <- lift (subscriptable data) ;;
     keys <- lift (getitem "product_id" product_id df) ;;
     vals <- lift (groupby_getitem "sales_amount" sales_amount df) ;;
     ret (sort_values_desc (groupby_sum keys vals)))
    (fun e =>
       raise (mkExc ValueError
                ("Error fetching product preference data: " ++ exc_msg e))).

Definition get_sales_distribution : M (list (string * Stat)) :=
  try_except
    (data <- get_data ;;
     df <- lift (subscriptable data) ;;
     vals <- lift (getitem "sales_amount" sales_amount df) ;;
     ret (describe vals))
    (fun e =>
       raise (mkExc ValueError
                ("Error fetching sales distribution data: " ++ exc_msg e))).

(** The strategy objects: each holds the repository, the first also the
    branch. *)
Inductive AnalysisStrategy : Type :=
| MonthlySalesAnalysis (repo : SalesRepository) (branch : PyStr)
| PriceAnalysis (repo : SalesRepository)
| WeeklySalesAnalysis (repo : SalesRepository)
| ProductPreferenceAnalysis (repo : SalesRepository)
| SalesDistributionAnalysis (repo : SalesRepository).

Definition map_M {A B} (f : A -> B) (c : M A) : M B :=
  a <- c ;; ret (f a).

Definition analyze (a : AnalysisStrategy) : M Report :=
  match a with
  | MonthlySalesAnalysis _ branch => map_M FrameReport (get_monthly_sales branch)
  | PriceAnalysis _ => map_M DescribeTable get_product_price_analysis
  | WeeklySalesAnalysis _ => map_M SeriesReport get_weekly_sales
  | ProductPreferenceAnalysis _ => map_M SeriesReport get_product_preference
  | SalesDistributionAnalysis _ => map_M DescribeReport get_sales_distribution
  end.

(** [AnalysisFactory.create_analysis(analysis_type, repo, **kwargs)] *)
Definition create_analysis (analysis_type : string) (repo : SalesRepository)
  (kwargs : Kwargs) : Result AnalysisStrategy :=
  if String.eqb analysis_type "monthly_sales" then
    match kwargs_get "branch_id" kwargs with
    | Return b => Return (MonthlySalesAnalysis repo b)
    | Raise e => Raise e
    end
  else if String.eqb analysis_type "price" then
    Return (PriceAnalysis repo)
  else if String.eqb analysis_type "weekly_sales" then
    Return (WeeklySalesAnalysis repo)
  else if String.eqb analysis_type "product_preference" then
    Return (ProductPreferenceAnalysis repo)
  else if String.eqb analysis_type "sales_distribution" then
    Return (SalesDistributionAnalysis repo)
  else Raise (mkExc ValueError "Unknown analysis type").
(** The view function [index] on the module's [repo], whose loader was
    constructed when the module was loaded. *)
Definition index (req : Request) (l : DataLoader) : Response * DataLoader :=
  let repo := mkRepo DataLoader_instance in
  match req with
  | GET => (Rendered (mkContext None None None), l)
  | POST form =>
      match form_get "analysis_type" form with
      | None => (BadRequest "analysis_type", l)
      | Some analysis_type =>
          let branch := form_get "branch_id" form in
          let created :=
            if String.eqb analysis_type "monthly_sales"
            then create_analysis analysis_type repo [("branch_id", branch)]
            else create_analysis analysis_type repo [] in
          match (analysis <- lift created ;;
                 result <- analyze analysis ;;
                 lift (to_html result)) l with
          | (Return html, l') =>
              (Rendered (mkContext (Some html) None (Some analysis_type)), l')
          | (Raise e, l') =>
              (Rendered (mkContext None (Some (exc_msg e)) (Some analysis_type)),
               l')
          end
      end
  end.
End WithRuntime.
End App.

(** ** Vocabulary of the statements *)

(** The rows of a table whose branch cell equals the argument. *)
Definition branch_rows (v : PyStr) (df : DataFrame) : list Row :=
  filter (fun r => cell_eq v (branch_id r)) (rows df).

Definition monthly_sales_outcome (v : PyStr) (df : DataFrame) : Result DataFrame :=
  match branch_rows v df with
  | [] =>
      Raise (mkExc ValueError
               ("Error fetching monthly sales data: "
                  ++ ("No data found for branch ID: " ++ format_PyStr v)))
  | rs => Return (mkFrame (columns df) rs)
  end.

Definition value_of (v : option Q) : Q :=
  match v with Some q => q | None => 0%Q end.

(** The values of the rows that have a key. *)
Fixpoint keyed {V} (kvs : list (option Z * V)) : list V :=
  match kvs with
  | [] => []
  | (Some _, v) :: kvs' => v :: keyed kvs'
  | (None, _) :: kvs' => keyed kvs'
  end.

(** The values the groups hold, added up as rationals. *)
Definition groups_total (gs : list (Z * list (option Q))) : Q :=
  Qsum (map (fun g => Qsum (dropna (snd g))) gs).

(** The keys of the groups ascend. *)
Definition keys_ascending {V} (gs : list (Z * list V)) : Prop :=
  StronglySorted Z.lt (map fst gs).

Definition has_key {X} (key : Row -> option X) (r : Row) : bool :=
  match key r with Some _ => true | None => false end.

(** A row without its derived week. *)
Definition forget_week (r : Row) : Row := set_week None r.

Definition preference_series `{PandasRuntime} (df : DataFrame) : list (Z * Q) :=
  sort_values_desc
    (groupby_sum (map product_id (rows df)) (map sales_amount (rows df))).

(** The week numbers [get_weekly_sales] derives from converted dates. *)
Definition week_numbers (ts : list (option Date)) : list (option Z) :=
  map (option_map isocalendar_week) ts.

(** What [get_weekly_sales] returns and what it leaves in [data]. *)
Definition weekly_sales_outcome `{PandasRuntime} (df : DataFrame)
  : Result (list (Z * Q)) * DataFrame :=
  match to_datetime (map date (rows df)) with
  | Return ts =>
      (Return (groupby_sum (week_numbers ts) (map sales_amount (rows df))),
       setitem_week (week_numbers ts) df)
  | Raise e =>
      (Raise (mkExc ValueError
                ("Error fetching weekly sales data: " ++ exc_msg e)), df)
  end.

(** The amounts of the rows that have one, and their sum: the total of the
    [sales_amount] column (a missing amount counts as 0). *)
Definition amounts (rs : list Row) : list Q := dropna (map sales_amount rs).

Definition dataset_total (df : DataFrame) : Q := Qsum (amounts (rows df)).

Definition key_is (key : Row -> option Z) (k : Z) (r : Row) : bool :=
  match key r with
  | Some k' => (k =? k')%Z
  | None => false
  end.


(** The rows of a product. *)
Definition product_rows (k : Z) (df : DataFrame) : list Row :=
  filter (key_is product_id k) (rows df).

(** [s] is the sample standard deviation of [xs]: NaN for fewer than two
    values; otherwise the square root of [v], where [m] is the mean and
    [v] the squared deviations from [m] summed and divided by [n - 1]. *)
Definition sample_std (xs : list Q) (s : Stat) : Prop :=
  let n := length xs in
  if (n <=? 1)%nat then s = NaN
  else exists m v,
      s = Sqrt v
      /\ (m * Qnat n == Qsum xs)%Q
      /\ (0 <= v)%Q
      /\ (v * Qnat (n - 1) == Qsum (map (fun x => (x - m) * (x - m)) xs))%Q.

(** [m] is the least, the greatest, the mean of the values [xs]. *)
Definition minimum_of (xs : list Q) (m : Q) : Prop :=
  In m xs /\ Forall (fun x => (m <= x)%Q) xs.

Definition maximum_of (xs : list Q) (m : Q) : Prop :=
  In m xs /\ Forall (fun x => (x <= m)%Q) xs.

Definition mean_of (xs : list Q) (m : Q) : Prop :=
  (m * Qnat (length xs) == Qsum xs)%Q.

(** [v] is the quantile [q] of the values [xs], by linear interpolation:
    with the values in ascending order [s_0 <= ... <= s_(n-1)] and
    [h = (n - 1) q], it lies the fraction [h - k] of the way from [s_k] to
    [s_(k+1)], where [k] is [h] rounded down. *)
Definition quantile_of (q : Q) (xs : list Q) (v : Q) : Prop :=
  exists s,
    Permutation s xs /\ StronglySorted Qle s
    /\ let h := (Qnat (length xs - 1) * q)%Q in
       let k := Z.to_nat (Qfloor h) in
       let lo := nth k s 0%Q in
       let hi := nth (S k) s lo in
       (v == lo + (h - inject_Z (Qfloor h)) * (hi - lo))%Q.

(** [d] is the numeric summary of the values [xs]: the eight statistics
    under their labels, in order; all but the count are NaN when there is
    no value. *)
Definition summary_of (xs : list Q) (d : list (string * Stat)) : Prop :=
  map fst d = ["count"; "mean"; "std"; "min"; "25%"; "50%"; "75%"; "max"]
  /\ stat_of "count" d = Some (Num (Qnat (length xs)))
  /\ (exists s, stat_of "std" d = Some s /\ sample_std xs s)
  /\ match xs with
     | [] =>
         Forall (fun label => stat_of label d = Some NaN)
           ["mean"; "min"; "25%"; "50%"; "75%"; "max"]
     | _ :: _ =>
         exists m lo q1 q2 q3 hi,
           stat_of "mean" d = Some (Num m) /\ mean_of xs m
           /\ stat_of "min" d = Some (Num lo) /\ minimum_of xs lo
           /\ stat_of "25%" d = Some (Num q1) /\ quantile_of (1 # 4) xs q1
           /\ stat_of "50%" d = Some (Num q2) /\ quantile_of (1 # 2) xs q2
           /\ stat_of "75%" d = Some (Num q3) /\ quantile_of (3 # 4) xs q3
           /\ stat_of "max" d = Some (Num hi) /\ maximum_of xs hi
     end.

Definition price_table (df : DataFrame) : list (Z * list (string * Stat)) :=
  groupby_describe (map product_id (rows df)) (map price (rows df)).

(** The specified contract of a constructor [DataLoader(path)]: it raises the
    not-found class exactly when the path does not exist; when the path
    exists and the read ends in the parser's empty-file or malformed-file
    error it raises the parse class ([ValueError]); when the read ends in
    another exception it raises [IOError]; and whenever it raises, nothing
    is cached. *)
Definition load_contract
  (init : World -> string -> DataLoader -> Result unit * DataLoader) : Prop :=
  forall w path l0,
    let r := fst (init w path l0) in
    let l := snd (init w path l0) in
    (raised_class r = Some FileNotFoundError <-> path_exists w path = false)
    /\ (forall e, path_exists w path = true -> read_csv w path = Raise e ->
                  exc_class e = EmptyDataError \/ exc_class e = ParserError ->
                  raised_class r = Some ValueError)
    /\ (forall e, path_exists w path = true -> read_csv w path = Raise e ->
                  exc_class e <> FileNotFoundError ->
                  exc_class e <> EmptyDataError ->
                  exc_class e <> ParserError ->
                  raised_class r = Some IOError)
    /\ (is_raise r = true -> data l = None).

(** The class [sales_analysis.py] turns an exception of the read into. *)
Definition reraised_class (c : ExcClass) : ExcClass :=
  match c with
  | FileNotFoundError => FileNotFoundError
  | EmptyDataError | ParserError => ValueError
  | _ => IOError
  end.

(** The table [get_weekly_sales] leaves cached. *)
Definition table_after_weekly `{PandasRuntime} (df : DataFrame) : DataFrame :=
  if has_column "date" df then
    match to_datetime (map date (rows df)) with
    | Return ts => setitem_week (week_numbers ts) df
    | Raise _ => df
    end
  else df.

(** The cell [astype(str)] makes of a cell read from the file: an integer
    becomes its decimal digits, a float the text it prints as, text stays
    as it is, and a missing value becomes the text [nan] or stays missing
    (which of the two is the release's). *)
Definition text_of `{PandasRuntime} (raw cached : Cell) : Prop :=
  match raw with
  | CInt z => cached = CStr (str_of_Z z)
  | CFloat q => cached = CStr (float_repr q)
  | CStr s => cached = CStr s
  | CNaN => cached = CStr "nan" \/ cached = CNaN
  end.

(** The cached row [r'] is the row [r] of the file with its branch cell
    made text, and nothing else changed. *)
Definition loaded_row `{PandasRuntime} (r r' : Row) : Prop :=
  text_of (branch_id r) (branch_id r') /\ r' = set_branch_id (branch_id r') r.

(** Every branch cell of the table is text. *)
Definition branch_text (df : DataFrame) : Prop :=
  Forall (fun r => is_text (branch_id r) = true) (rows df).

(** A table is cached, it has the [branch_id] column, and the column is
    text. *)
Definition loaded_text (l : DataLoader) : Prop :=
  exists df,
    data l = Some df /\ has_column "branch_id" df = true /\ branch_text df.

(** The loader holds a table that has the [branch_id] column, with the
    cells of [df] in it. *)
Definition same_branch_column (df : DataFrame) (l : DataLoader) : Prop :=
  exists df',
    data l = Some df' /\ has_column "branch_id" df' = true
    /\ map branch_id (rows df') = map branch_id (rows df).

(** Two calls end alike: in the same loader state, and either both return
    the same value or both raise an exception of the same class. *)
Definition agree {A} (r1 r2 : Result A * DataLoader) : Prop :=
  snd r1 = snd r2
  /\ match fst r1, fst r2 with
     | Return a, Return b => a = b
     | Raise e1, Raise e2 => exc_class e1 = exc_class e2
     | _, _ => False
     end.

Definition report_names : list string :=
  ["monthly_sales"; "price"; "weekly_sales"; "product_preference";
   "sales_distribution"].

(** An exception a report raises: [ValueError], its message the report's
    prefix followed by the message of a cause, which is the message of the
    exception the load raised ([get_data] is the report's way to the
    table) or one of the messages [causes] of the report's own faults. *)
Definition load_failure
  (get_data : DataLoader -> Result (option DataFrame) * DataLoader)
  (l : DataLoader) (cause : string) : Prop :=
  exists c, fst (get_data l) = Raise c /\ cause = exc_msg c.

Definition report_error
  (get_data : DataLoader -> Result (option DataFrame) * DataLoader)
  (l : DataLoader) (prefix : string) (causes : string -> Prop) (e : Exc)
  : Prop :=
  exists cause,
    e = mkExc ValueError (prefix ++ cause)
    /\ (load_failure get_data l cause \/ causes cause).

(** The message of the exception the conversion of the served table's
    date column raises. *)
Definition conversion_failure `{PandasRuntime}
  (get_data : DataLoader -> Result (option DataFrame) * DataLoader)
  (l : DataLoader) (cause : string) : Prop :=
  exists df c,
    fst (get_data l) = Return (Some df)
    /\ to_datetime (map date (rows df)) = Raise c
    /\ cause = exc_msg c.

(** The messages of the faults of each report's own: a column the table
    does not have (the [KeyError] of a subscript prints the label in
    quotes, that of a grouping says "Column not found"), no row for the
    branch, a date column that does not convert. *)
Definition monthly_causes (v : PyStr) (m : string) : Prop :=
  m = "'branch_id'"
  \/ m = ("No data found for branch ID: " ++ format_PyStr v)%string.

Definition price_causes (m : string) : Prop :=
  m = "'product_id'" \/ m = "'Column not found: price'".

Definition weekly_causes `{PandasRuntime}
  (get_data : DataLoader -> Result (option DataFrame) * DataLoader)
  (l : DataLoader) (m : string) : Prop :=
  m = "'date'" \/ conversion_failure get_data l m
  \/ m = "'Column not found: sales_amount'".

Definition preference_causes (m : string) : Prop :=
  m = "'product_id'" \/ m = "'Column not found: sales_amount'".

Definition distribution_causes (m : string) : Prop := m = "'sales_amount'".

(** What [get_weekly_sales] returns or raises on a cached table. *)
Definition weekly_sales_result `{PandasRuntime} (df : DataFrame)
  : Result (list (Z * Q)) :=
  let wrap (e : Exc) : Result (list (Z * Q)) :=
    Raise (mkExc ValueError
             ("Error fetching weekly sales data: " ++ exc_msg e)) in
  match getitem "date" date df with
  | Raise e => wrap e
  | Return dates =>
      match to_datetime dates with
      | Raise e => wrap e
      | Return ts =>
          let df' := setitem_week (week_numbers ts) df in
          match getitem "week" week df' with
          | Raise e => wrap e
          | Return keys =>
              match groupby_getitem "sales_amount" sales_amount df' with
              | Raise e => wrap e
              | Return vals => Return (groupby_sum keys vals)
              end
          end
      end
  end.

(** Two outcomes of [get_monthly_sales] that differ at most in the [week]
    column of the rows returned. *)
Definition same_up_to_week (r1 r2 : Result DataFrame) : Prop :=
  match r1, r2 with
  | Return o1, Return o2 =>
      map forget_week (rows o1) = map forget_week (rows o2)
  | Raise e1, Raise e2 => e1 = e2
  | _, _ => False
  end.

(** A line of the terminal that reports an error [main] did not expect. *)
Definition is_unexpected (o : Output) : bool :=
  match o with
  | Print s => String.prefix "An unexpected error occurred: " s
  | _ => false
  end.

(** The row's branch cell, as read from the file, is the integer [z]. *)
Definition has_int_id (z : Z) (r : Row) : bool :=
  match branch_id r with
  | CInt n => (n =? z)%Z
  | _ => false
  end.

(** A line [main] may print: anything but the report of an unexpected
    error. *)
Definition expected (o : Output) : bool := negb (is_unexpected o).

(** [main] ended without an exception of the program leaving it, and
    printed expected lines only. *)
Definition handled (res : list Output * DataLoader * Ending) : Prop :=
  let '(out, _, e) := res in
  (e = Returned \/ e = EndOfInput) /\ forallb expected out = true.

(** The page [index] renders for the outcome of a report that returns a
    frame: the frame as an HTML table, or the message of the error. *)
Definition report_page {A} (analysis_type : string) (to_report : A -> Report)
  (c : Result A * DataLoader) : Response * DataLoader :=
  match c with
  | (Return a, l) =>
      (Rendered (mkContext (Some (HtmlTable (to_report a))) None
                   (Some analysis_type)), l)
  | (Raise e, l) =>
      (Rendered (mkContext None (Some (exc_msg e)) (Some analysis_type)), l)
  end.

(** The page [index] renders for the outcome of a report that returns a
    series: never a result; the message of the report's error, or, when
    the report returned, the message of the [AttributeError] that
    [to_html] raises on a series. *)
Definition series_page {A} (analysis_type : string)
  (c : Result A * DataLoader) : Response * DataLoader :=
  match c with
  | (Return _, l) =>
      (Rendered (mkContext None
                   (Some "'Series' object has no attribute 'to_html'")
                   (Some analysis_type)), l)
  | (Raise e, l) =>
      (Rendered (mkContext None (Some (exc_msg e)) (Some analysis_type)), l)
  end.

(** ** A runtime

    An executable instance of the library interface.  It converts ISO
    dates ([YYYY-MM-DD]) only, prints a float that has a short decimal
    expansion as Python does ([1.0], [2.5]), leaves a missing value missing
    under [astype(str)] as release 3 of the dataframe library does, sorts
    as NumPy's scalar [kind='quicksort'] does for [argsort] (an introsort:
    median-of-three partition above 17 elements, insertion sort below), and
    adds exactly, which is what binary64 does on the whole amounts of the
    sample files. *)

Definition digit_of (c : ascii) : option Z :=
  let n := nat_of_ascii c in
  if ((48 <=? n) && (n <=? 57))%nat then Some (Z.of_nat (n - 48)) else None.

Fixpoint number_of (acc : Z) (cs : list ascii) : option Z :=
  match cs with
  | [] => Some acc
  | c :: cs' =>
      match digit_of c with
      | Some d => number_of (acc * 10 + d)%Z cs'
      | None => None
      end
  end.

Definition valid_date (y m d : Z) : bool :=
  ((1 <=? y) && (1 <=? m) && (m <=? 12) && (1 <=? d) && (d <=? days_in_month y m))%Z.

Definition parse_iso_date (s : string) : option Date :=
  match list_ascii_of_string s with
  | [y1; y2; y3; y4; s1; m1; m2; s2; d1; d2] =>
      if (Ascii.eqb s1 "-" && Ascii.eqb s2 "-")%bool then
        match number_of 0 [y1; y2; y3; y4], number_of 0 [m1; m2], number_of 0 [d1; d2] with
        | Some y, Some m, Some d =>
            if valid_date y m d then Some (mkDate y m d) else None
        | _, _, _ => None
        end
      else None
  | _ => None
  end.

Fixpoint iso_to_datetime (col : list (option string))
  : Result (list (option Date)) :=
  match col with
  | [] => Return []
  | c :: col' =>
      match c with
      | Some s =>
          match parse_iso_date s with
          | Some d =>
              match iso_to_datetime col' with
              | Return ts => Return (Some d :: ts)
              | Raise e => Raise e
              end
          | None =>
              Raise (mkExc ValueError
                       ("Unknown datetime string format, unable to parse: " ++ s))
          end
      | None =>
          match iso_to_datetime col' with
          | Return ts => Return (None :: ts)
          | Raise e => Raise e
          end
      end
  end.

Lemma iso_to_datetime_length col :
  forall ts, iso_to_datetime col = Return ts -> length ts = length col.
Proof.
  induction col as [|c col IH]; intros ts Hts; simpl in Hts.
  - now inversion Hts.
  - destruct c as [s|].
    + destruct (parse_iso_date s); [|discriminate].
      destruct (iso_to_datetime col); inversion Hts; subst; simpl.
      f_equal. now apply IH.
    + destruct (iso_to_datetime col); inversion Hts; subst; simpl.
      f_equal. now apply IH.
Qed.

(** [str(x)] of a float [x]: the integral part, the point, and the digits
    of the fraction ([0] when there is none).  Python prints the shortest
    decimal that reads back as [x] and switches to the exponent form from
    [1e16] on; the two agree on the floats that have a decimal expansion
    of 17 digits at most below that bound, which is where this function
    is used. *)
Fixpoint fraction_digits (fuel : nat) (n d : Z) : string :=
  match fuel with
  | O => ""
  | S fuel' =>
      if (n =? 0)%Z then ""
      else str_of_Z (n * 10 / d) ++ fraction_digits fuel' ((n * 10) mod d) d
  end.

Definition python_float_str (q : Q) : string :=
  let n := Z.abs (Qnum q) in
  let d := Zpos (Qden q) in
  (if (Qnum q <? 0)%Z then "-" else "")
    ++ str_of_Z (n / d) ++ "."
    ++ (if (n mod d =? 0)%Z then "0" else fraction_digits 17 (n mod d) d).

Lemma StronglySorted_snoc {A} (R : A -> A -> Prop) l a :
  StronglySorted R l -> Forall (fun x => R x a) l -> StronglySorted R (l ++ [a]).
Proof.
  induction 1 as [|y l Hs IH Hall]; intros Ha; simpl.
  - repeat constructor.
  - inversion Ha; subst. constructor; [now apply IH|].
    apply Forall_app. split; [exact Hall|now constructor].
Qed.

Lemma StronglySorted_rev {A} (R : A -> A -> Prop) l :
  StronglySorted R l -> StronglySorted (fun a b => R b a) (rev l).
Proof.
  induction 1 as [|y l Hs IH Hall]; simpl.
  - constructor.
  - apply StronglySorted_snoc; [exact IH|].
    apply Forall_rev. exact Hall.
Qed.

(** *** NumPy's [argsort] with [kind='quicksort']

    [aquicksort_] of [npysort/quicksort.cpp] sorts an array of positions
    by the values at them, in place; it is given here on lists, segment by
    segment.  A position never compares equal to another by accident of
    the model: two positions are exchanged exactly when the C code
    exchanges them, so equal values come out in NumPy's order. *)

Section Quicksort.

(** The positions of an array are ordered by the values [key] gives
    them. *)
Variable key : nat -> Q.

(** [v[i] < v[j]] *)
Definition less (i j : nat) : bool := negb (Qle_bool (key j) (key i)).

Definition key_le (i j : nat) : Prop := (key i <= key j)%Q.

(** The insertion sort of a short segment: each element in turn moves
    left past the elements that are greater; [run] is the sorted part, last
    element first. *)
Fixpoint insert_back (x : nat) (run : list nat) : list nat :=
  match run with
  | [] => [x]
  | y :: run' => if less x y then y :: insert_back x run' else x :: run
  end.

Definition insertion_sort (a : list nat) : list nat :=
  rev (fold_left (fun run x => insert_back x run) a []).

(** The longest prefix of [l] on which [p] holds, and the rest. *)
Fixpoint span (p : nat -> bool) (l : list nat) : list nat * list nat :=
  match l with
  | [] => ([], [])
  | x :: l' =>
      if p x then let (a, b) := span p l' in (x :: a, b) else ([], l)
  end.

(** The partition loop.  The segment is [acc ++ M ++ rs ++ [P; z]]: the
    pivot [P] waits in the last place but one, [acc] is what the left
    pointer has passed (nothing greater than the pivot), [rs] what the right
    pointer has passed (nothing less), [M] lies between them.  The left
    pointer skips the elements of [M] less than the pivot, the right
    pointer those greater; when they have not met, the two elements they
    stopped at are exchanged and the loop goes on between them; when they
    have, the element under the left pointer and the pivot are exchanged.
    The result is what lies left of the pivot, the pivot, and what lies
    right of it. *)
Fixpoint hoare (fuel : nat) (acc M rs : list nat) (P z : nat)
  : list nat * nat * list nat :=
  let (L1, R) := span (fun i => less i P) M in
  match R with
  | [] =>
      match rs with
      | [] => (acc ++ L1, P, [z])
      | h :: T => (acc ++ L1, P, T ++ [h; z])
      end
  | x :: R1 =>
      let (S2, Rem) := span (fun i => less P i) (rev R) in
      match Rem with
      | y :: W =>
          match rev W, fuel with
          | _ :: Mid, S fuel' =>
              hoare fuel' (acc ++ L1 ++ [y]) Mid (x :: rev S2 ++ rs) P z
          | _, _ => (acc ++ L1, P, R1 ++ rs ++ [x; z])
          end
      | [] => (acc ++ L1, P, R1 ++ rs ++ [x; z])
      end
  end.

(** The first, the middle and the last element of a segment after the
    three exchanges that put the median of their values in the middle. *)
Definition median3 (x0 xm xr : nat) : nat * nat * nat :=
  let '(x0, xm) := if less xm x0 then (xm, x0) else (x0, xm) in
  let '(xm, xr) := if less xr xm then (xr, xm) else (xm, xr) in
  let '(x0, xm) := if less xm x0 then (xm, x0) else (x0, xm) in
  (x0, xm, xr).

(** One partition of a segment [a] of four elements or more: the median
    of three goes to the last place but one (the element there takes its
    place), and the loop runs on what lies between the first and it. *)
Definition npy_partition (a : list nat) : list nat * nat * list nat :=
  let pm := ((length a - 1) / 2)%nat in
  match a with
  | x0 :: rest =>
      match skipn (pm - 1) rest with
      | xm :: rest2 =>
          match rev rest2 with
          | xr :: b :: B =>
              let '(x0', xm', xr') := median3 x0 xm xr in
              hoare (length a) [x0'] (firstn (pm - 1) rest ++ b :: rev B) []
                xm' xr'
          | _ => ([], x0, rest)
          end
      | [] => ([], x0, rest)
      end
  | [] => ([], 0%nat, [])
  end.

(** The sort the quicksort hands a segment to when it has partitioned
    [cdepth] times on the way to it. *)
Variable heap_sort : list nat -> list nat.

(** [aquicksort_] on a segment: segments of more than 17 positions are
    partitioned, shorter ones sorted by insertion.  [cdepth] is the depth
    left, twice the binary logarithm of the array's length at the start;
    the test for its exhaustion is made ([check]) on the larger part of a
    partition, which waited on the stack, not on the smaller one, on which
    the loop goes on at once.  [fuel] bounds the recursion; the length of
    the segment is enough. *)
Fixpoint aquicksort_ (fuel : nat) (cdepth : Z) (check : bool) (a : list nat)
  : list nat :=
  match fuel with
  | O => insertion_sort a
  | S fuel' =>
      if (check && (cdepth <? 0)%Z)%bool then heap_sort a
      else if (17 <? length a)%nat then
        let '(lo, p, hi) := npy_partition a in
        let small_left := (length lo <? length hi)%nat in
        aquicksort_ fuel' (cdepth - 1) (negb small_left) lo
          ++ p :: aquicksort_ fuel' (cdepth - 1) small_left hi
      else insertion_sort a
  end.

(** The positions [0 .. num - 1] sorted. *)
Definition npy_aquicksort (num : nat) : list nat :=
  aquicksort_ num (2 * Z.log2 (Z.of_nat num)) true (seq 0 num).

Lemma less_true i j : less i j = true -> (key i < key j)%Q.
Proof.
  unfold less. intros H. apply negb_true_iff in H.
  apply Qnot_le_lt. intro Hle. apply Qle_bool_iff in Hle. congruence.
Qed.

Lemma less_false i j : less i j = false -> key_le j i.
Proof.
  unfold less, key_le. intros H. apply negb_false_iff in H.
  now apply Qle_bool_iff.
Qed.

Lemma key_le_trans i j k : key_le i j -> key_le j k -> key_le i k.
Proof. unfold key_le. apply Qle_trans. Qed.

Lemma less_key_le i j : less i j = true -> key_le i j.
Proof. intros H. apply Qlt_le_weak. now apply less_true. Qed.

Ltac perm_count :=
  apply (Permutation_count_occ Nat.eq_dec); intro;
  repeat (progress (rewrite ?count_occ_app, ?count_occ_rev; simpl));
  repeat match goal with
    | |- context [Nat.eq_dec ?a ?b] => destruct (Nat.eq_dec a b)
    end;
  lia.

Lemma insert_back_perm x run : Permutation (insert_back x run) (x :: run).
Proof.
  induction run as [|y run IH]; simpl; [apply Permutation_refl|].
  destruct (less x y); [|apply Permutation_refl].
  eapply Permutation_trans; [apply perm_skip, IH|apply perm_swap].
Qed.

Lemma insert_back_sorted x run :
  StronglySorted (fun a b => key_le b a) run ->
  StronglySorted (fun a b => key_le b a) (insert_back x run).
Proof.
  induction 1 as [|y run Hs IH Hall]; simpl.
  - repeat constructor.
  - destruct (less x y) eqn:E.
    + constructor; [exact IH|].
      eapply Permutation_Forall;
        [apply Permutation_sym, insert_back_perm|].
      constructor; [now apply less_key_le|exact Hall].
    + apply less_false in E.
      constructor; [now constructor|].
      constructor; [exact E|].
      eapply Forall_impl; [|exact Hall].
      intros k Hk. cbv beta in *. eapply key_le_trans; eauto.
Qed.

Lemma fold_insert_back_perm a :
  forall run,
    Permutation (fold_left (fun run x => insert_back x run) a run) (a ++ run).
Proof.
  induction a as [|x a IH]; intros run; simpl; [apply Permutation_refl|].
  eapply Permutation_trans; [apply IH|].
  eapply Permutation_trans;
    [apply Permutation_app_head, insert_back_perm|].
  apply Permutation_sym, Permutation_middle.
Qed.

Lemma fold_insert_back_sorted a :
  forall run,
    StronglySorted (fun a b => key_le b a) run ->
    StronglySorted (fun a b => key_le b a)
      (fold_left (fun run x => insert_back x run) a run).
Proof.
  induction a as [|x a IH]; intros run Hs; simpl; [exact Hs|].
  apply IH. now apply insert_back_sorted.
Qed.

Lemma insertion_sort_perm a : Permutation (insertion_sort a) a.
Proof.
  unfold insertion_sort.
  eapply Permutation_trans; [apply Permutation_sym, Permutation_rev|].
  eapply Permutation_trans; [apply fold_insert_back_perm|].
  now rewrite app_nil_r.
Qed.

Lemma insertion_sort_sorted a : StronglySorted key_le (insertion_sort a).
Proof.
  unfold insertion_sort.
  apply (StronglySorted_rev (fun a b => key_le b a)).
  apply fold_insert_back_sorted. constructor.
Qed.

Lemma span_spec p l a b :
  span p l = (a, b) ->
  l = a ++ b /\ Forall (fun x => p x = true) a
  /\ match b with [] => True | x :: _ => p x = false end.
Proof.
  revert a b. induction l as [|x l IH]; intros a b; simpl.
  - intros H. inversion H. repeat split; constructor.
  - destruct (p x) eqn:E.
    + destruct (span p l) as [a' b'] eqn:Es. intros H. inversion H; subst.
      destruct (IH a' b eq_refl) as [Hl [Ha Hb]].
      split; [simpl; now f_equal|]. split; [now constructor|exact Hb].
    + intros H. inversion H; subst. repeat split; [constructor|exact E].
Qed.

Lemma hoare_spec fuel :
  forall acc M rs P z lo p hi,
    (length M <= fuel)%nat ->
    Forall (fun i => key_le i P) acc ->
    Forall (fun i => key_le P i) rs ->
    key_le P z ->
    hoare fuel acc M rs P z = (lo, p, hi) ->
    p = P
    /\ Permutation (lo ++ p :: hi) (acc ++ M ++ rs ++ [P; z])
    /\ Forall (fun i => key_le i P) lo
    /\ Forall (fun i => key_le P i) hi.
Proof.
  induction fuel as [|fuel IH]; intros acc M rs P z lo p hi Hlen Hacc Hrs Hz.
  - destruct M; [|simpl in Hlen; lia].
    simpl. destruct rs as [|h T]; intros H; inversion H; subst.
    + split; [reflexivity|]. split; [perm_count|].
      split; [now rewrite app_nil_r|]. now constructor.
    + inversion Hrs; subst.
      split; [reflexivity|]. split; [perm_count|].
      split; [now rewrite app_nil_r|].
      apply Forall_app. split; [assumption|]. now repeat constructor.
  - cbn [hoare].
    destruct (span (fun i => less i P) M) as [L1 R] eqn:E1.
    apply span_spec in E1. destruct E1 as [HM [HL1 HR]].
    assert (HL1' : Forall (fun i => key_le i P) L1).
    { eapply Forall_impl; [|exact HL1]. intros i Hi. now apply less_key_le. }
    assert (Hleft : Forall (fun i => key_le i P) (acc ++ L1))
      by (apply Forall_app; now split).
    destruct R as [|x R1].
    + destruct rs as [|h T]; intros H; inversion H; subst.
      * split; [reflexivity|]. split; [perm_count|].
        split; [exact Hleft|]. now constructor.
      * inversion Hrs; subst.
        split; [reflexivity|]. split; [perm_count|].
        split; [exact Hleft|].
        apply Forall_app. split; [assumption|]. now repeat constructor.
    + apply less_false in HR.
      destruct (span (fun i => less P i) (rev (x :: R1))) as [S2 Rem] eqn:E2.
      apply span_spec in E2. destruct E2 as [HR' [HS2 HRem]].
      assert (HS2' : Forall (fun i => key_le P i) S2).
      { eapply Forall_impl; [|exact HS2]. intros i Hi. now apply less_key_le. }
      assert (Hrev : x :: R1 = rev Rem ++ rev S2).
      { rewrite <- rev_app_distr, <- HR'. now rewrite rev_involutive. }
      assert (Hbreak : forall lo p hi,
                 (Rem = [] \/ exists y, Rem = [y]) ->
                 (acc ++ L1, P, R1 ++ rs ++ [x; z]) = (lo, p, hi) ->
                 p = P
                 /\ Permutation (lo ++ p :: hi) (acc ++ M ++ rs ++ [P; z])
                 /\ Forall (fun i => key_le i P) lo
                 /\ Forall (fun i => key_le P i) hi).
      { intros lo' p' hi' Hcase H. inversion H; subst lo' p' hi'.
        split; [reflexivity|].
        split; [rewrite HM; perm_count|].
        split; [exact Hleft|].
        apply Forall_app. split.
        - destruct Hcase as [->|[y ->]]; simpl in Hrev.
          + assert (Hin : Forall (fun i => key_le P i) (x :: R1))
              by (rewrite Hrev; now apply Forall_rev).
            now inversion Hin.
          + inversion Hrev; subst. now apply Forall_rev.
        - apply Forall_app. split; [exact Hrs|]. now repeat constructor. }
      destruct Rem as [|y W]; [intros H; apply Hbreak; auto|].
      destruct (rev W) as [|x' Mid] eqn:EW.
      * assert (W = []).
        { apply (f_equal (@rev nat)) in EW. now rewrite rev_involutive in EW. }
        subst W. intros H; apply Hbreak; eauto.
      * apply less_false in HRem.
        assert (HW : W = rev (x' :: Mid))
          by (rewrite <- EW; now rewrite rev_involutive).
        simpl in Hrev. rewrite EW in Hrev. simpl in Hrev.
        inversion Hrev; subst x'.
        assert (HMlen : length M = (length L1 + S (length Mid + S (length S2)))%nat).
        { rewrite HM, length_app. simpl. rewrite H1, !length_app. simpl.
          rewrite length_rev. lia. }
        intros H. apply IH in H; [| lia | |  | exact Hz].
        -- destruct H as [-> [Hperm [Hl Hr]]].
           split; [reflexivity|]. split; [|split; assumption].
           eapply Permutation_trans; [exact Hperm|].
           rewrite HM, H1. perm_count.
        -- rewrite app_assoc. apply Forall_app. split; [exact Hleft|].
           now repeat constructor.
        -- constructor; [exact HR|]. apply Forall_app. split; [|exact Hrs].
           now apply Forall_rev.
Qed.

Lemma median3_spec x0 xm xr a b c :
  median3 x0 xm xr = (a, b, c) ->
  key_le a b /\ key_le b c /\ Permutation [a; b; c] [x0; xm; xr].
Proof.
  unfold median3, key_le.
  destruct (less xm x0) eqn:E1;
    [apply less_true in E1|apply less_false in E1; unfold key_le in E1].
  - destruct (less xr x0) eqn:E2;
      [apply less_true in E2|apply less_false in E2; unfold key_le in E2].
    + destruct (less xr xm) eqn:E3;
        [apply less_true in E3|apply less_false in E3; unfold key_le in E3];
        intros H; inversion H; subst;
        (split; [lra|]); (split; [lra|]); perm_count.
    + destruct (less x0 xm) eqn:E3;
        [apply less_true in E3|apply less_false in E3; unfold key_le in E3];
        intros H; inversion H; subst;
        (split; [lra|]); (split; [lra|]); perm_count.
  - destruct (less xr xm) eqn:E2;
      [apply less_true in E2|apply less_false in E2; unfold key_le in E2].
    + destruct (less xr x0) eqn:E3;
        [apply less_true in E3|apply less_false in E3; unfold key_le in E3];
        intros H; inversion H; subst;
        (split; [lra|]); (split; [lra|]); perm_count.
    + destruct (less xm x0) eqn:E3;
        [apply less_true in E3|apply less_false in E3; unfold key_le in E3];
        intros H; inversion H; subst;
        (split; [lra|]); (split; [lra|]); perm_count.
Qed.

Lemma npy_partition_spec a lo p hi :
  (4 <= length a)%nat ->
  npy_partition a = (lo, p, hi) ->
  Permutation (lo ++ p :: hi) a
  /\ Forall (fun i => key_le i p) lo
  /\ Forall (fun i => key_le p i) hi
  /\ (length lo < length a)%nat /\ (length hi < length a)%nat.
Proof.
  intros Hlen. unfold npy_partition.
  destruct a as [|x0 rest]; [simpl in Hlen; lia|].
  set (pm := ((length (x0 :: rest) - 1) / 2)%nat).
  assert (Hpm : (1 <= pm /\ pm < length rest - 1)%nat).
  { unfold pm. cbn [length] in *.
    replace (S (length rest) - 1)%nat with (length rest) by lia. split.
    - apply Nat.div_le_lower_bound; lia.
    - apply Nat.Div0.div_lt_upper_bound. lia. }
  pose proof (firstn_skipn (pm - 1) rest) as Hsplit.
  assert (Hskip : length (skipn (pm - 1) rest) = (length rest - (pm - 1))%nat)
    by apply length_skipn.
  destruct (skipn (pm - 1) rest) as [|xm rest2] eqn:Es;
    [simpl in Hskip; lia|].
  simpl in Hskip.
  assert (Hrev2 : length (rev rest2) = length rest2) by apply length_rev.
  destruct (rev rest2) as [|xr [|b B]] eqn:Er;
    [simpl in Hrev2; lia|simpl in Hrev2; lia|].
  assert (Hrest2 : rest2 = rev B ++ [b; xr]).
  { apply (f_equal (@rev nat)) in Er. rewrite rev_involutive in Er.
    rewrite Er. simpl. now rewrite <- app_assoc. }
  destruct (median3 x0 xm xr) as [[x0' xm'] xr'] eqn:Em.
  apply median3_spec in Em. destruct Em as [H0 [Hr Hperm3]].
  intros H. apply hoare_spec in H;
    [|rewrite length_app, length_firstn; cbn [length]; rewrite length_rev;
      pose proof (f_equal (@length nat) Hrest2) as Hl2;
      rewrite length_app, length_rev in Hl2; cbn [length] in Hl2; lia
     |now repeat constructor|constructor|exact Hr].
  destruct H as [-> [Hperm [Hlo Hhi]]].
  clear Hpm Es Hskip Hlen Hrev2 Er. clearbody pm.
  remember (firstn (pm - 1) rest) as A eqn:HA. clear HA.
  subst rest rest2.
  assert (Hall : Permutation (lo ++ xm' :: hi)
                   (x0 :: A ++ xm :: rev B ++ [b; xr])).
  { eapply Permutation_trans; [exact Hperm|].
    pose proof (proj1 (Permutation_count_occ Nat.eq_dec _ _) Hperm3) as Hc.
    apply (Permutation_count_occ Nat.eq_dec). intro y. specialize (Hc y).
    revert Hc.
    repeat (progress (rewrite ?count_occ_app, ?count_occ_rev; simpl)).
    repeat match goal with
      | |- context [Nat.eq_dec ?a ?b] => destruct (Nat.eq_dec a b)
      end; lia. }
  split; [exact Hall|]. split; [exact Hlo|]. split; [exact Hhi|].
  apply Permutation_length in Hall. rewrite length_app in Hall.
  simpl in Hall. simpl. lia.
Qed.

Hypothesis heap_sort_perm : forall a, Permutation (heap_sort a) a.
Hypothesis heap_sort_sorted : forall a, StronglySorted key_le (heap_sort a).

Lemma aquicksort_perm fuel :
  forall cdepth check a, Permutation (aquicksort_ fuel cdepth check a) a.
Proof.
  induction fuel as [|fuel IH]; intros cdepth check a; simpl;
    [apply insertion_sort_perm|].
  destruct (check && (cdepth <? 0)%Z)%bool; [apply heap_sort_perm|].
  destruct (Nat.ltb_spec 17 (length a)) as [Hn|_];
    [|apply insertion_sort_perm].
  destruct (npy_partition a) as [[lo p] hi] eqn:Ep.
  apply npy_partition_spec in Ep; [|lia]. destruct Ep as [Hperm _].
  eapply Permutation_trans; [|exact Hperm].
  apply Permutation_app; [apply IH|]. apply perm_skip, IH.
Qed.

Lemma sorted_around_pivot lo p hi :
  StronglySorted key_le lo -> StronglySorted key_le hi ->
  Forall (fun i => key_le i p) lo -> Forall (fun i => key_le p i) hi ->
  StronglySorted key_le (lo ++ p :: hi).
Proof.
  intros Hlo Hhi Hle Hge.
  induction Hlo as [|x lo Hs IH Hall]; simpl.
  - now constructor.
  - inversion Hle; subst. constructor; [now apply IH|].
    apply Forall_app. split; [exact Hall|].
    constructor; [assumption|].
    eapply Forall_impl; [|exact Hge].
    intros k Hk. cbv beta in *. eapply key_le_trans; eauto.
Qed.

Lemma aquicksort_sorted fuel :
  forall cdepth check a,
    StronglySorted key_le (aquicksort_ fuel cdepth check a).
Proof.
  induction fuel as [|fuel IH]; intros cdepth check a; simpl;
    [apply insertion_sort_sorted|].
  destruct (check && (cdepth <? 0)%Z)%bool; [apply heap_sort_sorted|].
  destruct (Nat.ltb_spec 17 (length a)) as [Hn|_];
    [|apply insertion_sort_sorted].
  destruct (npy_partition a) as [[lo p] hi] eqn:Ep.
  apply npy_partition_spec in Ep; [|lia]. destruct Ep as [_ [Hlo [Hhi _]]].
  apply sorted_around_pivot; try apply IH.
  - eapply Permutation_Forall; [apply Permutation_sym, aquicksort_perm|].
    exact Hlo.
  - eapply Permutation_Forall; [apply Permutation_sym, aquicksort_perm|].
    exact Hhi.
Qed.

End Quicksort.

(** The heap sort NumPy switches to at depth exhaustion is replaced by the
    insertion sort here: both sort the segment, and they may leave equal
    values in different orders.  The depth is exhausted only on arrays that
    defeat the median of three again and again. *)
Definition numpy_argsort (xs : list Q) : list nat :=
  let key := fun i => nth i xs 0%Q in
  npy_aquicksort key (insertion_sort key) (length xs).

Lemma numpy_argsort_perm xs :
  Permutation (numpy_argsort xs) (seq 0 (length xs)).
Proof.
  unfold numpy_argsort, npy_aquicksort.
  apply aquicksort_perm. apply insertion_sort_perm.
Qed.

Lemma StronglySorted_map {A B} (f : A -> B) (R : B -> B -> Prop) l :
  StronglySorted (fun a b => R (f a) (f b)) l -> StronglySorted R (map f l).
Proof.
  induction 1 as [|x l Hs IH Hall]; simpl; constructor; [exact IH|].
  now apply Forall_map.
Qed.

Lemma numpy_argsort_sorted xs :
  StronglySorted Qle (take 0%Q xs (numpy_argsort xs)).
Proof.
  unfold take. apply StronglySorted_map.
  unfold numpy_argsort, npy_aquicksort.
  apply (aquicksort_sorted (fun i => nth i xs 0%Q)).
  - apply insertion_sort_perm.
  - apply insertion_sort_sorted.
Qed.

Lemma Qsum_exact xs : exact_in_binary64 xs -> (Qsum xs == Qsum xs)%Q.
Proof. reflexivity. Qed.

Definition pandas_runtime : PandasRuntime :=
  {| float_repr := python_float_str;
     astype_str_keeps_missing := true;
     to_datetime := iso_to_datetime;
     to_datetime_length := iso_to_datetime_length;
     argsort := numpy_argsort;
     argsort_perm := numpy_argsort_perm;
     argsort_sorted := numpy_argsort_sorted;
     float_sum := Qsum;
     float_sum_exact := Qsum_exact |}.

(** ** Sample files

    The table of the unit tests' fixture as [read_csv] returns it (integer
    branch column), and files for the corner cases. *)

Definition raw_row (b : Z) (d : string) (p amount price_ : Z) : Row :=
  mkRow (CInt b) (Some d) (Some p) (Some (inject_Z amount))
        (Some (inject_Z price_)) None.

Definition sample_csv : DataFrame :=
  mkFrame required_columns
    [ raw_row 1 "2023-01-01" 101 100 10;
      raw_row 1 "2023-01-08" 101 150 10;
      raw_row 1 "2023-01-15" 102 200 20;
      raw_row 2 "2023-01-01" 101 120 10;
      raw_row 2 "2023-01-08" 103 130 15;
      raw_row 2 "2023-01-15" 104 140 20 ].

(** A file whose header has no [branch_id]. *)
Definition no_branch_csv : DataFrame :=
  mkFrame ["date"; "product_id"; "sales_amount"; "price"]
    [ mkRow CNaN (Some "2023-01-01") (Some 101%Z) (Some (inject_Z 100))
            (Some (inject_Z 10)) None ].

(** A file with an empty [product_id] field in its second record and an
    empty [date] field in its third. *)
Definition gaps_csv : DataFrame :=
  mkFrame required_columns
    [ raw_row 1 "2023-01-02" 101 100 10;
      mkRow (CInt 1) (Some "2023-01-03") None (Some (inject_Z 50))
            (Some (inject_Z 10)) None;
      mkRow (CInt 2) None (Some 102%Z) (Some (inject_Z 70))
            (Some (inject_Z 20)) None ].

(** Two products with the same total. *)
Definition ties_csv : DataFrame :=
  mkFrame required_columns
    [ raw_row 1 "2023-01-02" 101 200 10;
      raw_row 1 "2023-01-03" 102 200 20;
      raw_row 2 "2023-01-04" 103 500 30 ].

(** Twenty products with one record each: 500 for product 104, 300 for
    product 112 and 100 for each of the others. *)
Definition many_ties_csv : DataFrame :=
  mkFrame required_columns
    (map (fun p => raw_row 1 "2023-01-02" p
                     (if (p =? 104)%Z then 500
                      else if (p =? 112)%Z then 300 else 100) 10)
       (map (fun k => (101 + Z.of_nat k)%Z) (seq 0 20))).

(** A file whose second record has an empty [branch_id] field: the column
    is numeric with a gap, which [read_csv] reads as floats. *)
Definition missing_branch_csv : DataFrame :=
  mkFrame required_columns
    [ mkRow (CFloat (inject_Z 1)) (Some "2023-01-02") (Some 101%Z)
            (Some (inject_Z 100)) (Some (inject_Z 10)) None;
      mkRow CNaN (Some "2023-01-03") (Some 102%Z)
            (Some (inject_Z 50)) (Some (inject_Z 10)) None;
      mkRow (CFloat (inject_Z 2)) (Some "2023-01-04") (Some 102%Z)
            (Some (inject_Z 70)) (Some (inject_Z 20)) None ].

(** A file that has the header line only. *)
Definition header_only_csv : DataFrame := mkFrame required_columns [].

Definition sample_world : World :=
  {| path_exists := fun p =>
       existsb (String.eqb p)
         ["sales_data.csv"; "empty.csv"; "garbled.csv"; "no_branch.csv";
          "gaps.csv"; "ties.csv"; "many_ties.csv"; "missing_branch.csv";
          "header_only.csv"; "locked.csv"; "vanished.csv"];
     read_csv := fun p =>
       if String.eqb p "sales_data.csv" then Return sample_csv
       else if String.eqb p "no_branch.csv" then Return no_branch_csv
       else if String.eqb p "gaps.csv" then Return gaps_csv
       else if String.eqb p "ties.csv" then Return ties_csv
       else if String.eqb p "many_ties.csv" then Return many_ties_csv
       else if String.eqb p "missing_branch.csv" then Return missing_branch_csv
       else if String.eqb p "header_only.csv" then Return header_only_csv
       else if String.eqb p "empty.csv" then
         Raise (mkExc EmptyDataError "No columns to parse from file")
       else if String.eqb p "garbled.csv" then
         Raise (mkExc ParserError "Error tokenizing data")
       else if String.eqb p "locked.csv" then
         Raise (mkExc PermissionError
                  "[Errno 13] Permission denied: 'locked.csv'")
       else
         Raise (mkExc FileNotFoundError
                  ("[Errno 2] No such file or directory: " ++ repr_key p)) |}.

(** The loader before any construction. *)
Definition fresh_loader : DataLoader := mkLoader "" None.

(** The loader after [DataLoader('sales_data.csv')], and its table. *)
Definition sample_loader : DataLoader :=
  snd (SalesAnalysis.__init__ (H := pandas_runtime) sample_world
         "sales_data.csv" fresh_loader).

Definition sample_table : DataFrame :=
  match data sample_loader with Some df => df | None => mkFrame [] [] end.

(** The table [DataLoader('no_branch.csv')] leaves behind: the load fails,
    the parsed frame stays in [data]. *)
Definition no_branch_loader : DataLoader :=
  snd (SalesAnalysis.__init__ (H := pandas_runtime) sample_world
         "no_branch.csv" fresh_loader).

(** The loader after [DataLoader('gaps.csv')], and its table. *)
Definition gaps_loader : DataLoader :=
  snd (SalesAnalysis.__init__ (H := pandas_runtime) sample_world
         "gaps.csv" fresh_loader).

Definition gaps_table : DataFrame :=
  match data gaps_loader with Some df => df | None => mkFrame [] [] end.




Definition missing_branch_loader : DataLoader :=
  snd (SalesAnalysis.__init__ (H := pandas_runtime) sample_world
         "missing_branch.csv" fresh_loader).

Definition header_only_loader : DataLoader :=
  snd (SalesAnalysis.__init__ (H := pandas_runtime) sample_world
         "header_only.csv" fresh_loader).

(** The sample loader after one call of [get_weekly_sales]. *)
Definition sample_loader_after_weekly : DataLoader :=
  snd (SalesAnalysis.get_weekly_sales (H := pandas_runtime) sample_world
         sample_loader).

(** A cached table whose only record has a date that does not convert. *)
Definition bad_date_loader : DataLoader :=
  mkLoader "bad_date.csv"
    (Some (mkFrame required_columns
             [mkRow (CStr "1") (Some "yesterday") (Some 101%Z)
                    (Some (inject_Z 100)) (Some (inject_Z 10)) None])).

(** A file system in which every path exists and every file is empty. *)
Definition empty_file_world : World :=
  {| path_exists := fun _ => true;
     read_csv := fun _ =>
       Raise (mkExc EmptyDataError "No columns to parse from file") |}.

(** * Properties *)

(** ** The reports on the sample table *)

Example sample_monthly_sales_rows :
  match fst (SalesAnalysis.get_monthly_sales (H := pandas_runtime)
               sample_world (Some "1") sample_loader) with
  | Return out => length (rows out)
  | Raise _ => 0%nat
  end = 3%nat.
Proof. reflexivity. Qed.

Example sample_weekly_sales :
  fst (SalesAnalysis.get_weekly_sales (H := pandas_runtime) sample_world
         sample_loader)
  = Return [(1, inject_Z 280); (2, inject_Z 340); (52, inject_Z 220)]%Z.
Proof. reflexivity. Qed.

Example sample_product_preference :
  fst (SalesAnalysis.get_product_preference (H := pandas_runtime)
         sample_world sample_loader)
  = Return [(101, inject_Z 370); (102, inject_Z 200); (104, inject_Z 140);
            (103, inject_Z 130)]%Z.
Proof. reflexivity. Qed.

Example sample_sales_distribution :
  match fst (SalesAnalysis.get_sales_distribution (H := pandas_runtime)
               sample_world sample_loader) with
  | Return d => map (fun x => (fst x, Stat_red (snd x))) d
  | Raise _ => []
  end
  = [("count", Num (inject_Z 6)); ("mean", Num (inject_Z 140));
     ("std", Sqrt (inject_Z 1160)); ("min", Num (inject_Z 100));
     ("25%", Num (245 # 2)%Q); ("50%", Num (inject_Z 135));
     ("75%", Num (295 # 2)%Q); ("max", Num (inject_Z 200))].
Proof. reflexivity. Qed.

Example sample_unknown_branch :
  fst (App.get_monthly_sales (H := pandas_runtime) sample_world None
         sample_loader)
  = Raise (mkExc ValueError
             "Error fetching monthly sales data: No data found for branch ID: None").
Proof. reflexivity. Qed.

(** ** Running a call on a loader with a cached table *)

Ltac run_call :=
  unfold bind, lift, ret, raise, try_except, get_self, set_data,
    subscriptable; simpl.

Lemma SalesAnalysis_get_data_cached `{PandasRuntime} w path df :
  SalesAnalysis.get_data w (mkLoader path (Some df))
  = (Return (Some df), mkLoader path (Some df)).
Proof. reflexivity. Qed.

Lemma App_get_data_cached `{PandasRuntime} w path df :
  App.get_data w (mkLoader path (Some df))
  = (Return (Some df), mkLoader path (Some df)).
Proof. reflexivity. Qed.

Lemma boolean_index_filter {X} (f : X -> bool) (proj : Row -> X) rs :
  boolean_index (map f (map proj rs)) rs = filter (fun r => f (proj r)) rs.
Proof.
  induction rs as [|r rs IH]; simpl; [reflexivity|].
  rewrite IH. reflexivity.
Qed.

Lemma SalesAnalysis_get_monthly_sales_cached `{PandasRuntime} w path df v :
  has_column "branch_id" df = true ->
  SalesAnalysis.get_monthly_sales w v (mkLoader path (Some df))
  = (monthly_sales_outcome v df, mkLoader path (Some df)).
Proof.
  intros Hcol.
  unfold SalesAnalysis.get_monthly_sales, SalesAnalysis.get_data, getitem.
  run_call. rewrite Hcol. simpl.
  rewrite boolean_index_filter.
  unfold monthly_sales_outcome, branch_rows, empty. simpl.
  destruct (filter _ (rows df)); reflexivity.
Qed.

Lemma App_get_monthly_sales_cached `{PandasRuntime} w path df v :
  has_column "branch_id" df = true ->
  App.get_monthly_sales w v (mkLoader path (Some df))
  = (monthly_sales_outcome v df, mkLoader path (Some df)).
Proof.
  intros Hcol.
  unfold App.get_monthly_sales, App.get_data, getitem.
  run_call. rewrite Hcol. simpl.
  rewrite boolean_index_filter.
  unfold monthly_sales_outcome, branch_rows, empty. simpl.
  destruct (filter _ (rows df)); reflexivity.
Qed.

Lemma cell_eq_text b c : cell_eq (Some b) c = true <-> c = CStr b.
Proof.
  destruct c; simpl; split; intros Hc; try discriminate.
  - apply String.eqb_eq in Hc. now subst.
  - inversion Hc. apply String.eqb_refl.
Qed.

Lemma branch_rows_In b df r :
  In r (branch_rows (Some b) df) <-> In r (rows df) /\ branch_id r = CStr b.
Proof.
  unfold branch_rows. rewrite filter_In, cell_eq_text. reflexivity.
Qed.

Lemma cell_eq_true v c : cell_eq v c = true -> exists b, v = Some b /\ c = CStr b.
Proof.
  destruct c, v as [b|]; simpl; try discriminate.
  intros Hb. apply String.eqb_eq in Hb. subst. eauto.
Qed.

Lemma branch_rows_cons v df r rs :
  branch_rows v df = r :: rs ->
  exists b, v = Some b
            /\ Forall (fun r' => In r' (rows df) /\ branch_id r' = CStr b) (r :: rs).
Proof.
  intros E.
  assert (Hr : In r (branch_rows v df)) by (rewrite E; now left).
  unfold branch_rows in Hr. apply filter_In in Hr.
  destruct Hr as [_ Hr]. apply cell_eq_true in Hr.
  destruct Hr as [b [-> _]]. exists b. split; [reflexivity|].
  rewrite <- E. apply Forall_forall. intros r' Hr'.
  now apply branch_rows_In.
Qed.

(** ** C1: monthly sales of a branch that occurs *)

(** C1.  When a table with a [branch_id] column is cached and some row has
    the text [b] as its branch, [get_monthly_sales(b)] (of either file)
    returns, leaves the loader as it was, and the frame it returns holds
    exactly the rows whose branch cell is the text [b]: every returned row
    is such a row of the table, every such row is returned, their number is
    the number of such rows, and they are the table's rows with the others
    struck out, so in the table's order. *)
Theorem C1_monthly_sales_present `{PandasRuntime} (w : World) (l : DataLoader)
  (df : DataFrame) (b : string) :
  data l = Some df ->
  has_column "branch_id" df = true ->
  (exists r, In r (rows df) /\ branch_id r = CStr b) ->
  exists out,
    SalesAnalysis.get_monthly_sales w (Some b) l = (Return out, l)
    /\ App.get_monthly_sales w (Some b) l = (Return out, l)
    /\ columns out = columns df
    /\ (forall r, In r (rows out) <-> In r (rows df) /\ branch_id r = CStr b)
    /\ length (rows out)
       = length (filter (fun r => is_text (branch_id r)
                               && cell_eq (Some b) (branch_id r)) (rows df))
    /\ rows out = filter (fun r => cell_eq (Some b) (branch_id r)) (rows df).
Proof.
  intros Hdata Hcol [r0 [Hin Hb]].
  destruct l as [path d]. simpl in Hdata. subst d.
  assert (Hne : branch_rows (Some b) df <> []).
  { intro Hnil. assert (Hr : In r0 (branch_rows (Some b) df))
      by (apply branch_rows_In; auto).
    rewrite Hnil in Hr. inversion Hr. }
  exists (mkFrame (columns df) (branch_rows (Some b) df)).
  rewrite SalesAnalysis_get_monthly_sales_cached, App_get_monthly_sales_cached
    by assumption.
  unfold monthly_sales_outcome.
  destruct (branch_rows (Some b) df) eqn:E; [congruence|]. rewrite <- E.
  split; [reflexivity|]. split; [reflexivity|]. split; [reflexivity|].
  split; [intros r1; simpl; apply branch_rows_In|].
  split; simpl; [|reflexivity].
  unfold branch_rows. f_equal. apply filter_ext.
  intros r1. destruct (branch_id r1); reflexivity.
Qed.

Lemma C1_monthly_sales_present_witness :
  data sample_loader = Some sample_table
  /\ has_column "branch_id" sample_table = true
  /\ (exists r, In r (rows sample_table) /\ branch_id r = CStr "1")
  /\ exists out,
       SalesAnalysis.get_monthly_sales (H := pandas_runtime) sample_world
         (Some "1") sample_loader = (Return out, sample_loader)
       /\ length (rows out) = 3%nat.
Proof.
  assert (H1 : data sample_loader = Some sample_table) by reflexivity.
  assert (H2 : has_column "branch_id" sample_table = true) by reflexivity.
  assert (H3 : exists r, In r (rows sample_table) /\ branch_id r = CStr "1").
  { eexists. split; [left; reflexivity|reflexivity]. }
  split; [exact H1|]. split; [exact H2|]. split; [exact H3|].
  destruct (C1_monthly_sales_present (H := pandas_runtime) sample_world
              sample_loader sample_table "1" H1 H2 H3)
    as [out [Hs [_ [_ [_ [Hlen _]]]]]].
  exists out. split; [exact Hs|]. rewrite Hlen. reflexivity.
Defined.

(** ** C6: monthly sales of a branch that does not occur *)

(** C6, as stated, fails.  For branch "9", which the sample table does not
    have, the call raises [ValueError], not the class a missing file is
    reported with ([FileNotFoundError]); and a fault of another kind in the
    same call (the table has no [branch_id] column) is raised in the very
    same class, so the class tells the two apart no more than it tells them
    from any other fault. *)
Lemma C6_absent_branch_class_counterexample :
  exists e1 e2,
    fst (SalesAnalysis.get_monthly_sales (H := pandas_runtime) sample_world
           (Some "9") sample_loader) = Raise e1
    /\ (forall r, In r (rows sample_table) -> branch_id r <> CStr "9")
    /\ exc_class e1 <> FileNotFoundError
    /\ fst (SalesAnalysis.get_monthly_sales (H := pandas_runtime) sample_world
              (Some "9") no_branch_loader) = Raise e2
    /\ exc_msg e2 = "Error fetching monthly sales data: 'branch_id'"
    /\ exc_class e2 = exc_class e1.
Proof.
  eexists. eexists.
  split; [reflexivity|].
  split.
  { intros r Hin. simpl in Hin.
    repeat (destruct Hin as [Hr|Hin]; [subst r; discriminate|]).
    destruct Hin. }
  split; [discriminate|].
  split; [reflexivity|].
  split; reflexivity.
Qed.

(** C6, amended.  When a table with a [branch_id] column is cached and no
    row has the text [b] as its branch, [get_monthly_sales(b)] (of either
    file) raises [ValueError] with the message "Error fetching monthly sales
    data: No data found for branch ID: b" and leaves the loader as it was.
    [ValueError] is the class every fault of a report is raised in; the
    absent branch is told apart by the message only. *)
Theorem C6_monthly_sales_absent `{PandasRuntime} (w : World) (l : DataLoader)
  (df : DataFrame) (b : string) :
  data l = Some df ->
  has_column "branch_id" df = true ->
  (forall r, In r (rows df) -> branch_id r <> CStr b) ->
  let e := mkExc ValueError
             ("Error fetching monthly sales data: No data found for branch ID: "
                ++ b) in
  SalesAnalysis.get_monthly_sales w (Some b) l = (Raise e, l)
  /\ App.get_monthly_sales w (Some b) l = (Raise e, l).
Proof.
  intros Hdata Hcol Habs e.
  destruct l as [path d]. simpl in Hdata. subst d.
  rewrite SalesAnalysis_get_monthly_sales_cached, App_get_monthly_sales_cached
    by assumption.
  unfold monthly_sales_outcome.
  destruct (branch_rows (Some b) df) as [|r rs] eqn:E.
  - split; reflexivity.
  - exfalso. assert (Hr : In r (branch_rows (Some b) df))
      by (rewrite E; left; reflexivity).
    apply branch_rows_In in Hr. destruct Hr as [Hin Hb].
    exact (Habs r Hin Hb).
Qed.

Lemma C6_monthly_sales_absent_witness :
  data sample_loader = Some sample_table
  /\ has_column "branch_id" sample_table = true
  /\ (forall r, In r (rows sample_table) -> branch_id r <> CStr "9")
  /\ SalesAnalysis.get_monthly_sales (H := pandas_runtime) sample_world
       (Some "9") sample_loader
     = (Raise (mkExc ValueError
                 "Error fetching monthly sales data: No data found for branch ID: 9"),
        sample_loader).
Proof.
  assert (H1 : data sample_loader = Some sample_table) by reflexivity.
  assert (H2 : has_column "branch_id" sample_table = true) by reflexivity.
  assert (H3 : forall r, In r (rows sample_table) -> branch_id r <> CStr "9").
  { intros r Hin. simpl in Hin.
    repeat (destruct Hin as [Hr|Hin]; [subst r; discriminate|]).
    destruct Hin. }
  split; [exact H1|]. split; [exact H2|]. split; [exact H3|].
  exact (proj1 (C6_monthly_sales_absent (H := pandas_runtime) sample_world
                  sample_loader sample_table "9" H1 H2 H3)).
Defined.

(** ** Sums and groups *)

Lemma Qsum_app l1 l2 : (Qsum (l1 ++ l2) == Qsum l1 + Qsum l2)%Q.
Proof.
  induction l1 as [|x l1 IH]; simpl.
  - ring.
  - rewrite IH. ring.
Qed.

Lemma Qsum_perm l1 l2 : Permutation l1 l2 -> (Qsum l1 == Qsum l2)%Q.
Proof.
  induction 1; simpl.
  - reflexivity.
  - rewrite IHPermutation. reflexivity.
  - ring.
  - etransitivity; eassumption.
Qed.

Lemma dropna_app {X} (a b : list (option X)) :
  dropna (a ++ b) = dropna a ++ dropna b.
Proof.
  induction a as [|[x|] a IH]; simpl; [reflexivity| |]; now rewrite IH.
Qed.

Lemma exact_sum_snoc vs v :
  (Qsum (dropna (vs ++ [v])) == Qsum (dropna vs) + value_of v)%Q.
Proof.
  rewrite dropna_app, Qsum_app.
  destruct v; simpl; ring.
Qed.

Lemma exact_sum_cons v vs :
  (Qsum (dropna (v :: vs)) == value_of v + Qsum (dropna vs))%Q.
Proof. destruct v; simpl; ring. Qed.

Lemma add_to_group_total (k : Z) (v : option Q)
  (gs : list (Z * list (option Q))) :
  (groups_total (add_to_group k v gs) == groups_total gs + value_of v)%Q.
Proof.
  unfold groups_total.
  induction gs as [|[k' vs] gs IH]; simpl.
  - destruct v; simpl; ring.
  - destruct (k <? k')%Z; simpl.
    + destruct v; simpl; ring.
    + destruct (k =? k')%Z; simpl.
      * rewrite exact_sum_snoc. ring.
      * rewrite IH. ring.
Qed.

Lemma fold_group_step_total kvs :
  forall gs,
    (groups_total (fold_left group_step kvs gs)
     == groups_total gs + Qsum (dropna (keyed kvs)))%Q.
Proof.
  induction kvs as [|[[k|] v] kvs IH]; intros gs; simpl.
  - ring.
  - rewrite IH. unfold group_step. simpl.
    rewrite add_to_group_total. destruct v; simpl; ring.
  - rewrite IH. unfold group_step. simpl. reflexivity.
Qed.

(** The groups partition the values of the rows that have a key: added up
    as rationals, they give the sum of those values. *)
Lemma groups_total_groupby keys (vals : list (option Q)) :
  (groups_total (groupby keys vals)
   == Qsum (dropna (keyed (combine keys vals))))%Q.
Proof.
  unfold groupby. rewrite fold_group_step_total.
  unfold groups_total. simpl. ring.
Qed.

(** *** Where binary64 adds exactly *)

Lemma magnitude_cons x xs : magnitude (x :: xs) = (Qabs x + magnitude xs)%Q.
Proof. reflexivity. Qed.

Lemma magnitude_nonneg xs : (0 <= magnitude xs)%Q.
Proof.
  induction xs as [|x xs IH]; [apply Qle_refl|].
  rewrite magnitude_cons. pose proof (Qabs_nonneg x). lra.
Qed.

Lemma exact_in_binary64_tail x xs :
  exact_in_binary64 (x :: xs) -> exact_in_binary64 xs.
Proof.
  intros [Hw Hm]. split; [now inversion Hw|].
  rewrite magnitude_cons in Hm.
  pose proof (Qabs_nonneg x). lra.
Qed.

Lemma select_key_Forall {V} (P : V -> Prop) k keys :
  forall vals,
    Forall P vals -> Forall P (select_key k (combine keys vals)).
Proof.
  induction keys as [|k' keys IH]; intros [|v vals] Hall; simpl;
    try constructor.
  inversion Hall; subst.
  destruct k' as [k'|]; [|now apply IH].
  destruct (k =? k')%Z; [constructor; [assumption|]|]; now apply IH.
Qed.

Lemma dropna_Forall {X} (P : X -> Prop) vs :
  Forall P (dropna vs)
  <-> Forall (fun v => match v with Some x => P x | None => True end) vs.
Proof.
  induction vs as [|[x|] vs IH]; simpl.
  - split; constructor.
  - split; intros H; inversion H; subst; constructor; tauto.
  - split; intros H; [constructor; tauto|inversion H; tauto].
Qed.

Lemma select_key_magnitude k keys :
  forall vals : list (option Q),
    (magnitude (dropna (select_key k (combine keys vals)))
     <= magnitude (dropna vals))%Q.
Proof.
  induction keys as [|k' keys IH]; intros [|v vals];
    try apply magnitude_nonneg; try apply Qle_refl.
  specialize (IH vals).
  assert (Hv : (magnitude (dropna vals) <= magnitude (dropna (v :: vals)))%Q).
  { destruct v as [x|]; cbn [dropna]; [|apply Qle_refl].
    rewrite magnitude_cons. pose proof (Qabs_nonneg x). lra. }
  cbn [combine select_key].
  destruct k' as [k'|]; [|lra].
  destruct (k =? k')%Z; [|lra].
  destruct v as [x|]; cbn [dropna]; [|exact IH].
  rewrite !magnitude_cons. lra.
Qed.

(** A group of values that add exactly adds exactly. *)
Lemma exact_in_binary64_group k keys (vals : list (option Q)) :
  exact_in_binary64 (dropna vals) ->
  exact_in_binary64 (dropna (select_key k (combine keys vals))).
Proof.
  intros [Hw Hm]. split.
  - apply dropna_Forall, select_key_Forall. now apply dropna_Forall.
  - eapply Qle_trans; [apply select_key_magnitude|exact Hm].
Qed.

Lemma keyed_columns {V} (key : Row -> option Z) (val : Row -> V) rs :
  keyed (combine (map key rs) (map val rs)) = map val (filter (has_key key) rs).
Proof.
  induction rs as [|r rs IH]; simpl; [reflexivity|].
  unfold has_key at 1. destruct (key r); simpl; now rewrite IH.
Qed.

Lemma keyed_all {V} (keys : list (option Z)) (vals : list V) :
  length keys = length vals ->
  Forall (fun k => k <> None) keys ->
  keyed (combine keys vals) = vals.
Proof.
  revert vals. induction keys as [|k keys IH]; intros [|v vals] Hlen Hall;
    simpl in *; try discriminate; [reflexivity|].
  inversion Hall; subst. destruct k; [|congruence].
  f_equal. apply IH; [lia|assumption].
Qed.

Lemma filter_all {X} (f : X -> bool) l :
  Forall (fun x => f x = true) l -> filter f l = l.
Proof.
  induction 1 as [|x l Hx Hl IH]; simpl; [reflexivity|].
  rewrite Hx, IH. reflexivity.
Qed.

(** *** Assigning a column *)

Lemma add_column_has name cols :
  existsb (String.eqb name) (add_column name cols) = true.
Proof.
  unfold add_column.
  destruct (existsb (String.eqb name) cols) eqn:E; [exact E|].
  rewrite existsb_app. simpl. rewrite String.eqb_refl.
  now rewrite orb_true_r.
Qed.

Lemma add_column_other name other cols :
  other <> name ->
  existsb (String.eqb other) (add_column name cols)
  = existsb (String.eqb other) cols.
Proof.
  intros Hne. unfold add_column.
  destruct (existsb (String.eqb name) cols); [reflexivity|].
  rewrite existsb_app. simpl.
  destruct (String.eqb_spec other name); [contradiction|].
  now rewrite !orb_false_r.
Qed.

Lemma assign_set_week_weeks vals rs :
  length vals = length rs ->
  map week (assign set_week None vals rs) = vals.
Proof.
  revert vals. induction rs as [|r rs IH]; intros [|v vals] Hlen;
    simpl in *; try discriminate; [reflexivity|].
  f_equal. apply IH. lia.
Qed.

Lemma assign_set_week_forget vals rs :
  map forget_week (assign set_week None vals rs) = map forget_week rs.
Proof.
  revert vals. induction rs as [|r rs IH]; intros vals; simpl; [reflexivity|].
  destruct vals as [|v vals]; simpl; f_equal; apply IH.
Qed.

Lemma assign_set_week_proj {X} (proj : Row -> X) vals rs :
  (forall v r, proj (set_week v r) = proj r) ->
  map proj (assign set_week None vals rs) = map proj rs.
Proof.
  intros Hproj. revert vals.
  induction rs as [|r rs IH]; intros vals; simpl; [reflexivity|].
  destruct vals as [|v vals]; simpl; rewrite Hproj; f_equal; apply IH.
Qed.

(** ** The reports on a cached table *)

#[local] Arguments String.eqb : simpl never.
#[local] Arguments add_column : simpl never.
#[local] Arguments has_column : simpl never.

Lemma getitem_setitem_week `{PandasRuntime} vals df :
  length vals = length (rows df) ->
  getitem "week" week (setitem_week vals df) = Return vals.
Proof.
  intros Hlen. unfold getitem, has_column, setitem_week. simpl.
  rewrite add_column_has. now rewrite assign_set_week_weeks.
Qed.

Lemma groupby_getitem_setitem_week {X} name (proj : Row -> X) vals df :
  name <> "week" ->
  (forall v r, proj (set_week v r) = proj r) ->
  groupby_getitem name proj (setitem_week vals df)
  = groupby_getitem name proj df.
Proof.
  intros Hne Hproj. unfold groupby_getitem, has_column, setitem_week. simpl.
  rewrite add_column_other by exact Hne.
  now rewrite assign_set_week_proj.
Qed.

Lemma schema_ok_columns df :
  schema_ok df = true ->
  has_column "branch_id" df = true /\ has_column "date" df = true
  /\ has_column "product_id" df = true /\ has_column "sales_amount" df = true
  /\ has_column "price" df = true.
Proof.
  unfold schema_ok. simpl. rewrite !andb_true_iff. tauto.
Qed.

Lemma SalesAnalysis_get_product_preference_cached `{PandasRuntime} w path df :
  has_column "product_id" df = true ->
  has_column "sales_amount" df = true ->
  SalesAnalysis.get_product_preference w (mkLoader path (Some df))
  = (Return (preference_series df), mkLoader path (Some df)).
Proof.
  intros Hp Ha.
  unfold SalesAnalysis.get_product_preference, SalesAnalysis.get_data,
    getitem, groupby_getitem.
  run_call. rewrite Hp. simpl. rewrite Ha. reflexivity.
Qed.

Lemma App_get_product_preference_cached `{PandasRuntime} w path df :
  has_column "product_id" df = true ->
  has_column "sales_amount" df = true ->
  App.get_product_preference w (mkLoader path (Some df))
  = (Return (preference_series df), mkLoader path (Some df)).
Proof.
  intros Hp Ha.
  unfold App.get_product_preference, App.get_data, getitem, groupby_getitem.
  run_call. rewrite Hp. simpl. rewrite Ha. reflexivity.
Qed.

Lemma week_numbers_length `{PandasRuntime} df ts :
  to_datetime (map date (rows df)) = Return ts ->
  length (week_numbers ts) = length (rows df).
Proof.
  intros Hts. apply to_datetime_length in Hts.
  unfold week_numbers. now rewrite length_map, Hts, length_map.
Qed.

Lemma SalesAnalysis_get_weekly_sales_cached `{PandasRuntime} w path df :
  has_column "date" df = true ->
  has_column "sales_amount" df = true ->
  SalesAnalysis.get_weekly_sales w (mkLoader path (Some df))
  = (fst (weekly_sales_outcome df),
     mkLoader path (Some (snd (weekly_sales_outcome df)))).
Proof.
  intros Hd Ha.
  unfold SalesAnalysis.get_weekly_sales, SalesAnalysis.get_data,
    weekly_sales_outcome.
  run_call. unfold getitem at 1. rewrite Hd. simpl.
  destruct (to_datetime (map date (rows df))) as [ts|e] eqn:Hts; simpl;
    [|reflexivity].
  fold (week_numbers ts).
  fold (getitem "week" week (setitem_week (week_numbers ts) df)).
  rewrite getitem_setitem_week by (eapply week_numbers_length; eauto).
  rewrite groupby_getitem_setitem_week by (discriminate || reflexivity).
  unfold groupby_getitem. rewrite Ha. reflexivity.
Qed.

Lemma App_get_weekly_sales_cached `{PandasRuntime} w path df :
  has_column "date" df = true ->
  has_column "sales_amount" df = true ->
  App.get_weekly_sales w (mkLoader path (Some df))
  = (fst (weekly_sales_outcome df),
     mkLoader path (Some (snd (weekly_sales_outcome df)))).
Proof.
  intros Hd Ha.
  unfold App.get_weekly_sales, App.get_data, weekly_sales_outcome.
  run_call. unfold getitem at 1. rewrite Hd. simpl.
  destruct (to_datetime (map date (rows df))) as [ts|e] eqn:Hts; simpl;
    [|reflexivity].
  fold (week_numbers ts).
  fold (getitem "week" week (setitem_week (week_numbers ts) df)).
  rewrite getitem_setitem_week by (eapply week_numbers_length; eauto).
  rewrite groupby_getitem_setitem_week by (discriminate || reflexivity).
  unfold groupby_getitem. rewrite Ha. reflexivity.
Qed.

(** ** What a group holds *)

Section Groups.
Context {V : Type}.
Implicit Types (gs : list (Z * list V)) (kvs : list (option Z * V)).

Lemma add_to_group_keys k v gs x :
  In x (map fst (add_to_group k v gs)) <-> x = k \/ In x (map fst gs).
Proof.
  induction gs as [|[k' vs] gs IH]; simpl.
  - intuition.
  - destruct (Z.ltb_spec k k'); simpl; [intuition|].
    destruct (Z.eqb_spec k k'); simpl.
    + subst. intuition.
    + rewrite IH. intuition.
Qed.

Lemma add_to_group_ascending k v gs :
  keys_ascending gs -> keys_ascending (add_to_group k v gs).
Proof.
  unfold keys_ascending.
  induction gs as [|[k' vs] gs IH]; simpl; intros Hs.
  - repeat constructor.
  - inversion Hs as [|? ? Hs' Hall]; subst.
    destruct (Z.ltb_spec k k'); simpl.
    + constructor; [exact Hs|].
      constructor; [assumption|].
      eapply Forall_impl; [|exact Hall]. intros; lia.
    + destruct (Z.eqb_spec k k'); simpl; [exact Hs|].
      constructor; [now apply IH|].
      apply Forall_forall. intros x Hx.
      apply add_to_group_keys in Hx. destruct Hx as [->|Hx]; [lia|].
      rewrite Forall_forall in Hall. now apply Hall.
Qed.

Lemma find_group_In k vs gs : find_group k gs = Some vs -> In (k, vs) gs.
Proof.
  induction gs as [|[k' vs'] gs IH]; simpl; [discriminate|].
  destruct (Z.eqb_spec k k'); intros Hf.
  - inversion Hf; subst. now left.
  - right. now apply IH.
Qed.

Lemma In_find_group k vs gs :
  keys_ascending gs -> In (k, vs) gs -> find_group k gs = Some vs.
Proof.
  unfold keys_ascending.
  induction gs as [|[k' vs'] gs IH]; simpl; intros Hs Hin; [contradiction|].
  inversion Hs as [|? ? Hs' Hall]; subst.
  destruct Hin as [Heq|Hin].
  - inversion Heq; subst. now rewrite Z.eqb_refl.
  - destruct (Z.eqb_spec k k') as [->|Hne]; [|now apply IH].
    rewrite Forall_forall in Hall.
    assert (k' < k')%Z; [|lia].
    apply Hall. change k' with (fst (k', vs)). now apply in_map.
Qed.

Lemma find_group_add k v gs x :
  keys_ascending gs ->
  find_group x (add_to_group k v gs)
  = if (x =? k)%Z
    then Some (match find_group k gs with
               | Some vs => vs ++ [v]
               | None => [v]
               end)
    else find_group x gs.
Proof.
  unfold keys_ascending.
  induction gs as [|[k' vs] gs IH]; simpl; intros Hs; [reflexivity|].
  inversion Hs as [|? ? Hs' Hall]; subst.
  destruct (Z.ltb_spec k k'); simpl.
  - destruct (Z.eqb_spec x k) as [Hxk|Hxk]; [|reflexivity].
    destruct (Z.eqb_spec k k'); [lia|].
    destruct (find_group k gs) as [vs0|] eqn:Hf; [|reflexivity].
    apply find_group_In in Hf.
    rewrite Forall_forall in Hall.
    assert (k' < k)%Z; [|lia].
    apply Hall. change k with (fst (k, vs0)). now apply in_map.
  - destruct (Z.eqb_spec k k') as [->|Hkk]; simpl.
    + destruct (Z.eqb_spec x k'); reflexivity.
    + rewrite (IH Hs').
      destruct (Z.eqb_spec x k') as [Hxk'|Hxk'].
      * destruct (Z.eqb_spec x k); [lia|reflexivity].
      * reflexivity.
Qed.

Lemma fold_group_step_ascending kvs :
  forall gs, keys_ascending gs -> keys_ascending (fold_left group_step kvs gs).
Proof.
  induction kvs as [|[[k|] v] kvs IH]; intros gs Hs; simpl; auto.
  apply IH. unfold group_step. simpl. now apply add_to_group_ascending.
Qed.

Lemma find_group_fold kvs x :
  forall gs,
    keys_ascending gs ->
    find_group x (fold_left group_step kvs gs)
    = match find_group x gs with
      | Some a => Some (a ++ select_key x kvs)
      | None =>
          match select_key x kvs with
          | [] => None
          | vs => Some vs
          end
      end.
Proof.
  induction kvs as [|[[k|] v] kvs IH]; intros gs Hs; simpl.
  - destruct (find_group x gs); [now rewrite app_nil_r|reflexivity].
  - rewrite IH by (unfold group_step; simpl; now apply add_to_group_ascending).
    unfold group_step. simpl. rewrite find_group_add by assumption.
    destruct (Z.eqb_spec x k) as [Hxk|Hxk]; [subst x|reflexivity].
    destruct (find_group k gs); [|reflexivity].
    now rewrite <- app_assoc.
  - now apply IH.
Qed.

Lemma groupby_ascending keys (vals : list V) :
  keys_ascending (groupby keys vals).
Proof. apply fold_group_step_ascending. constructor. Qed.

(** A group of the result holds the values of the rows with its key, in
    row order, and there is at least one. *)
Lemma groupby_group keys (vals : list V) k vs :
  In (k, vs) (groupby keys vals) <->
  vs = select_key k (combine keys vals) /\ vs <> [].
Proof.
  assert (Hf : find_group k (groupby keys vals)
               = match select_key k (combine keys vals) with
                 | [] => None
                 | l => Some l
                 end).
  { unfold groupby. rewrite find_group_fold by constructor. reflexivity. }
  split.
  - intros Hin. apply In_find_group in Hin; [|apply groupby_ascending].
    rewrite Hf in Hin.
    destruct (select_key k (combine keys vals)); inversion Hin.
    split; [reflexivity|discriminate].
  - intros [-> Hne]. apply find_group_In. rewrite Hf.
    destruct (select_key k (combine keys vals)); congruence.
Qed.
End Groups.

Lemma select_key_columns {V} (key : Row -> option Z) (val : Row -> V) k rs :
  select_key k (combine (map key rs) (map val rs))
  = map val (filter (key_is key k) rs).
Proof.
  induction rs as [|r rs IH]; simpl; [reflexivity|].
  unfold key_is at 1. destruct (key r) as [k'|]; [|exact IH].
  destruct (k =? k')%Z; simpl; now rewrite IH.
Qed.


Lemma Qsum_map_ext_in {X} (f g : X -> Q) xs :
  (forall x, In x xs -> (f x == g x)%Q) ->
  (Qsum (map f xs) == Qsum (map g xs))%Q.
Proof.
  induction xs as [|x xs IH]; intros Hfg; simpl; [reflexivity|].
  rewrite IH by (intros y Hy; apply Hfg; now right).
  rewrite (Hfg x) by now left. reflexivity.
Qed.

(** Where binary64 adds the values exactly, the totals of the groups add
    up, as rationals, to the sum of the values of the rows that have a
    key. *)
Lemma series_total_groupby_sum `{PandasRuntime} keys vals :
  exact_in_binary64 (dropna vals) ->
  (series_total (groupby_sum keys vals)
   == Qsum (dropna (keyed (combine keys vals))))%Q.
Proof.
  intros Hexact.
  rewrite <- groups_total_groupby.
  unfold series_total, groupby_sum, groups_total.
  rewrite map_map. cbn [snd].
  apply Qsum_map_ext_in. intros [k vs] Hin. cbn [snd].
  apply groupby_group in Hin. destruct Hin as [-> _].
  unfold sum_skipna. apply float_sum_exact.
  now apply exact_in_binary64_group.
Qed.

(** ** The descending sort *)

Lemma take_seq {A} (d : A) l : take d l (seq 0 (length l)) = l.
Proof.
  unfold take. induction l as [|x l IH]; [reflexivity|].
  cbn [length seq map nth]. f_equal.
  rewrite <- seq_shift, map_map. exact IH.
Qed.

Lemma take_perm {A} (d : A) l idx idx' :
  Permutation idx idx' -> Permutation (take d l idx) (take d l idx').
Proof. apply Permutation_map. Qed.



Lemma nargsort_desc_perm `{PandasRuntime} items :
  Permutation (nargsort_desc items) (seq 0 (length items)).
Proof.
  unfold nargsort_desc. cbv zeta.
  eapply Permutation_trans; [apply Permutation_sym, Permutation_rev|].
  eapply Permutation_trans; [apply take_perm, argsort_perm|].
  rewrite length_rev.
  pose proof (take_seq 0%nat (rev (seq 0 (length items)))) as E.
  rewrite length_rev, length_seq in E. rewrite E.
  apply Permutation_sym, Permutation_rev.
Qed.

(** The sorted series holds the entries of the series, each once. *)
Lemma sort_values_desc_perm `{PandasRuntime} s :
  Permutation s (sort_values_desc s).
Proof.
  unfold sort_values_desc. apply Permutation_sym.
  eapply Permutation_trans; [apply take_perm, nargsort_desc_perm|].
  rewrite length_map. rewrite take_seq. apply Permutation_refl.
Qed.




(** ** C2: the group totals against the total of the table *)

(** C2, as stated for every dataset, fails.  The file [gaps.csv] has three
    records with amounts 100, 50 and 70; the second has no product, the
    third no date.  Both reports return, the product totals sum to 170 and
    the weekly totals to 150, while the table's total is 220: the grouping
    drops a row whose key is missing. *)
Lemma C2_missing_key_counterexample :
  exists pref weekly,
    fst (SalesAnalysis.get_product_preference (H := pandas_runtime)
           sample_world gaps_loader) = Return pref
    /\ fst (SalesAnalysis.get_weekly_sales (H := pandas_runtime)
              sample_world gaps_loader) = Return weekly
    /\ schema_ok gaps_table = true
    /\ (series_total pref == 170)%Q
    /\ (series_total weekly == 150)%Q
    /\ (dataset_total gaps_table == 220)%Q
    /\ ~ (series_total pref == dataset_total gaps_table)%Q
    /\ ~ (series_total weekly == dataset_total gaps_table)%Q.
Proof.
  eexists. eexists.
  split; [reflexivity|]. split; [reflexivity|]. split; [reflexivity|].
  split; [reflexivity|]. split; [reflexivity|]. split; [reflexivity|].
  split; intro Heq; vm_compute in Heq; discriminate.
Qed.

(** C2, amended.  With a cached table that has the five columns and
    whose amounts binary64 adds without rounding (whole numbers, their
    magnitudes summing to 2^53 at most): [get_product_preference] returns,
    and its totals sum to the sum of [sales_amount] over the rows that have
    a product, so to the total of the table when every row has one; when
    the date column converts, [get_weekly_sales] returns, and its totals
    sum to the sum of [sales_amount] over the rows whose date converted to
    a calendar date, so to the total of the table when every date did.  (A
    missing amount counts as 0 on both sides.)  The same holds of
    [app.py]. *)
Theorem C2_group_totals `{PandasRuntime} (w : World) (l : DataLoader)
  (df : DataFrame) :
  data l = Some df ->
  schema_ok df = true ->
  exact_in_binary64 (amounts (rows df)) ->
  (exists s,
      SalesAnalysis.get_product_preference w l = (Return s, l)
      /\ App.get_product_preference w l = (Return s, l)
      /\ (series_total s
          == Qsum (amounts (filter (has_key product_id) (rows df))))%Q
      /\ (Forall (fun r => product_id r <> None) (rows df) ->
          (series_total s == dataset_total df)%Q))
  /\ (forall ts,
        to_datetime (map date (rows df)) = Return ts ->
        exists s,
          fst (SalesAnalysis.get_weekly_sales w l) = Return s
          /\ fst (App.get_weekly_sales w l) = Return s
          /\ (series_total s
              == Qsum (dropna (keyed (combine (week_numbers ts)
                                        (map sales_amount (rows df))))))%Q
          /\ (Forall (fun t => t <> None) ts ->
              (series_total s == dataset_total df)%Q)).
Proof.
  intros Hdata Hschema Hexact.
  destruct l as [path d]. simpl in Hdata. subst d.
  destruct (schema_ok_columns df Hschema) as [_ [Hd [Hp [Ha _]]]].
  split.
  - exists (preference_series df).
    rewrite SalesAnalysis_get_product_preference_cached,
      App_get_product_preference_cached by assumption.
    split; [reflexivity|]. split; [reflexivity|].
    assert (Htot : (series_total (preference_series df)
                    == Qsum (amounts (filter (has_key product_id)
                                        (rows df))))%Q).
    { unfold preference_series, series_total.
      rewrite <- (Qsum_perm _ _ (Permutation_map snd (sort_values_desc_perm _))).
      fold (series_total (groupby_sum (map product_id (rows df))
                            (map sales_amount (rows df)))).
      rewrite series_total_groupby_sum by exact Hexact.
      rewrite keyed_columns. reflexivity. }
    split; [exact Htot|].
    intros Hall. rewrite Htot. unfold dataset_total.
    rewrite filter_all; [reflexivity|].
    eapply Forall_impl; [|exact Hall].
    intros r Hr. cbv beta in Hr. unfold has_key.
    destruct (product_id r); congruence.
  - intros ts Hts.
    exists (groupby_sum (week_numbers ts) (map sales_amount (rows df))).
    rewrite SalesAnalysis_get_weekly_sales_cached,
      App_get_weekly_sales_cached by assumption.
    unfold weekly_sales_outcome. rewrite Hts. simpl.
    split; [reflexivity|]. split; [reflexivity|].
    split; [now apply series_total_groupby_sum|].
    intros Hall. rewrite series_total_groupby_sum by exact Hexact.
    rewrite keyed_all; [reflexivity| |].
    + rewrite length_map. eapply week_numbers_length; eauto.
    + unfold week_numbers. apply Forall_map.
      eapply Forall_impl; [|exact Hall].
      intros t Ht. cbv beta in Ht. destruct t; simpl; congruence.
Qed.

Lemma whole_inject_Z z : whole (inject_Z z).
Proof. exists z. reflexivity. Qed.

Lemma C2_group_totals_witness :
  data sample_loader = Some sample_table
  /\ schema_ok sample_table = true
  /\ exact_in_binary64 (amounts (rows sample_table))
  /\ exists s,
       SalesAnalysis.get_product_preference (H := pandas_runtime)
         sample_world sample_loader = (Return s, sample_loader)
       /\ (series_total s == dataset_total sample_table)%Q.
Proof.
  assert (H1 : data sample_loader = Some sample_table) by reflexivity.
  assert (H2 : schema_ok sample_table = true) by reflexivity.
  assert (H3 : exact_in_binary64 (amounts (rows sample_table))).
  { split; [repeat constructor; apply whole_inject_Z|].
    vm_compute. discriminate. }
  split; [exact H1|]. split; [exact H2|]. split; [exact H3|].
  destruct (C2_group_totals (H := pandas_runtime) sample_world
              sample_loader sample_table H1 H2 H3)
    as [[s [Hs [_ [_ Hall]]]] _].
  exists s. split; [exact Hs|].
  apply Hall. repeat constructor; discriminate.
Defined.

(** ** C4: the order of the product preference *)


Lemma filter_nonempty_iff {X} (f : X -> bool) l :
  filter f l <> [] <-> exists x, In x l /\ f x = true.
Proof.
  split.
  - destruct (filter f l) as [|x xs] eqn:E; [congruence|]. intros _.
    exists x. apply filter_In. rewrite E. now left.
  - intros [x Hx] Hnil. apply filter_In in Hx. rewrite Hnil in Hx. inversion Hx.
Qed.

Lemma key_is_true key k r : key_is key k r = true <-> key r = Some k.
Proof.
  unfold key_is. destruct (key r) as [k'|]; [|split; discriminate].
  rewrite Z.eqb_eq. split; [intros ->; reflexivity|now inversion 1].
Qed.




(** ** C3: the summary statistics *)

Lemma Qnat_pos n : (0 < n)%nat -> (0 < Qnat n)%Q.
Proof. intros Hn. unfold Qnat, Qlt. simpl. lia. Qed.

Lemma Qpos_nonzero (a : Q) : (0 < a)%Q -> ~ (a == 0)%Q.
Proof. intros Ha E. rewrite E in Ha. now apply Qlt_irrefl in Ha. Qed.

Lemma Qsum_map_ext {X} (f g : X -> Q) xs :
  (forall x, (f x == g x)%Q) -> (Qsum (map f xs) == Qsum (map g xs))%Q.
Proof.
  intros Hfg. induction xs as [|x xs IH]; simpl; [reflexivity|].
  rewrite IH, (Hfg x). reflexivity.
Qed.

Lemma Qsum_squares_nonneg {X} (f : X -> Q) xs :
  (0 <= Qsum (map (fun x => f x * f x) xs))%Q.
Proof.
  induction xs as [|x xs IH]; simpl; [apply Qle_refl|].
  assert (Hsq : (0 <= f x * f x)%Q)
    by (unfold Qle, Qmult; simpl; nia).
  apply (Qplus_le_compat 0 _ 0 _ Hsq IH).
Qed.

Lemma std_sample_std xs : sample_std xs (std xs).
Proof.
  unfold sample_std, std, nanvar.
  destruct (Nat.leb_spec (length xs) 1) as [Hle|Hgt]; [reflexivity|].
  assert (Hn : (0 < Qnat (length xs))%Q) by (apply Qnat_pos; lia).
  assert (Hd : (0 < Qnat (length xs - 1))%Q) by (apply Qnat_pos; lia).
  exists (mean xs), (sum_sq_dev xs / Qnat (length xs - 1))%Q.
  split; [reflexivity|]. split; [|split].
  - unfold mean. field. now apply Qpos_nonzero.
  - apply Qle_shift_div_l; [exact Hd|].
    unfold sum_sq_dev. rewrite Qmult_0_l. apply Qsum_squares_nonneg.
  - setoid_replace (sum_sq_dev xs / Qnat (length xs - 1) * Qnat (length xs - 1))%Q
      with (sum_sq_dev xs) by (field; now apply Qpos_nonzero).
    unfold sum_sq_dev. apply Qsum_map_ext. intros x. ring.
Qed.

(** The real number behind the symbolic root. *)
Lemma Stat_real_Sqrt v :
  (0 <= v)%Q ->
  exists r, Stat_real (Sqrt v) = Some r /\ (0 <= r)%R /\ (r * r = Q2R v)%R.
Proof.
  intros Hv. exists (sqrt (Q2R v)).
  split; [reflexivity|]. split; [apply sqrt_pos|].
  apply sqrt_sqrt. rewrite <- RMicromega.Q2R_0. now apply Qle_Rle.
Qed.

Lemma insert_asc_perm x l : Permutation (insert_asc x l) (x :: l).
Proof.
  induction l as [|y l IH]; simpl; [apply Permutation_refl|].
  destruct (Qle_bool x y); [apply Permutation_refl|].
  eapply Permutation_trans; [apply perm_skip, IH|apply perm_swap].
Qed.

Lemma sort_asc_perm xs : Permutation (sort_asc xs) xs.
Proof.
  induction xs as [|x xs IH]; simpl; [apply Permutation_refl|].
  eapply Permutation_trans; [apply insert_asc_perm|now apply perm_skip].
Qed.

Lemma insert_asc_sorted x l :
  StronglySorted Qle l -> StronglySorted Qle (insert_asc x l).
Proof.
  induction 1 as [|y l Hs IH Hall]; simpl.
  - repeat constructor.
  - destruct (Qle_bool x y) eqn:E.
    + apply Qle_bool_iff in E.
      constructor; [now constructor|].
      constructor; [exact E|].
      eapply Forall_impl; [|exact Hall].
      intros z Hz. eapply Qle_trans; eauto.
    + constructor; [exact IH|].
      eapply Permutation_Forall;
        [apply Permutation_sym, insert_asc_perm|].
      constructor; [|exact Hall].
      apply Qlt_le_weak, Qnot_le_lt.
      intro Hle. apply Qle_bool_iff in Hle. congruence.
Qed.

Lemma sort_asc_sorted xs : StronglySorted Qle (sort_asc xs).
Proof.
  induction xs as [|x xs IH]; simpl; [constructor|].
  now apply insert_asc_sorted.
Qed.

Lemma minimum_of_perm xs ys m :
  Permutation xs ys -> minimum_of xs m -> minimum_of ys m.
Proof.
  intros Hp [Hin Hall]. split.
  - eapply Permutation_in; eauto.
  - eapply Permutation_Forall; eauto.
Qed.

Lemma maximum_of_perm xs ys m :
  Permutation xs ys -> maximum_of xs m -> maximum_of ys m.
Proof.
  intros Hp [Hin Hall]. split.
  - eapply Permutation_in; eauto.
  - eapply Permutation_Forall; eauto.
Qed.

(** The first of ascending values is the least, the last the greatest. *)
Lemma sorted_hd_minimum x s :
  StronglySorted Qle (x :: s) -> minimum_of (x :: s) (hd 0%Q (x :: s)).
Proof.
  intros Hs. apply StronglySorted_inv in Hs. destruct Hs as [_ Hall].
  split; [now left|]. constructor; [apply Qle_refl|exact Hall].
Qed.

Lemma sorted_last_maximum x s :
  StronglySorted Qle (x :: s) -> maximum_of (x :: s) (last (x :: s) 0%Q).
Proof.
  revert x. induction s as [|y s IH]; intros x Hs.
  - split; [now left|]. repeat constructor. apply Qle_refl.
  - apply StronglySorted_inv in Hs. destruct Hs as [Hs Hall].
    destruct (IH y Hs) as [Hin Hmax].
    change (last (x :: y :: s) 0%Q) with (last (y :: s) 0%Q).
    split; [now right|].
    constructor; [|exact Hmax].
    rewrite Forall_forall in Hall. now apply Hall.
Qed.

Lemma mean_mean_of xs : xs <> [] -> mean_of xs (mean xs).
Proof.
  intros Hne. unfold mean_of, mean.
  assert (Hn : (0 < Qnat (length xs))%Q)
    by (apply Qnat_pos; destruct xs; [congruence|simpl; lia]).
  field. now apply Qpos_nonzero.
Qed.

Lemma quantile_quantile_of q xs : quantile_of q xs (quantile q (sort_asc xs)).
Proof.
  exists (sort_asc xs).
  split; [apply sort_asc_perm|]. split; [apply sort_asc_sorted|].
  unfold quantile. cbv zeta.
  rewrite (Permutation_length (sort_asc_perm xs)). ring.
Qed.

Lemma describe_rows vs : vs <> [] -> describe vs = describe_numeric vs.
Proof. destruct vs; [congruence|reflexivity]. Qed.

(** The numeric summary holds the eight statistics of the values. *)
Lemma describe_numeric_summary vs : summary_of (dropna vs) (describe_numeric vs).
Proof.
  unfold summary_of, describe_numeric. cbv zeta.
  split; [reflexivity|]. split; [reflexivity|].
  split; [exists (std (dropna vs)); split;
          [reflexivity|apply std_sample_std]|].
  destruct (dropna vs) as [|x xs] eqn:E.
  - repeat constructor.
  - pose proof (sort_asc_perm (x :: xs)) as Hperm.
    pose proof (sort_asc_sorted (x :: xs)) as Hsorted.
    exists (mean (x :: xs)), (hd 0%Q (sort_asc (x :: xs))),
      (quantile (1 # 4) (sort_asc (x :: xs))),
      (quantile (1 # 2) (sort_asc (x :: xs))),
      (quantile (3 # 4) (sort_asc (x :: xs))),
      (last (sort_asc (x :: xs)) 0%Q).
    split; [reflexivity|]. split; [apply mean_mean_of; discriminate|].
    split; [reflexivity|].
    assert (Hne : exists y s, sort_asc (x :: xs) = y :: s).
    { destruct (sort_asc (x :: xs)) as [|y s] eqn:Es; [|eauto].
      apply Permutation_length in Hperm. discriminate. }
    destruct Hne as [y [s Es]]. rewrite Es in Hsorted, Hperm.
    split.
    { rewrite Es. eapply minimum_of_perm; [exact Hperm|].
      now apply sorted_hd_minimum. }
    split; [reflexivity|]. split; [apply quantile_quantile_of|].
    split; [reflexivity|]. split; [apply quantile_quantile_of|].
    split; [reflexivity|]. split; [apply quantile_quantile_of|].
    split; [reflexivity|].
    rewrite Es. eapply maximum_of_perm; [exact Hperm|].
    now apply sorted_last_maximum.
Qed.

Lemma dropna_column_length {X} (val : Row -> option X) rs :
  length (dropna (map val rs)) = length (filter (has_key val) rs).
Proof.
  induction rs as [|r rs IH]; simpl; [reflexivity|].
  unfold has_key at 1. destruct (val r); simpl; now rewrite IH.
Qed.

Lemma SalesAnalysis_get_sales_distribution_cached `{PandasRuntime} w path df :
  has_column "sales_amount" df = true ->
  SalesAnalysis.get_sales_distribution w (mkLoader path (Some df))
  = (Return (describe (map sales_amount (rows df))), mkLoader path (Some df)).
Proof.
  intros Ha.
  unfold SalesAnalysis.get_sales_distribution, SalesAnalysis.get_data, getitem.
  run_call. rewrite Ha. reflexivity.
Qed.

Lemma App_get_sales_distribution_cached `{PandasRuntime} w path df :
  has_column "sales_amount" df = true ->
  App.get_sales_distribution w (mkLoader path (Some df))
  = (Return (describe (map sales_amount (rows df))), mkLoader path (Some df)).
Proof.
  intros Ha.
  unfold App.get_sales_distribution, App.get_data, getitem.
  run_call. rewrite Ha. reflexivity.
Qed.

Lemma SalesAnalysis_get_product_price_analysis_cached `{PandasRuntime}
  w path df :
  has_column "product_id" df = true ->
  has_column "price" df = true ->
  SalesAnalysis.get_product_price_analysis w (mkLoader path (Some df))
  = (Return (price_table df), mkLoader path (Some df)).
Proof.
  intros Hp Hc.
  unfold SalesAnalysis.get_product_price_analysis, SalesAnalysis.get_data,
    getitem, groupby_getitem.
  run_call. rewrite Hp. simpl. rewrite Hc. reflexivity.
Qed.

Lemma App_get_product_price_analysis_cached `{PandasRuntime} w path df :
  has_column "product_id" df = true ->
  has_column "price" df = true ->
  App.get_product_price_analysis w (mkLoader path (Some df))
  = (Return (price_table df), mkLoader path (Some df)).
Proof.
  intros Hp Hc.
  unfold App.get_product_price_analysis, App.get_data, getitem,
    groupby_getitem.
  run_call. rewrite Hp. simpl. rewrite Hc. reflexivity.
Qed.

Lemma price_table_entry df k d :
  In (k, d) (price_table df) <->
  d = describe (map price (product_rows k df))
  /\ exists r, In r (rows df) /\ product_id r = Some k.
Proof.
  unfold price_table, groupby_describe, product_rows.
  rewrite in_map_iff. split.
  - intros [[k' vs] [Heq Hin]]. simpl in Heq. inversion Heq; subst.
    apply groupby_group in Hin. destruct Hin as [Hvs Hne].
    rewrite select_key_columns in Hvs. subst vs.
    split; [reflexivity|].
    assert (Hf : filter (key_is product_id k) (rows df) <> [])
      by (intro Hnil; rewrite Hnil in Hne; now apply Hne).
    apply filter_nonempty_iff in Hf. destruct Hf as [r [Hin Hk]].
    exists r. split; [exact Hin|]. now apply key_is_true.
  - intros [-> [r [Hin Hk]]].
    exists (k, map price (filter (key_is product_id k) (rows df))).
    split; [reflexivity|].
    apply groupby_group. rewrite select_key_columns.
    split; [reflexivity|].
    intro Hnil. apply map_eq_nil in Hnil.
    revert Hnil. apply filter_nonempty_iff.
    exists r. split; [exact Hin|]. now apply key_is_true.
Qed.

(** C3.  With a cached, non-empty table that has the five columns, both
    reports (of either file) return.  [get_sales_distribution] yields the
    eight statistics count, mean, std, min, 25%, 50%, 75%, max of the
    amounts, under these labels, in this order and no other: the count is
    the number of rows that have an amount, the mean their sum divided by
    the count, the std the sample standard deviation (divisor n - 1), min
    and max the least and the greatest amount, and the three quartiles the
    quantiles by linear interpolation between the amounts in ascending
    order.  [get_product_price_analysis] yields one row of statistics for
    each product id of the table, which holds the same eight statistics of
    the prices of the product's rows.  (The statistics are those of the
    rationals the values denote, which the library computes in binary64;
    where no row has a value, all but the count are NaN.) *)
Theorem C3_describe_reports `{PandasRuntime} (w : World) (l : DataLoader)
  (df : DataFrame) :
  data l = Some df ->
  schema_ok df = true ->
  rows df <> [] ->
  (exists d,
      SalesAnalysis.get_sales_distribution w l = (Return d, l)
      /\ App.get_sales_distribution w l = (Return d, l)
      /\ stat_of "count" d
         = Some (Num (Qnat (length (filter (has_key sales_amount) (rows df)))))
      /\ summary_of (dropna (map sales_amount (rows df))) d)
  /\ (exists t,
        SalesAnalysis.get_product_price_analysis w l = (Return t, l)
        /\ App.get_product_price_analysis w l = (Return t, l)
        /\ (forall k,
              In k (map fst t) <->
              exists r, In r (rows df) /\ product_id r = Some k)
        /\ forall k d,
             In (k, d) t ->
             stat_of "count" d
             = Some (Num (Qnat (length (filter (has_key price)
                                          (product_rows k df)))))
             /\ summary_of (dropna (map price (product_rows k df))) d).
Proof.
  intros Hdata Hschema Hrows.
  destruct l as [path d0]. simpl in Hdata. subst d0.
  destruct (schema_ok_columns df Hschema) as [_ [_ [Hp [Ha Hc]]]].
  assert (Hsummary : forall (val : Row -> option Q) rs,
             rs <> [] ->
             stat_of "count" (describe (map val rs))
             = Some (Num (Qnat (length (filter (has_key val) rs))))
             /\ summary_of (dropna (map val rs)) (describe (map val rs))).
  { intros val rs Hne.
    rewrite describe_rows
      by (intro Hnil; apply map_eq_nil in Hnil; contradiction).
    pose proof (describe_numeric_summary (map val rs)) as Hs.
    split; [|exact Hs].
    destruct Hs as [_ [Hcount _]].
    rewrite Hcount, dropna_column_length. reflexivity. }
  split.
  - exists (describe (map sales_amount (rows df))).
    rewrite SalesAnalysis_get_sales_distribution_cached,
      App_get_sales_distribution_cached by assumption.
    split; [reflexivity|]. split; [reflexivity|].
    now apply Hsummary.
  - exists (price_table df).
    rewrite SalesAnalysis_get_product_price_analysis_cached,
      App_get_product_price_analysis_cached by assumption.
    split; [reflexivity|]. split; [reflexivity|]. split.
    + intros k. rewrite in_map_iff. split.
      * intros [[k' d] [Hk Hin]]. simpl in Hk. subst k'.
        now apply price_table_entry in Hin.
      * intros Hr. exists (k, describe (map price (product_rows k df))).
        split; [reflexivity|]. now apply price_table_entry.
    + intros k d Hin. apply price_table_entry in Hin.
      destruct Hin as [-> [r [Hin Hk]]].
      apply Hsummary. unfold product_rows.
      apply filter_nonempty_iff. exists r. split; [exact Hin|].
      now apply key_is_true.
Qed.

Lemma C3_describe_reports_witness :
  data sample_loader = Some sample_table
  /\ schema_ok sample_table = true
  /\ rows sample_table <> []
  /\ exists d,
       SalesAnalysis.get_sales_distribution (H := pandas_runtime)
         sample_world sample_loader = (Return d, sample_loader)
       /\ map fst d = describe_labels
       /\ stat_of "count" d = Some (Num (Qnat 6))
       /\ exists m, stat_of "mean" d = Some (Num m) /\ (m == 140)%Q.
Proof.
  assert (H1 : data sample_loader = Some sample_table) by reflexivity.
  assert (H2 : schema_ok sample_table = true) by reflexivity.
  assert (H3 : rows sample_table <> []) by discriminate.
  split; [exact H1|]. split; [exact H2|]. split; [exact H3|].
  destruct (C3_describe_reports (H := pandas_runtime) sample_world
              sample_loader sample_table H1 H2 H3)
    as [[d [Hs [_ [Hcount [Hlabels [_ [_ Hstats]]]]]]] _].
  exists d. split; [exact Hs|]. split; [exact Hlabels|].
  split; [rewrite Hcount; reflexivity|].
  simpl in Hstats.
  destruct Hstats as [m [lo [q1 [q2 [q3 [hi [Hm [Hmean _]]]]]]]].
  exists m. split; [exact Hm|].
  assert (E : (m * 6 == 840)%Q) by exact Hmean.
  lra.
Defined.

(** A file with the header only is outside C3: its columns have no
    numeric type, and [describe] summarises the amounts by count, unique,
    top and freq. *)
Example sales_distribution_header_only :
  SalesAnalysis.get_sales_distribution (H := pandas_runtime) sample_world
    header_only_loader
  = (Return [("count", Num 0%Q); ("unique", Num 0%Q); ("top", NaN);
             ("freq", NaN)],
     header_only_loader).
Proof. reflexivity. Qed.

(** ** C5: the errors of a load *)

(** C5, as stated, fails for both files.  [sales_analysis.py]: the file
    [no_branch.csv] parses but has no [branch_id] column; the load raises
    [IOError] and the parsed frame stays cached.  (Also, [vanished.csv]
    exists when checked and is gone when read: the load raises
    [FileNotFoundError] for a path that existed.)  [app.py]: the empty file
    [empty.csv] is reported as [IOError], not as a parse error. *)
Lemma C5_load_contract_counterexample :
  ~ load_contract (SalesAnalysis.__init__ (H := pandas_runtime))
  /\ ~ load_contract (App.__init__ (H := pandas_runtime))
  /\ raised_class (fst (SalesAnalysis.__init__ (H := pandas_runtime)
                          sample_world "no_branch.csv" fresh_loader))
     = Some IOError
  /\ data (snd (SalesAnalysis.__init__ (H := pandas_runtime)
                  sample_world "no_branch.csv" fresh_loader))
     = Some no_branch_csv
  /\ path_exists sample_world "vanished.csv" = true
  /\ raised_class (fst (SalesAnalysis.__init__ (H := pandas_runtime)
                          sample_world "vanished.csv" fresh_loader))
     = Some FileNotFoundError
  /\ raised_class (fst (App.__init__ (H := pandas_runtime)
                          sample_world "empty.csv" fresh_loader))
     = Some IOError.
Proof.
  split; [|split].
  - intros Hc.
    destruct (Hc sample_world "no_branch.csv" fresh_loader) as [_ [_ [_ Hnone]]].
    specialize (Hnone eq_refl). discriminate.
  - intros Hc.
    destruct (Hc sample_world "empty.csv" fresh_loader) as [_ [Hparse _]].
    specialize (Hparse _ eq_refl eq_refl (or_introl eq_refl)). discriminate.
  - repeat split; reflexivity.
Qed.

(** C5, amended.  In both files [DataLoader(path)] raises
    [FileNotFoundError] with the message "The file <path> does not exist."
    when [os.path.exists(path)] is false; nothing is read and nothing is
    cached.  When the path exists and [read_csv] raises: [sales_analysis.py]
    raises [FileNotFoundError] for a [FileNotFoundError], [ValueError] for
    the parser's empty-file and malformed-file errors, and [IOError] for any
    other exception; [app.py] raises [IOError] for every exception; in all
    these cases nothing is cached. *)
Theorem C5_load_errors `{PandasRuntime} (w : World) (path : string)
  (l0 : DataLoader) :
  (path_exists w path = false ->
   let e := mkExc FileNotFoundError ("The file " ++ path ++ " does not exist.") in
   SalesAnalysis.__init__ w path l0 = (Raise e, mkLoader path None)
   /\ App.__init__ w path l0 = (Raise e, mkLoader path None))
  /\ (forall e,
        path_exists w path = true ->
        read_csv w path = Raise e ->
        (exists e',
            SalesAnalysis.__init__ w path l0 = (Raise e', mkLoader path None)
            /\ exc_class e' = reraised_class (exc_class e))
        /\ App.__init__ w path l0
           = (Raise (mkExc IOError
                       ("An error occurred while reading the file "
                          ++ path ++ ": " ++ exc_msg e)),
              mkLoader path None)).
Proof.
  split.
  - intros Hex e.
    unfold SalesAnalysis.__init__, SalesAnalysis._load_data,
      App.__init__, App._load_data.
    run_call. rewrite Hex. simpl. split; reflexivity.
  - intros e Hex Hread.
    unfold SalesAnalysis.__init__, SalesAnalysis._load_data,
      App.__init__, App._load_data.
    run_call. rewrite Hex, Hread. simpl.
    split; [|reflexivity].
    destruct e as [c msg]. simpl.
    destruct c; simpl; eexists; split; reflexivity.
Qed.

Lemma C5_load_errors_witness :
  path_exists sample_world "missing.csv" = false
  /\ path_exists sample_world "empty.csv" = true
  /\ read_csv sample_world "empty.csv"
     = Raise (mkExc EmptyDataError "No columns to parse from file")
  /\ SalesAnalysis.__init__ (H := pandas_runtime) sample_world "missing.csv"
       fresh_loader
     = (Raise (mkExc FileNotFoundError "The file missing.csv does not exist."),
        mkLoader "missing.csv" None)
  /\ exists e',
       SalesAnalysis.__init__ (H := pandas_runtime) sample_world "empty.csv"
         fresh_loader = (Raise e', mkLoader "empty.csv" None)
       /\ exc_class e' = ValueError.
Proof.
  assert (H1 : path_exists sample_world "missing.csv" = false) by reflexivity.
  assert (H2 : path_exists sample_world "empty.csv" = true) by reflexivity.
  assert (H3 : read_csv sample_world "empty.csv"
               = Raise (mkExc EmptyDataError "No columns to parse from file"))
    by reflexivity.
  split; [exact H1|]. split; [exact H2|]. split; [exact H3|].
  split.
  - exact (proj1 (proj1 (C5_load_errors (H := pandas_runtime) sample_world
                           "missing.csv" fresh_loader) H1)).
  - exact (proj1 (proj2 (C5_load_errors (H := pandas_runtime) sample_world
                           "empty.csv" fresh_loader) _ H2 H3)).
Defined.

(** ** C7: what a report does to the cached table *)

(** C7, as stated, fails.  On the sample table [get_weekly_sales] returns,
    and afterwards the cached table is another one: it has a [week] column,
    and a later [get_monthly_sales('2')] returns rows that carry the weeks
    52, 1 and 2. *)
Lemma C7_week_column_persists_counterexample :
  is_raise (fst (SalesAnalysis.get_weekly_sales (H := pandas_runtime)
                   sample_world sample_loader)) = false
  /\ data sample_loader_after_weekly <> data sample_loader
  /\ (exists df, data sample_loader = Some df /\ has_column "week" df = false)
  /\ (exists df,
         data sample_loader_after_weekly = Some df
         /\ has_column "week" df = true)
  /\ exists out,
       fst (SalesAnalysis.get_monthly_sales (H := pandas_runtime)
              sample_world (Some "2") sample_loader_after_weekly) = Return out
       /\ map week (rows out) = [Some 52%Z; Some 1%Z; Some 2%Z].
Proof.
  split; [reflexivity|].
  split; [discriminate|].
  split; [eexists; split; reflexivity|].
  split; [eexists; split; reflexivity|].
  eexists. split; reflexivity.
Qed.

Lemma SalesAnalysis_reports_keep_loader `{PandasRuntime} w path df v :
  let l := mkLoader path (Some df) in
  snd (SalesAnalysis.get_monthly_sales w v l) = l
  /\ snd (SalesAnalysis.get_product_price_analysis w l) = l
  /\ snd (SalesAnalysis.get_product_preference w l) = l
  /\ snd (SalesAnalysis.get_sales_distribution w l) = l.
Proof.
  unfold SalesAnalysis.get_monthly_sales,
    SalesAnalysis.get_product_price_analysis,
    SalesAnalysis.get_product_preference,
    SalesAnalysis.get_sales_distribution, SalesAnalysis.get_data, getitem,
    groupby_getitem.
  run_call.
  repeat split;
    repeat match goal with
      | |- context [has_column ?c df] => destruct (has_column c df); simpl
      | |- context [empty ?f] => destruct (empty f); simpl
      end; reflexivity.
Qed.

Lemma App_reports_keep_loader `{PandasRuntime} w path df v :
  let l := mkLoader path (Some df) in
  snd (App.get_monthly_sales w v l) = l
  /\ snd (App.get_product_price_analysis w l) = l
  /\ snd (App.get_product_preference w l) = l
  /\ snd (App.get_sales_distribution w l) = l.
Proof.
  unfold App.get_monthly_sales, App.get_product_price_analysis,
    App.get_product_preference, App.get_sales_distribution, App.get_data,
    getitem, groupby_getitem.
  run_call.
  repeat split;
    repeat match goal with
      | |- context [has_column ?c df] => destruct (has_column c df); simpl
      | |- context [empty ?f] => destruct (empty f); simpl
      end; reflexivity.
Qed.

Lemma SalesAnalysis_get_weekly_sales_loader `{PandasRuntime} w path df :
  snd (SalesAnalysis.get_weekly_sales w (mkLoader path (Some df)))
  = mkLoader path (Some (table_after_weekly df)).
Proof.
  unfold SalesAnalysis.get_weekly_sales, SalesAnalysis.get_data,
    table_after_weekly.
  run_call. unfold getitem at 1.
  destruct (has_column "date" df); simpl; [|reflexivity].
  destruct (to_datetime (map date (rows df))) as [ts|e]; simpl; [|reflexivity].
  fold (week_numbers ts).
  destruct (getitem "week" week (setitem_week (week_numbers ts) df)); simpl;
    [|reflexivity].
  destruct (groupby_getitem "sales_amount" sales_amount
              (setitem_week (week_numbers ts) df)); reflexivity.
Qed.

Lemma App_get_weekly_sales_loader `{PandasRuntime} w path df :
  snd (App.get_weekly_sales w (mkLoader path (Some df)))
  = mkLoader path (Some (table_after_weekly df)).
Proof.
  unfold App.get_weekly_sales, App.get_data, table_after_weekly.
  run_call. unfold getitem at 1.
  destruct (has_column "date" df); simpl; [|reflexivity].
  destruct (to_datetime (map date (rows df))) as [ts|e]; simpl; [|reflexivity].
  fold (week_numbers ts).
  destruct (getitem "week" week (setitem_week (week_numbers ts) df)); simpl;
    [|reflexivity].
  destruct (groupby_getitem "sales_amount" sales_amount
              (setitem_week (week_numbers ts) df)); reflexivity.
Qed.

Lemma get_weekly_sales_returns `{PandasRuntime} w path df s :
  fst (SalesAnalysis.get_weekly_sales w (mkLoader path (Some df))) = Return s ->
  exists ts,
    has_column "date" df = true
    /\ to_datetime (map date (rows df)) = Return ts.
Proof.
  unfold SalesAnalysis.get_weekly_sales, SalesAnalysis.get_data.
  run_call. unfold getitem at 1.
  destruct (has_column "date" df); simpl; [|discriminate].
  destruct (to_datetime (map date (rows df))) as [ts|e]; simpl; [|discriminate].
  intros _. exists ts. split; reflexivity.
Qed.

Lemma table_after_weekly_frame `{PandasRuntime} df :
  map forget_week (rows (table_after_weekly df)) = map forget_week (rows df)
  /\ forall c, c <> "week" ->
               has_column c (table_after_weekly df) = has_column c df.
Proof.
  unfold table_after_weekly.
  destruct (has_column "date" df); [|split; reflexivity].
  destruct (to_datetime (map date (rows df))) as [ts|e]; [|split; reflexivity].
  split.
  - apply assign_set_week_forget.
  - intros c Hc. unfold has_column, setitem_week. simpl.
    now apply add_column_other.
Qed.

(** C7, amended.  With a cached table, [get_monthly_sales],
    [get_product_price_analysis], [get_product_preference] and
    [get_sales_distribution] (of either file) leave the loader, and so the
    cached table, exactly as it was, whether they return or raise.
    [get_weekly_sales] leaves a cached table with the same rows in the same
    order and the same columns apart from [week]; when it returns, the
    cached table has the [week] column, holding the ISO week of each row's
    converted date, and the column stays for later calls; when the date
    column is missing or does not convert, the table is unchanged. *)
Theorem C7_reports_and_cached_table `{PandasRuntime} (w : World)
  (path : string) (df : DataFrame) (v : PyStr) :
  let l := mkLoader path (Some df) in
  (snd (SalesAnalysis.get_monthly_sales w v l) = l
   /\ snd (SalesAnalysis.get_product_price_analysis w l) = l
   /\ snd (SalesAnalysis.get_product_preference w l) = l
   /\ snd (SalesAnalysis.get_sales_distribution w l) = l)
  /\ (snd (App.get_monthly_sales w v l) = l
      /\ snd (App.get_product_price_analysis w l) = l
      /\ snd (App.get_product_preference w l) = l
      /\ snd (App.get_sales_distribution w l) = l)
  /\ exists df',
       snd (SalesAnalysis.get_weekly_sales w l) = mkLoader path (Some df')
       /\ snd (App.get_weekly_sales w l) = mkLoader path (Some df')
       /\ map forget_week (rows df') = map forget_week (rows df)
       /\ (forall c, c <> "week" -> has_column c df' = has_column c df)
       /\ (forall s,
             fst (SalesAnalysis.get_weekly_sales w l) = Return s ->
             exists ts,
               to_datetime (map date (rows df)) = Return ts
               /\ has_column "week" df' = true
               /\ map week (rows df') = map (option_map isocalendar_week) ts)
       /\ (has_column "date" df = false -> df' = df)
       /\ (forall e, to_datetime (map date (rows df)) = Raise e -> df' = df).
Proof.
  intros l. subst l.
  split; [apply SalesAnalysis_reports_keep_loader|].
  split; [apply App_reports_keep_loader|].
  exists (table_after_weekly df).
  split; [apply SalesAnalysis_get_weekly_sales_loader|].
  split; [apply App_get_weekly_sales_loader|].
  destruct (table_after_weekly_frame df) as [Hrows Hcols].
  split; [exact Hrows|]. split; [exact Hcols|].
  split; [|split].
  - intros s Hs. apply get_weekly_sales_returns in Hs.
    destruct Hs as [ts [Hd Hts]]. exists ts.
    split; [exact Hts|].
    unfold table_after_weekly. rewrite Hd, Hts.
    split.
    + unfold has_column, setitem_week. simpl. apply add_column_has.
    + unfold setitem_week. simpl.
      apply assign_set_week_weeks. eapply week_numbers_length; eauto.
  - intros Hd. unfold table_after_weekly. now rewrite Hd.
  - intros e He. unfold table_after_weekly. rewrite He.
    now destruct (has_column "date" df).
Qed.

(** ** C8: the branch column is text after a load *)

Lemma astype_str_text_of `{PandasRuntime} c : text_of c (astype_str c).
Proof.
  destruct c; simpl; try reflexivity.
  destruct astype_str_keeps_missing; [now right|now left].
Qed.

Lemma text_of_text `{PandasRuntime} raw cached :
  text_of raw cached -> raw <> CNaN -> is_text cached = true.
Proof.
  destruct raw; simpl; intros Ht Hne; subst;
    (reflexivity || congruence).
Qed.

Lemma assign_branch_id_column (f : Cell -> Cell) rs :
  assign set_branch_id CNaN (map f (map branch_id rs)) rs
  = map (fun r => set_branch_id (f (branch_id r)) r) rs.
Proof.
  induction rs as [|r rs IH]; simpl; [reflexivity|]. now rewrite IH.
Qed.

Lemma setitem_branch_id_column vals df :
  has_column "branch_id" (setitem_branch_id vals df) = true.
Proof. unfold has_column, setitem_branch_id. simpl. apply add_column_has. Qed.

Lemma add_column_present name cols :
  existsb (String.eqb name) cols = true -> add_column name cols = cols.
Proof. intros Hin. unfold add_column. now rewrite Hin. Qed.

Lemma setitem_branch_id_columns vals df :
  has_column "branch_id" df = true ->
  columns (setitem_branch_id vals df) = columns df.
Proof.
  intros Hcol. unfold setitem_branch_id. simpl.
  apply add_column_present. exact Hcol.
Qed.

Lemma setitem_branch_id_rows `{PandasRuntime} df :
  Forall2 loaded_row (rows df)
    (rows (setitem_branch_id (map astype_str (map branch_id (rows df))) df)).
Proof.
  unfold setitem_branch_id. simpl. rewrite assign_branch_id_column.
  induction (rows df) as [|r rs IH]; simpl; constructor; [|exact IH].
  split; [apply astype_str_text_of|reflexivity].
Qed.

Lemma SalesAnalysis_init_success `{PandasRuntime} w path l0 l' :
  SalesAnalysis.__init__ w path l0 = (Return tt, l') ->
  exists df,
    path_exists w path = true /\ read_csv w path = Return df
    /\ has_column "branch_id" df = true
    /\ l' = mkLoader path
              (Some (setitem_branch_id
                       (map astype_str (map branch_id (rows df))) df)).
Proof.
  unfold SalesAnalysis.__init__, SalesAnalysis._load_data. run_call.
  destruct (path_exists w path); simpl; [|discriminate].
  destruct (read_csv w path) as [df|e]; simpl.
  - unfold getitem. destruct (has_column "branch_id" df) eqn:Hcol; simpl.
    + intros Heq. inversion Heq. exists df.
      split; [reflexivity|]. split; [reflexivity|]. split; [exact Hcol|].
      reflexivity.
    + discriminate.
  - destruct (exc_class e); discriminate.
Qed.

Lemma App_init_success `{PandasRuntime} w path l0 l' :
  App.__init__ w path l0 = (Return tt, l') ->
  exists df,
    path_exists w path = true /\ read_csv w path = Return df
    /\ has_column "branch_id" df = true
    /\ l' = mkLoader path
              (Some (setitem_branch_id
                       (map astype_str (map branch_id (rows df))) df)).
Proof.
  unfold App.__init__, App._load_data. run_call.
  destruct (path_exists w path); simpl; [|discriminate].
  destruct (read_csv w path) as [df|e]; simpl.
  - unfold getitem. destruct (has_column "branch_id" df) eqn:Hcol; simpl.
    + intros Heq. inversion Heq. exists df.
      split; [reflexivity|]. split; [reflexivity|]. split; [exact Hcol|].
      reflexivity.
    + discriminate.
  - discriminate.
Qed.

Lemma table_after_weekly_branch `{PandasRuntime} df :
  has_column "branch_id" (table_after_weekly df) = has_column "branch_id" df
  /\ map branch_id (rows (table_after_weekly df)) = map branch_id (rows df).
Proof.
  destruct (table_after_weekly_frame df) as [Hrows Hcols].
  split; [apply Hcols; discriminate|].
  apply (f_equal (map branch_id)) in Hrows.
  rewrite !map_map in Hrows. exact Hrows.
Qed.

(** C8, as stated, fails.  The second record of [missing_branch.csv] has
    no branch.  The load returns in both files, and the cached table holds
    a branch cell that is not text: under a release of the library from 3.0
    on, [astype(str)] leaves a missing value missing.  (The two other
    cells, read as the floats 1.0 and 2.0, are the texts "1.0" and
    "2.0".) *)
Lemma C8_missing_branch_counterexample :
  SalesAnalysis.__init__ (H := pandas_runtime) sample_world
    "missing_branch.csv" fresh_loader = (Return tt, missing_branch_loader)
  /\ App.__init__ (H := pandas_runtime) sample_world
       "missing_branch.csv" fresh_loader = (Return tt, missing_branch_loader)
  /\ (exists df,
         data missing_branch_loader = Some df
         /\ map branch_id (rows df) = [CStr "1.0"; CNaN; CStr "2.0"])
  /\ ~ loaded_text missing_branch_loader.
Proof.
  split; [reflexivity|]. split; [reflexivity|].
  split; [eexists; split; reflexivity|].
  intros [df [Hdata [_ Htext]]].
  assert (Hdf : map branch_id (rows df) = [CStr "1.0"; CNaN; CStr "2.0"]).
  { assert (E : Some df = data missing_branch_loader) by (now rewrite Hdata).
    inversion E. reflexivity. }
  unfold branch_text in Htext.
  apply (Forall_map branch_id (fun c => is_text c = true)) in Htext.
  rewrite Hdf in Htext.
  inversion Htext as [|? ? _ Hrest]. inversion Hrest as [|? ? Hnan _].
  discriminate.
Qed.

(** C8, amended.  In both files, when [DataLoader(path)] returns, a table
    is cached that has the [branch_id] column, and row by row its branch
    cell is the text of the cell read from the file: the decimal digits of
    an integer, the printed form of a float, a text as it is; a cell
    missing in the file is the text [nan] or still missing.  So every
    branch read from the file is text, and the whole column is when no
    cell is missing.  Each of the five reports (of either file), returning
    or raising, leaves a cached table with these same branch cells, and the
    frame [get_monthly_sales] returns holds text branch cells only. *)
Theorem C8_branch_id_text `{PandasRuntime} (w : World) (path : string)
  (l0 l : DataLoader) :
  (SalesAnalysis.__init__ w path l0 = (Return tt, l)
   \/ App.__init__ w path l0 = (Return tt, l)) ->
  exists raw df,
    read_csv w path = Return raw
    /\ l = mkLoader path (Some df)
    /\ has_column "branch_id" df = true
    /\ Forall2 (fun r r' => text_of (branch_id r) (branch_id r'))
         (rows raw) (rows df)
    /\ Forall2 (fun r r' => branch_id r <> CNaN -> is_text (branch_id r') = true)
         (rows raw) (rows df)
    /\ (Forall (fun r => branch_id r <> CNaN) (rows raw) -> loaded_text l)
    /\ forall v,
         same_branch_column df (snd (SalesAnalysis.get_monthly_sales w v l))
         /\ same_branch_column df
              (snd (SalesAnalysis.get_product_price_analysis w l))
         /\ same_branch_column df (snd (SalesAnalysis.get_weekly_sales w l))
         /\ same_branch_column df
              (snd (SalesAnalysis.get_product_preference w l))
         /\ same_branch_column df
              (snd (SalesAnalysis.get_sales_distribution w l))
         /\ same_branch_column df (snd (App.get_monthly_sales w v l))
         /\ same_branch_column df (snd (App.get_product_price_analysis w l))
         /\ same_branch_column df (snd (App.get_weekly_sales w l))
         /\ same_branch_column df (snd (App.get_product_preference w l))
         /\ same_branch_column df (snd (App.get_sales_distribution w l))
         /\ (forall out,
               fst (SalesAnalysis.get_monthly_sales w v l) = Return out
               \/ fst (App.get_monthly_sales w v l) = Return out ->
               branch_text out).
Proof.
  intros Hinit.
  assert (Hl : exists raw,
             read_csv w path = Return raw
             /\ l = mkLoader path
                      (Some (setitem_branch_id
                               (map astype_str (map branch_id (rows raw)))
                               raw))).
  { destruct Hinit as [Hinit|Hinit];
      [apply SalesAnalysis_init_success in Hinit
      |apply App_init_success in Hinit];
      destruct Hinit as [raw [_ [Hread [_ Hl]]]]; exists raw; auto. }
  destruct Hl as [raw [Hread ->]].
  pose proof (setitem_branch_id_rows raw) as Hrows.
  pose proof (setitem_branch_id_column
                (map astype_str (map branch_id (rows raw))) raw) as Hcol.
  set (df := setitem_branch_id (map astype_str (map branch_id (rows raw))) raw)
    in *.
  assert (Htext : Forall2 (fun r r' => text_of (branch_id r) (branch_id r'))
                    (rows raw) (rows df))
    by (eapply Forall2_impl; [|exact Hrows]; intros r r' [Ht _]; exact Ht).
  assert (Hpresent :
            Forall2 (fun r r' => branch_id r <> CNaN ->
                                 is_text (branch_id r') = true)
              (rows raw) (rows df))
    by (eapply Forall2_impl; [|exact Htext];
        intros r r' Ht; now apply text_of_text).
  exists raw, df.
  split; [exact Hread|]. split; [reflexivity|]. split; [exact Hcol|].
  split; [exact Htext|]. split; [exact Hpresent|].
  split.
  { intros Hall. exists df. split; [reflexivity|]. split; [exact Hcol|].
    unfold branch_text. clear - Hall Hpresent.
    induction Hpresent as [|r r' rs rs' Hr _ IH]; [constructor|].
    inversion Hall; subst. constructor; auto. }
  intros v.
  destruct (SalesAnalysis_reports_keep_loader w path df v) as [S1 [S2 [S3 S4]]].
  destruct (App_reports_keep_loader w path df v) as [A1 [A2 [A3 A4]]].
  cbv zeta in *.
  rewrite S1, S2, S3, S4, A1, A2, A3, A4,
    SalesAnalysis_get_weekly_sales_loader, App_get_weekly_sales_loader.
  assert (Hsame : same_branch_column df (mkLoader path (Some df)))
    by (exists df; repeat split; [exact Hcol]).
  assert (Hweekly : same_branch_column df
                      (mkLoader path (Some (table_after_weekly df)))).
  { exists (table_after_weekly df). split; [reflexivity|].
    destruct (table_after_weekly_branch df) as [Hc Hb].
    split; [rewrite Hc; exact Hcol|exact Hb]. }
  repeat (split; [assumption|]).
  intros out Hout.
  rewrite SalesAnalysis_get_monthly_sales_cached,
    App_get_monthly_sales_cached in Hout by assumption.
  simpl in Hout. assert (Hm : monthly_sales_outcome v df = Return out) by tauto.
  unfold monthly_sales_outcome in Hm.
  destruct (branch_rows v df) as [|r rs] eqn:E; [discriminate|].
  inversion Hm; subst out. unfold branch_text. simpl.
  destruct (branch_rows_cons _ _ _ _ E) as [b [_ Hall]].
  eapply Forall_impl; [|exact Hall].
  intros r' [_ Hb]. now rewrite Hb.
Qed.

Lemma C8_branch_id_text_witness :
  SalesAnalysis.__init__ (H := pandas_runtime) sample_world "sales_data.csv"
    fresh_loader = (Return tt, sample_loader)
  /\ Forall (fun r => is_text (branch_id r) = false) (rows sample_csv)
  /\ loaded_text sample_loader
  /\ same_branch_column sample_table
       (snd (SalesAnalysis.get_weekly_sales (H := pandas_runtime)
               sample_world sample_loader)).
Proof.
  assert (H1 : SalesAnalysis.__init__ (H := pandas_runtime) sample_world
                 "sales_data.csv" fresh_loader = (Return tt, sample_loader))
    by reflexivity.
  split; [exact H1|].
  split; [repeat constructor|].
  destruct (C8_branch_id_text (H := pandas_runtime) sample_world
              "sales_data.csv" fresh_loader sample_loader (or_introl H1))
    as [raw [df [Hread [Hl [_ [_ [_ [Hloaded Hreports]]]]]]]].
  assert (Hraw : raw = sample_csv)
    by (assert (Hr : Return raw = Return sample_csv)
          by (rewrite <- Hread; reflexivity); now inversion Hr).
  assert (Hdf : df = sample_table)
    by (assert (Hd : Some df = Some sample_table)
          by (change (data (mkLoader "sales_data.csv" (Some df))
                      = Some sample_table); rewrite <- Hl; reflexivity);
        now inversion Hd).
  subst raw df.
  split.
  - apply Hloaded. repeat constructor; discriminate.
  - exact (proj1 (proj2 (proj2 (Hreports None)))).
Defined.

(** ** C9: the two files' repositories agree *)

Lemma agree_refl {A} (r : Result A * DataLoader) : agree r r.
Proof. split; [reflexivity|]. destruct (fst r); reflexivity. Qed.

(** A load of [sales_analysis.py] and a load of [app.py] from the same
    state end in the same state, and both return or both raise. *)
Lemma load_data_agree `{PandasRuntime} w p :
  snd (SalesAnalysis._load_data w (mkLoader p None))
  = snd (App._load_data w (mkLoader p None))
  /\ match fst (SalesAnalysis._load_data w (mkLoader p None)),
           fst (App._load_data w (mkLoader p None)) with
     | Return _, Return _ | Raise _, Raise _ => True
     | _, _ => False
     end.
Proof.
  unfold SalesAnalysis._load_data, App._load_data. run_call.
  destruct (path_exists w p); simpl; [|split; [reflexivity|exact I]].
  destruct (read_csv w p) as [df|[c msg]]; simpl.
  - unfold getitem. destruct (has_column "branch_id" df); simpl;
      split; (reflexivity || exact I).
  - destruct c; split; (reflexivity || exact I).
Qed.

#[local] Arguments SalesAnalysis._load_data : simpl never.
#[local] Arguments App._load_data : simpl never.

Ltac agree_uncached w p :=
  run_call;
  destruct (load_data_agree w p) as [Hstate Hboth];
  destruct (SalesAnalysis._load_data w (mkLoader p None)) as [[[]|e1] s1];
  destruct (App._load_data w (mkLoader p None)) as [[[]|e2] s2];
  simpl in Hstate, Hboth; try contradiction; subst s2; simpl;
  [ apply agree_refl | split; reflexivity ].

Lemma get_monthly_sales_agree `{PandasRuntime} w l v :
  agree (SalesAnalysis.get_monthly_sales w v l) (App.get_monthly_sales w v l).
Proof.
  destruct l as [p [df|]]; [apply agree_refl|].
  unfold SalesAnalysis.get_monthly_sales, App.get_monthly_sales,
    SalesAnalysis.get_data, App.get_data.
  agree_uncached w p.
Qed.

Lemma get_product_price_analysis_agree `{PandasRuntime} w l :
  agree (SalesAnalysis.get_product_price_analysis w l)
        (App.get_product_price_analysis w l).
Proof.
  destruct l as [p [df|]]; [apply agree_refl|].
  unfold SalesAnalysis.get_product_price_analysis,
    App.get_product_price_analysis,
    SalesAnalysis.get_data, App.get_data.
  agree_uncached w p.
Qed.

Lemma get_weekly_sales_agree `{PandasRuntime} w l :
  agree (SalesAnalysis.get_weekly_sales w l) (App.get_weekly_sales w l).
Proof.
  destruct l as [p [df|]]; [apply agree_refl|].
  unfold SalesAnalysis.get_weekly_sales, App.get_weekly_sales,
    SalesAnalysis.get_data, App.get_data.
  agree_uncached w p.
Qed.

Lemma get_product_preference_agree `{PandasRuntime} w l :
  agree (SalesAnalysis.get_product_preference w l)
        (App.get_product_preference w l).
Proof.
  destruct l as [p [df|]]; [apply agree_refl|].
  unfold SalesAnalysis.get_product_preference, App.get_product_preference,
    SalesAnalysis.get_data, App.get_data.
  agree_uncached w p.
Qed.

Lemma get_sales_distribution_agree `{PandasRuntime} w l :
  agree (SalesAnalysis.get_sales_distribution w l)
        (App.get_sales_distribution w l).
Proof.
  destruct l as [p [df|]]; [apply agree_refl|].
  unfold SalesAnalysis.get_sales_distribution, App.get_sales_distribution,
    SalesAnalysis.get_data, App.get_data.
  agree_uncached w p.
Qed.

(** C9.  For every cached table and every branch argument, each of the
    five operations of [sales_analysis.py] and the operation of the same
    name of [app.py] give the same outcome: the same returned value or the
    same exception (class and message), and the same loader afterwards.
    For every loader state at all (also with nothing cached, where the call
    loads the file first), the two end in the same loader state and either
    both return the same value or both raise [ValueError]. *)
Theorem C9_repositories_agree `{PandasRuntime} (w : World) (path : string)
  (df : DataFrame) (v : PyStr) (l : DataLoader) :
  let cached := mkLoader path (Some df) in
  (SalesAnalysis.get_monthly_sales w v cached = App.get_monthly_sales w v cached
   /\ SalesAnalysis.get_product_price_analysis w cached
      = App.get_product_price_analysis w cached
   /\ SalesAnalysis.get_weekly_sales w cached = App.get_weekly_sales w cached
   /\ SalesAnalysis.get_product_preference w cached
      = App.get_product_preference w cached
   /\ SalesAnalysis.get_sales_distribution w cached
      = App.get_sales_distribution w cached)
  /\ agree (SalesAnalysis.get_monthly_sales w v l) (App.get_monthly_sales w v l)
  /\ agree (SalesAnalysis.get_product_price_analysis w l)
           (App.get_product_price_analysis w l)
  /\ agree (SalesAnalysis.get_weekly_sales w l) (App.get_weekly_sales w l)
  /\ agree (SalesAnalysis.get_product_preference w l)
           (App.get_product_preference w l)
  /\ agree (SalesAnalysis.get_sales_distribution w l)
           (App.get_sales_distribution w l).
Proof.
  intros cached.
  split; [repeat split; reflexivity|].
  split; [apply get_monthly_sales_agree|].
  split; [apply get_product_price_analysis_agree|].
  split; [apply get_weekly_sales_agree|].
  split; [apply get_product_preference_agree|].
  apply get_sales_distribution_agree.
Qed.

(** ** C10: the factory *)

Lemma kwargs_get_absent key kw :
  (forall k v, In (k, v) kw -> k <> key) ->
  kwargs_get key kw = Raise (mkExc KeyError (repr_key key)).
Proof.
  induction kw as [|[k v] kw IH]; intros Habs; simpl; [reflexivity|].
  destruct (String.eqb_spec key k) as [->|Hne].
  - exfalso. apply (Habs k v); [now left|reflexivity].
  - apply IH. intros k' v' Hin. apply (Habs k' v'). now right.
Qed.

(** C10.  In both files: [create_analysis('monthly_sales', repo)] with no
    [branch_id] among the keyword arguments raises [KeyError('branch_id')],
    which is neither the [ValueError] of an unknown report nor a
    [FileNotFoundError]; for each of the four other names it returns the
    strategy of that name, whatever the keyword arguments; and for a name
    that is none of the five it raises [ValueError("Unknown analysis
    type")]. *)
Theorem C10_create_analysis (repo : SalesRepository) (kwargs : Kwargs)
  (name : string) :
  (forall k v, In (k, v) kwargs -> k <> "branch_id") ->
  ~ In name report_names ->
  (exists e,
      SalesAnalysis.create_analysis "monthly_sales" repo kwargs = Raise e
      /\ App.create_analysis "monthly_sales" repo kwargs = Raise e
      /\ e = mkExc KeyError "'branch_id'"
      /\ exc_class e <> ValueError
      /\ exc_class e <> FileNotFoundError)
  /\ (SalesAnalysis.create_analysis "price" repo kwargs
      = Return (SalesAnalysis.PriceAnalysis repo)
      /\ SalesAnalysis.create_analysis "weekly_sales" repo kwargs
         = Return (SalesAnalysis.WeeklySalesAnalysis repo)
      /\ SalesAnalysis.create_analysis "product_preference" repo kwargs
         = Return (SalesAnalysis.ProductPreferenceAnalysis repo)
      /\ SalesAnalysis.create_analysis "sales_distribution" repo kwargs
         = Return (SalesAnalysis.SalesDistributionAnalysis repo))
  /\ (App.create_analysis "price" repo kwargs = Return (App.PriceAnalysis repo)
      /\ App.create_analysis "weekly_sales" repo kwargs
         = Return (App.WeeklySalesAnalysis repo)
      /\ App.create_analysis "product_preference" repo kwargs
         = Return (App.ProductPreferenceAnalysis repo)
      /\ App.create_analysis "sales_distribution" repo kwargs
         = Return (App.SalesDistributionAnalysis repo))
  /\ SalesAnalysis.create_analysis name repo kwargs
     = Raise (mkExc ValueError "Unknown analysis type")
  /\ App.create_analysis name repo kwargs
     = Raise (mkExc ValueError "Unknown analysis type").
Proof.
  intros Habs Hname.
  split.
  - exists (mkExc KeyError "'branch_id'").
    unfold SalesAnalysis.create_analysis, App.create_analysis.
    rewrite String.eqb_refl, (kwargs_get_absent _ _ Habs).
    repeat split; discriminate.
  - split; [repeat split; reflexivity|].
    split; [repeat split; reflexivity|].
    unfold SalesAnalysis.create_analysis, App.create_analysis.
    unfold report_names in Hname. simpl in Hname.
    repeat match goal with
      | |- context [String.eqb name ?s] =>
          destruct (String.eqb_spec name s) as [Heq|_];
          [exfalso; apply Hname; rewrite Heq; tauto|]
      end.
    split; reflexivity.
Qed.

Lemma C10_create_analysis_witness :
  (forall k v, In (k, v) ([] : Kwargs) -> k <> "branch_id")
  /\ ~ In "yearly_sales" report_names
  /\ SalesAnalysis.create_analysis "monthly_sales" (mkRepo DataLoader_instance) []
     = Raise (mkExc KeyError "'branch_id'")
  /\ SalesAnalysis.create_analysis "yearly_sales" (mkRepo DataLoader_instance) []
     = Raise (mkExc ValueError "Unknown analysis type").
Proof.
  assert (H1 : forall k v, In (k, v) ([] : Kwargs) -> k <> "branch_id")
    by (intros k v []).
  assert (H2 : ~ In "yearly_sales" report_names).
  { simpl. intros Hin.
    repeat (destruct Hin as [Hin|Hin]; [discriminate|]). exact Hin. }
  split; [exact H1|]. split; [exact H2|].
  destruct (C10_create_analysis (mkRepo DataLoader_instance) [] "yearly_sales"
              H1 H2) as [[e [He [_ [Heq _]]]] [_ [_ [Hunknown _]]]].
  split; [|exact Hunknown].
  rewrite He. now rewrite Heq.
Defined.

(** ** Further properties of the reports and the loader *)

(** X1.  The price analysis lists the products in strictly ascending order
    of their id: with a cached table that has the five columns,
    [get_product_price_analysis] (of either file) returns a table whose
    keys ascend. *)
Theorem price_analysis_keys_ascending `{PandasRuntime} (w : World)
  (l : DataLoader) (df : DataFrame) :
  data l = Some df ->
  schema_ok df = true ->
  exists t,
    SalesAnalysis.get_product_price_analysis w l = (Return t, l)
    /\ App.get_product_price_analysis w l = (Return t, l)
    /\ StronglySorted Z.lt (map fst t).
Proof.
  intros Hdata Hschema.
  destruct l as [path d]. simpl in Hdata. subst d.
  destruct (schema_ok_columns df Hschema) as [_ [_ [Hp [_ Hc]]]].
  exists (price_table df).
  rewrite SalesAnalysis_get_product_price_analysis_cached,
    App_get_product_price_analysis_cached by assumption.
  split; [reflexivity|]. split; [reflexivity|].
  unfold price_table, groupby_describe. rewrite map_map. simpl.
  apply groupby_ascending.
Qed.

Lemma price_analysis_keys_ascending_witness :
  data sample_loader = Some sample_table
  /\ schema_ok sample_table = true
  /\ exists t,
       SalesAnalysis.get_product_price_analysis (H := pandas_runtime)
         sample_world sample_loader = (Return t, sample_loader)
       /\ StronglySorted Z.lt (map fst t).
Proof.
  assert (H1 : data sample_loader = Some sample_table) by reflexivity.
  assert (H2 : schema_ok sample_table = true) by reflexivity.
  split; [exact H1|]. split; [exact H2|].
  destruct (price_analysis_keys_ascending (H := pandas_runtime) sample_world
              sample_loader sample_table H1 H2) as [t [Ht [_ Hs]]].
  exists t. split; [exact Ht|exact Hs].
Defined.

(** X2.  A date that does not convert fails the weekly report: with a cached
    table that has the [date] column, when the conversion of the column
    raises, [get_weekly_sales] (of either file) raises [ValueError] with the
    message "Error fetching weekly sales data: " followed by the message of
    the conversion, and the loader is as it was. *)
Theorem weekly_sales_unparseable_date `{PandasRuntime} (w : World)
  (l : DataLoader) (df : DataFrame) (e : Exc) :
  data l = Some df ->
  has_column "date" df = true ->
  to_datetime (map date (rows df)) = Raise e ->
  let e' := mkExc ValueError
              ("Error fetching weekly sales data: " ++ exc_msg e) in
  SalesAnalysis.get_weekly_sales w l = (Raise e', l)
  /\ App.get_weekly_sales w l = (Raise e', l).
Proof.
  intros Hdata Hd He e'.
  destruct l as [path d]. simpl in Hdata. subst d.
  unfold SalesAnalysis.get_weekly_sales, App.get_weekly_sales,
    SalesAnalysis.get_data, App.get_data.
  run_call. unfold getitem. rewrite Hd. simpl. rewrite He. simpl.
  split; reflexivity.
Qed.

Lemma weekly_sales_unparseable_date_witness :
  exists df e,
    data bad_date_loader = Some df
    /\ has_column "date" df = true
    /\ to_datetime (PandasRuntime := pandas_runtime) (map date (rows df))
       = Raise e
    /\ SalesAnalysis.get_weekly_sales (H := pandas_runtime) sample_world
         bad_date_loader
       = (Raise (mkExc ValueError
                   "Error fetching weekly sales data: Unknown datetime string format, unable to parse: yesterday"),
          bad_date_loader).
Proof.
  eexists. eexists.
  assert (H1 : data bad_date_loader
               = Some (mkFrame required_columns
                         [mkRow (CStr "1") (Some "yesterday") (Some 101%Z)
                            (Some (inject_Z 100)) (Some (inject_Z 10)) None]))
    by reflexivity.
  split; [exact H1|].
  assert (H2 : has_column "date"
                 (mkFrame required_columns
                    [mkRow (CStr "1") (Some "yesterday") (Some 101%Z)
                       (Some (inject_Z 100)) (Some (inject_Z 10)) None]) = true)
    by reflexivity.
  split; [exact H2|].
  assert (H3 : to_datetime (PandasRuntime := pandas_runtime)
                 (map date
                    (rows (mkFrame required_columns
                             [mkRow (CStr "1") (Some "yesterday") (Some 101%Z)
                                (Some (inject_Z 100)) (Some (inject_Z 10))
                                None])))
               = Raise (mkExc ValueError
                          "Unknown datetime string format, unable to parse: yesterday"))
    by reflexivity.
  split; [exact H3|].
  exact (proj1 (weekly_sales_unparseable_date (H := pandas_runtime)
                  sample_world bad_date_loader _ _ H1 H2 H3)).
Defined.

(** X3.  [get_data] loads when nothing is cached and does not read
    otherwise:
    with nothing cached, an existing path and a file that parses and has a
    [branch_id] column, [get_data] (of either file) returns and caches one
    table, which has the column labels of the file and, row by row, the
    row of the file with its branch cell made text (the decimal digits of
    an integer, the printed form of a float, a text as it is; a missing
    cell is the text [nan] or still missing) and nothing else changed;
    with a table cached it returns that table and leaves the loader as it
    was, whatever the file system holds. *)
Theorem get_data_loads_once `{PandasRuntime} (w : World) (path : string)
  (df cached : DataFrame) :
  path_exists w path = true ->
  read_csv w path = Return df ->
  has_column "branch_id" df = true ->
  (exists df',
      SalesAnalysis.get_data w (mkLoader path None)
      = (Return (Some df'), mkLoader path (Some df'))
      /\ App.get_data w (mkLoader path None)
         = (Return (Some df'), mkLoader path (Some df'))
      /\ columns df' = columns df
      /\ Forall2 loaded_row (rows df) (rows df'))
  /\ SalesAnalysis.get_data w (mkLoader path (Some cached))
     = (Return (Some cached), mkLoader path (Some cached))
  /\ App.get_data w (mkLoader path (Some cached))
     = (Return (Some cached), mkLoader path (Some cached)).
Proof.
  intros Hex Hread Hcol.
  split; [|split; reflexivity].
  exists (setitem_branch_id (map astype_str (map branch_id (rows df))) df).
  split; [|split; [|split]].
  - unfold SalesAnalysis.get_data, SalesAnalysis._load_data.
    run_call. rewrite Hex, Hread. simpl.
    unfold getitem. rewrite Hcol. reflexivity.
  - unfold App.get_data, App._load_data.
    run_call. rewrite Hex, Hread. simpl.
    unfold getitem. rewrite Hcol. reflexivity.
  - apply setitem_branch_id_columns. exact Hcol.
  - apply setitem_branch_id_rows.
Qed.

Lemma get_data_loads_once_witness :
  path_exists sample_world "sales_data.csv" = true
  /\ read_csv sample_world "sales_data.csv" = Return sample_csv
  /\ has_column "branch_id" sample_csv = true
  /\ exists df',
       SalesAnalysis.get_data (H := pandas_runtime) sample_world
         (mkLoader "sales_data.csv" None)
       = (Return (Some df'), mkLoader "sales_data.csv" (Some df'))
       /\ columns df' = columns sample_csv
       /\ Forall2 (loaded_row (H := pandas_runtime)) (rows sample_csv)
            (rows df').
Proof.
  assert (H1 : path_exists sample_world "sales_data.csv" = true) by reflexivity.
  assert (H2 : read_csv sample_world "sales_data.csv" = Return sample_csv)
    by reflexivity.
  assert (H3 : has_column "branch_id" sample_csv = true) by reflexivity.
  split; [exact H1|]. split; [exact H2|]. split; [exact H3|].
  destruct (proj1 (get_data_loads_once (H := pandas_runtime) sample_world
                     "sales_data.csv" sample_csv sample_csv H1 H2 H3))
    as [df' [Hs [_ [Hc Hr]]]].
  exists df'. split; [exact Hs|]. split; [exact Hc|exact Hr].
Defined.

(** ** The errors and the results of the reports, in every loader state *)

Ltac report_raises :=
  unfold try_except;
  match goal with
  | |- context [match ?b with pair _ _ => _ end] => destruct b as [[?|?] ?]
  end;
  unfold raise; simpl; intros Hr;
  [discriminate|inversion Hr; reflexivity].

Lemma SalesAnalysis_reports_raise `{PandasRuntime} w l v e :
  (fst (SalesAnalysis.get_monthly_sales w v l) = Raise e ->
   exc_class e = ValueError)
  /\ (fst (SalesAnalysis.get_product_price_analysis w l) = Raise e ->
      exc_class e = ValueError)
  /\ (fst (SalesAnalysis.get_weekly_sales w l) = Raise e ->
      exc_class e = ValueError)
  /\ (fst (SalesAnalysis.get_product_preference w l) = Raise e ->
      exc_class e = ValueError)
  /\ (fst (SalesAnalysis.get_sales_distribution w l) = Raise e ->
      exc_class e = ValueError).
Proof.
  repeat split.
  - unfold SalesAnalysis.get_monthly_sales. report_raises.
  - unfold SalesAnalysis.get_product_price_analysis. report_raises.
  - unfold SalesAnalysis.get_weekly_sales. report_raises.
  - unfold SalesAnalysis.get_product_preference. report_raises.
  - unfold SalesAnalysis.get_sales_distribution. report_raises.
Qed.

(** [get_data] raises, or returns a table: it never returns [None]. *)
Lemma SalesAnalysis_get_data_outcome `{PandasRuntime} w l :
  (exists c l', SalesAnalysis.get_data w l = (Raise c, l'))
  \/ (exists df l', SalesAnalysis.get_data w l = (Return (Some df), l')).
Proof.
  destruct l as [p [df|]]; [right; eexists; eexists; reflexivity|].
  unfold SalesAnalysis.get_data, SalesAnalysis._load_data. run_call.
  destruct (path_exists w p); simpl;
    [|left; eexists; eexists; reflexivity].
  destruct (read_csv w p) as [df|[c msg]]; simpl.
  - unfold getitem. destruct (has_column "branch_id" df); simpl;
      [right|left]; eexists; eexists; reflexivity.
  - left. destruct c; simpl; eexists; eexists; reflexivity.
Qed.

Lemma App_get_data_outcome `{PandasRuntime} w l :
  (exists c l', App.get_data w l = (Raise c, l'))
  \/ (exists df l', App.get_data w l = (Return (Some df), l')).
Proof.
  destruct l as [p [df|]]; [right; eexists; eexists; reflexivity|].
  unfold App.get_data, App._load_data. run_call.
  destruct (path_exists w p); simpl;
    [|left; eexists; eexists; reflexivity].
  destruct (read_csv w p) as [df|[c msg]]; simpl.
  - unfold getitem. destruct (has_column "branch_id" df); simpl;
      [right|left]; eexists; eexists; reflexivity.
  - left. eexists; eexists; reflexivity.
Qed.

(** A report's body on the outcome of [get_data]: the load's exception
    is wrapped as it is; on a table, each step that fails names its own
    cause. *)
Ltac failing_report outcome get_data_term :=
  unfold report_error, load_failure, try_except, bind, lift, ret, raise,
    subscriptable;
  destruct outcome as [[c [l' Hg]]|[df [l' Hg]]]; rewrite Hg; simpl;
  [ intros Hr; inversion Hr; exists (exc_msg c);
    split; [reflexivity|left; exists c; split; reflexivity]
  | ].

Ltac own_cause :=
  intros Hr; first [discriminate|inversion Hr];
  eexists; (split; [reflexivity|right]).

Lemma weekly_sales_failure `{PandasRuntime}
  (get_data : DataLoader -> Result (option DataFrame) * DataLoader) l df l' e :
  get_data l = (Return (Some df), l') ->
  weekly_sales_result df = Raise e ->
  exists cause,
    e = mkExc ValueError ("Error fetching weekly sales data: " ++ cause)
    /\ weekly_causes get_data l cause.
Proof.
  intros Hg. unfold weekly_sales_result, weekly_causes, conversion_failure.
  unfold getitem at 1.
  destruct (has_column "date" df) eqn:Hd; simpl;
    [|intros Hr; inversion Hr; eexists; split; [reflexivity|now left]].
  destruct (to_datetime (map date (rows df))) as [ts|c] eqn:Hts; simpl.
  - rewrite getitem_setitem_week by (eapply week_numbers_length; eauto).
    rewrite groupby_getitem_setitem_week by (discriminate || reflexivity).
    unfold groupby_getitem.
    destruct (has_column "sales_amount" df); simpl; [discriminate|].
    intros Hr; inversion Hr. eexists. split; [reflexivity|]. now right; right.
  - intros Hr; inversion Hr. exists (exc_msg c). split; [reflexivity|].
    right; left. exists df, c. rewrite Hg. repeat split. exact Hts.
Qed.

Lemma SalesAnalysis_get_weekly_sales_served `{PandasRuntime} w l df l' :
  SalesAnalysis.get_data w l = (Return (Some df), l') ->
  fst (SalesAnalysis.get_weekly_sales w l) = weekly_sales_result df.
Proof.
  intros Hg.
  unfold SalesAnalysis.get_weekly_sales, weekly_sales_result,
    try_except, bind, lift, ret, raise, subscriptable, set_data.
  rewrite Hg. simpl.
  destruct (getitem "date" date df) as [dates|e]; simpl; [|reflexivity].
  destruct (to_datetime dates) as [ts|e]; simpl; [|reflexivity].
  fold (week_numbers ts).
  destruct (getitem "week" week (setitem_week (week_numbers ts) df));
    simpl; [|reflexivity].
  destruct (groupby_getitem "sales_amount" sales_amount
              (setitem_week (week_numbers ts) df)); reflexivity.
Qed.

Lemma App_get_weekly_sales_served `{PandasRuntime} w l df l' :
  App.get_data w l = (Return (Some df), l') ->
  fst (App.get_weekly_sales w l) = weekly_sales_result df.
Proof.
  intros Hg.
  unfold App.get_weekly_sales, weekly_sales_result,
    try_except, bind, lift, ret, raise, subscriptable, set_data.
  rewrite Hg. simpl.
  destruct (getitem "date" date df) as [dates|e]; simpl; [|reflexivity].
  destruct (to_datetime dates) as [ts|e]; simpl; [|reflexivity].
  fold (week_numbers ts).
  destruct (getitem "week" week (setitem_week (week_numbers ts) df));
    simpl; [|reflexivity].
  destruct (groupby_getitem "sales_amount" sales_amount
              (setitem_week (week_numbers ts) df)); reflexivity.
Qed.

Lemma SalesAnalysis_reports_fail `{PandasRuntime} w l v e :
  (fst (SalesAnalysis.get_monthly_sales w v l) = Raise e ->
   report_error (SalesAnalysis.get_data w) l
     "Error fetching monthly sales data: " (monthly_causes v) e)
  /\ (fst (SalesAnalysis.get_product_price_analysis w l) = Raise e ->
      report_error (SalesAnalysis.get_data w) l
        "Error fetching product price analysis: " price_causes e)
  /\ (fst (SalesAnalysis.get_weekly_sales w l) = Raise e ->
      report_error (SalesAnalysis.get_data w) l
        "Error fetching weekly sales data: "
        (weekly_causes (SalesAnalysis.get_data w) l) e)
  /\ (fst (SalesAnalysis.get_product_preference w l) = Raise e ->
      report_error (SalesAnalysis.get_data w) l
        "Error fetching product preference data: " preference_causes e)
  /\ (fst (SalesAnalysis.get_sales_distribution w l) = Raise e ->
      report_error (SalesAnalysis.get_data w) l
        "Error fetching sales distribution data: " distribution_causes e).
Proof.
  pose proof (SalesAnalysis_get_data_outcome w l) as Hout.
  split; [|split; [|split; [|split]]].
  - unfold SalesAnalysis.get_monthly_sales, monthly_causes.
    failing_report Hout (SalesAnalysis.get_data w l).
    unfold getitem. destruct (has_column "branch_id" df); simpl;
      [|own_cause; now left].
    destruct (empty _); simpl; own_cause. now right.
  - unfold SalesAnalysis.get_product_price_analysis, price_causes.
    failing_report Hout (SalesAnalysis.get_data w l).
    unfold getitem, groupby_getitem.
    destruct (has_column "product_id" df); simpl; [|own_cause; now left].
    destruct (has_column "price" df); simpl; own_cause. now right.
  - destruct Hout as [[c [l' Hg]]|[df [l' Hg]]].
    + unfold SalesAnalysis.get_weekly_sales, report_error, load_failure,
        try_except, bind, lift, ret, raise, subscriptable.
      rewrite Hg. simpl. intros Hr; inversion Hr. exists (exc_msg c).
      split; [reflexivity|left; exists c; split; reflexivity].
    + rewrite (SalesAnalysis_get_weekly_sales_served w l df l' Hg).
      intros Hr.
      destruct (weekly_sales_failure _ l df l' e Hg Hr) as [m [He Hm]].
      exists m. split; [exact He|now right].
  - unfold SalesAnalysis.get_product_preference, preference_causes.
    failing_report Hout (SalesAnalysis.get_data w l).
    unfold getitem, groupby_getitem.
    destruct (has_column "product_id" df); simpl; [|own_cause; now left].
    destruct (has_column "sales_amount" df); simpl; own_cause. now right.
  - unfold SalesAnalysis.get_sales_distribution, distribution_causes.
    failing_report Hout (SalesAnalysis.get_data w l).
    unfold getitem.
    destruct (has_column "sales_amount" df); simpl; own_cause. reflexivity.
Qed.

Lemma App_reports_fail `{PandasRuntime} w l v e :
  (fst (App.get_monthly_sales w v l) = Raise e ->
   report_error (App.get_data w) l
     "Error fetching monthly sales data: " (monthly_causes v) e)
  /\ (fst (App.get_product_price_analysis w l) = Raise e ->
      report_error (App.get_data w) l
        "Error fetching product price analysis: " price_causes e)
  /\ (fst (App.get_weekly_sales w l) = Raise e ->
      report_error (App.get_data w) l
        "Error fetching weekly sales data: "
        (weekly_causes (App.get_data w) l) e)
  /\ (fst (App.get_product_preference w l) = Raise e ->
      report_error (App.get_data w) l
        "Error fetching product preference data: " preference_causes e)
  /\ (fst (App.get_sales_distribution w l) = Raise e ->
      report_error (App.get_data w) l
        "Error fetching sales distribution data: " distribution_causes e).
Proof.
  pose proof (App_get_data_outcome w l) as Hout.
  split; [|split; [|split; [|split]]].
  - unfold App.get_monthly_sales, monthly_causes.
    failing_report Hout (App.get_data w l).
    unfold getitem. destruct (has_column "branch_id" df); simpl;
      [|own_cause; now left].
    destruct (empty _); simpl; own_cause. now right.
  - unfold App.get_product_price_analysis, price_causes.
    failing_report Hout (App.get_data w l).
    unfold getitem, groupby_getitem.
    destruct (has_column "product_id" df); simpl; [|own_cause; now left].
    destruct (has_column "price" df); simpl; own_cause. now right.
  - destruct Hout as [[c [l' Hg]]|[df [l' Hg]]].
    + unfold App.get_weekly_sales, report_error, load_failure,
        try_except, bind, lift, ret, raise, subscriptable.
      rewrite Hg. simpl. intros Hr; inversion Hr. exists (exc_msg c).
      split; [reflexivity|left; exists c; split; reflexivity].
    + rewrite (App_get_weekly_sales_served w l df l' Hg).
      intros Hr.
      destruct (weekly_sales_failure _ l df l' e Hg Hr) as [m [He Hm]].
      exists m. split; [exact He|now right].
  - unfold App.get_product_preference, preference_causes.
    failing_report Hout (App.get_data w l).
    unfold getitem, groupby_getitem.
    destruct (has_column "product_id" df); simpl; [|own_cause; now left].
    destruct (has_column "sales_amount" df); simpl; own_cause. now right.
  - unfold App.get_sales_distribution, distribution_causes.
    failing_report Hout (App.get_data w l).
    unfold getitem.
    destruct (has_column "sales_amount" df); simpl; own_cause. reflexivity.
Qed.

(** X4.  Whatever the loader holds and whatever the file system does, a
    report of either file that fails raises [ValueError], and its message
    is the report's own prefix followed by the message of the cause.  The
    cause is the exception the load raised, when the report had to load and
    the load failed; otherwise it is one of the report's own: the label of
    a column the table does not have, "No data found for branch ID: ..."
    for the monthly report, the message of the date conversion for the
    weekly report.  No [KeyError], [TypeError], [IOError] or
    [FileNotFoundError] leaves a report. *)
Theorem reports_raise_only_ValueError `{PandasRuntime} (w : World)
  (l : DataLoader) (v : PyStr) (e : Exc) :
  ((fst (SalesAnalysis.get_monthly_sales w v l) = Raise e ->
    report_error (SalesAnalysis.get_data w) l
      "Error fetching monthly sales data: " (monthly_causes v) e)
   /\ (fst (SalesAnalysis.get_product_price_analysis w l) = Raise e ->
       report_error (SalesAnalysis.get_data w) l
         "Error fetching product price analysis: " price_causes e)
   /\ (fst (SalesAnalysis.get_weekly_sales w l) = Raise e ->
       report_error (SalesAnalysis.get_data w) l
         "Error fetching weekly sales data: "
         (weekly_causes (SalesAnalysis.get_data w) l) e)
   /\ (fst (SalesAnalysis.get_product_preference w l) = Raise e ->
       report_error (SalesAnalysis.get_data w) l
         "Error fetching product preference data: " preference_causes e)
   /\ (fst (SalesAnalysis.get_sales_distribution w l) = Raise e ->
       report_error (SalesAnalysis.get_data w) l
         "Error fetching sales distribution data: " distribution_causes e))
  /\ ((fst (App.get_monthly_sales w v l) = Raise e ->
       report_error (App.get_data w) l
         "Error fetching monthly sales data: " (monthly_causes v) e)
      /\ (fst (App.get_product_price_analysis w l) = Raise e ->
          report_error (App.get_data w) l
            "Error fetching product price analysis: " price_causes e)
      /\ (fst (App.get_weekly_sales w l) = Raise e ->
          report_error (App.get_data w) l
            "Error fetching weekly sales data: "
            (weekly_causes (App.get_data w) l) e)
      /\ (fst (App.get_product_preference w l) = Raise e ->
          report_error (App.get_data w) l
            "Error fetching product preference data: " preference_causes e)
      /\ (fst (App.get_sales_distribution w l) = Raise e ->
          report_error (App.get_data w) l
            "Error fetching sales distribution data: " distribution_causes e))
  /\ ((fst (SalesAnalysis.get_monthly_sales w v l) = Raise e
       \/ fst (SalesAnalysis.get_product_price_analysis w l) = Raise e
       \/ fst (SalesAnalysis.get_weekly_sales w l) = Raise e
       \/ fst (SalesAnalysis.get_product_preference w l) = Raise e
       \/ fst (SalesAnalysis.get_sales_distribution w l) = Raise e
       \/ fst (App.get_monthly_sales w v l) = Raise e
       \/ fst (App.get_product_price_analysis w l) = Raise e
       \/ fst (App.get_weekly_sales w l) = Raise e
       \/ fst (App.get_product_preference w l) = Raise e
       \/ fst (App.get_sales_distribution w l) = Raise e) ->
      exc_class e = ValueError).
Proof.
  pose proof (SalesAnalysis_reports_fail w l v e) as HS.
  pose proof (App_reports_fail w l v e) as HA.
  split; [exact HS|]. split; [exact HA|].
  assert (Hclass : forall get_data prefix causes,
             report_error get_data l prefix causes e ->
             exc_class e = ValueError)
    by (intros g p c [m [-> _]]; reflexivity).
  destruct HS as [S1 [S2 [S3 [S4 S5]]]].
  destruct HA as [A1 [A2 [A3 [A4 A5]]]].
  intros [Hr|[Hr|[Hr|[Hr|[Hr|[Hr|[Hr|[Hr|[Hr|Hr]]]]]]]]];
    eapply Hclass; eauto.
Qed.

Lemma reports_raise_only_ValueError_witness :
  fst (SalesAnalysis.get_monthly_sales (H := pandas_runtime) sample_world
         (Some "1") no_branch_loader)
  = Raise (mkExc ValueError "Error fetching monthly sales data: 'branch_id'")
  /\ report_error (SalesAnalysis.get_data (H := pandas_runtime) sample_world)
       no_branch_loader "Error fetching monthly sales data: "
       (monthly_causes (Some "1"))
       (mkExc ValueError "Error fetching monthly sales data: 'branch_id'").
Proof.
  assert (H1 : fst (SalesAnalysis.get_monthly_sales (H := pandas_runtime)
                      sample_world (Some "1") no_branch_loader)
               = Raise (mkExc ValueError
                          "Error fetching monthly sales data: 'branch_id'"))
    by reflexivity.
  split; [exact H1|].
  exact (proj1 (proj1 (reports_raise_only_ValueError (H := pandas_runtime)
                         sample_world no_branch_loader (Some "1") _))
           H1).
Defined.

Ltac monthly_returns get_data_term v out :=
  unfold try_except, bind, lift, subscriptable, raise, ret, getitem;
  destruct get_data_term as [[[df|]|e0] s]; simpl; try discriminate;
  destruct (has_column "branch_id" df); simpl; try discriminate;
  rewrite boolean_index_filter;
  fold (branch_rows v df); unfold empty; simpl;
  destruct (branch_rows v df) as [|r rs] eqn:E; simpl; try discriminate;
  intros Hout; inversion Hout; subst out; simpl;
  split; [discriminate|];
  destruct (branch_rows_cons _ _ _ _ E) as [b [Hv Hall]];
  exists b; split; [exact Hv|];
  eapply Forall_impl; [|exact Hall]; intros r' [_ Hb]; exact Hb.

(** X5.  [get_monthly_sales] never returns an empty frame, in any loader
    state: when it returns, the argument was a string (not [None]), the
    frame has at least one row, and every row of it has that string as its
    branch. *)
Theorem monthly_sales_never_empty `{PandasRuntime} (w : World)
  (l : DataLoader) (v : PyStr) (out : DataFrame) :
  fst (SalesAnalysis.get_monthly_sales w v l) = Return out
  \/ fst (App.get_monthly_sales w v l) = Return out ->
  rows out <> []
  /\ exists b, v = Some b /\ Forall (fun r => branch_id r = CStr b) (rows out).
Proof.
  intros [Hs|Ha].
  - revert Hs. unfold SalesAnalysis.get_monthly_sales.
    monthly_returns (SalesAnalysis.get_data w l) v out.
  - revert Ha. unfold App.get_monthly_sales.
    monthly_returns (App.get_data w l) v out.
Qed.

Lemma monthly_sales_never_empty_witness :
  exists out,
    fst (SalesAnalysis.get_monthly_sales (H := pandas_runtime) sample_world
           (Some "2") (mkLoader "sales_data.csv" None)) = Return out
    /\ rows out <> []
    /\ Forall (fun r => branch_id r = CStr "2") (rows out).
Proof.
  eexists.
  assert (H1 : fst (SalesAnalysis.get_monthly_sales (H := pandas_runtime)
                      sample_world (Some "2") (mkLoader "sales_data.csv" None))
               = Return (mkFrame (columns sample_table)
                           (branch_rows (Some "2") sample_table)))
    by reflexivity.
  split; [exact H1|].
  destruct (monthly_sales_never_empty (H := pandas_runtime) sample_world
              (mkLoader "sales_data.csv" None) (Some "2") _ (or_introl H1))
    as [Hne [b [Hb Hall]]].
  split; [exact Hne|]. inversion Hb; subst b. exact Hall.
Defined.

(** ** The weekly report called again, and the other reports after it *)

Lemma getitem_setitem_week_other {X} name (proj : Row -> X) vals df :
  name <> "week" ->
  (forall v r, proj (set_week v r) = proj r) ->
  getitem name proj (setitem_week vals df) = getitem name proj df.
Proof.
  intros Hne Hproj. unfold getitem, has_column, setitem_week. simpl.
  rewrite add_column_other by exact Hne.
  now rewrite assign_set_week_proj.
Qed.

Lemma add_column_idempotent name cols :
  add_column name (add_column name cols) = add_column name cols.
Proof.
  unfold add_column at 1. now rewrite add_column_has.
Qed.

Lemma assign_set_week_twice vals vals' rs :
  assign set_week None vals (assign set_week None vals' rs)
  = assign set_week None vals rs.
Proof.
  revert vals vals'. induction rs as [|r rs IH]; intros vals vals'; simpl;
    [reflexivity|].
  destruct vals as [|v vals], vals' as [|v' vals']; simpl; f_equal; apply IH.
Qed.

Lemma setitem_week_twice vals vals' df :
  setitem_week vals (setitem_week vals' df) = setitem_week vals df.
Proof.
  unfold setitem_week. simpl.
  now rewrite add_column_idempotent, assign_set_week_twice.
Qed.

Lemma SalesAnalysis_get_weekly_sales_result `{PandasRuntime} w path df :
  fst (SalesAnalysis.get_weekly_sales w (mkLoader path (Some df)))
  = weekly_sales_result df.
Proof.
  unfold SalesAnalysis.get_weekly_sales, SalesAnalysis.get_data,
    weekly_sales_result.
  run_call.
  destruct (getitem "date" date df) as [dates|e]; simpl; [|reflexivity].
  destruct (to_datetime dates) as [ts|e]; simpl; [|reflexivity].
  fold (week_numbers ts).
  destruct (getitem "week" week (setitem_week (week_numbers ts) df));
    simpl; [|reflexivity].
  destruct (groupby_getitem "sales_amount" sales_amount
              (setitem_week (week_numbers ts) df)); reflexivity.
Qed.

Lemma App_get_weekly_sales_result `{PandasRuntime} w path df :
  fst (App.get_weekly_sales w (mkLoader path (Some df)))
  = weekly_sales_result df.
Proof.
  unfold App.get_weekly_sales, App.get_data, weekly_sales_result.
  run_call.
  destruct (getitem "date" date df) as [dates|e]; simpl; [|reflexivity].
  destruct (to_datetime dates) as [ts|e]; simpl; [|reflexivity].
  fold (week_numbers ts).
  destruct (getitem "week" week (setitem_week (week_numbers ts) df));
    simpl; [|reflexivity].
  destruct (groupby_getitem "sales_amount" sales_amount
              (setitem_week (week_numbers ts) df)); reflexivity.
Qed.

Lemma table_after_weekly_fixed `{PandasRuntime} df :
  table_after_weekly (table_after_weekly df) = table_after_weekly df
  /\ weekly_sales_result (table_after_weekly df) = weekly_sales_result df.
Proof.
  destruct (has_column "date" df) eqn:Hd.
  2: { assert (E : table_after_weekly df = df)
         by (unfold table_after_weekly; now rewrite Hd).
       rewrite !E. split; reflexivity. }
  destruct (to_datetime (map date (rows df))) as [ts|e] eqn:Hts.
  2: { assert (E : table_after_weekly df = df)
         by (unfold table_after_weekly; now rewrite Hd, Hts).
       rewrite !E. split; reflexivity. }
  assert (E : table_after_weekly df = setitem_week (week_numbers ts) df)
    by (unfold table_after_weekly; now rewrite Hd, Hts).
  rewrite E.
  assert (Hdate : getitem "date" date (setitem_week (week_numbers ts) df)
                  = Return (map date (rows df))).
  { rewrite getitem_setitem_week_other by (discriminate || reflexivity).
    unfold getitem. now rewrite Hd. }
  assert (Hd' : has_column "date" (setitem_week (week_numbers ts) df) = true).
  { unfold has_column, setitem_week. simpl.
    rewrite add_column_other by discriminate. exact Hd. }
  assert (Hrows : map date (rows (setitem_week (week_numbers ts) df))
                  = map date (rows df)).
  { unfold setitem_week. simpl. now apply assign_set_week_proj. }
  split.
  - unfold table_after_weekly. rewrite Hd', Hrows, Hts.
    apply setitem_week_twice.
  - unfold weekly_sales_result. rewrite Hdate.
    unfold getitem. rewrite Hd, Hts.
    now rewrite setitem_week_twice.
Qed.

(** X6.  On a cached table, calling [get_weekly_sales] (of either file) a
    second time gives the outcome of the first call again and leaves the
    table the first call left: the [week] column is written over with the
    same values, not added again. *)
Theorem weekly_sales_idempotent `{PandasRuntime} (w : World) (path : string)
  (df : DataFrame) :
  let l := mkLoader path (Some df) in
  let l1 := snd (SalesAnalysis.get_weekly_sales w l) in
  SalesAnalysis.get_weekly_sales w l1
  = (fst (SalesAnalysis.get_weekly_sales w l), l1)
  /\ App.get_weekly_sales w (snd (App.get_weekly_sales w l))
     = (fst (App.get_weekly_sales w l), snd (App.get_weekly_sales w l)).
Proof.
  intros l l1. subst l l1.
  destruct (table_after_weekly_fixed df) as [Hfix Hres].
  rewrite SalesAnalysis_get_weekly_sales_loader, App_get_weekly_sales_loader.
  split.
  - rewrite (surjective_pairing
               (SalesAnalysis.get_weekly_sales w
                  (mkLoader path (Some (table_after_weekly df))))).
    rewrite SalesAnalysis_get_weekly_sales_loader,
      !SalesAnalysis_get_weekly_sales_result, Hfix, Hres. reflexivity.
  - rewrite (surjective_pairing
               (App.get_weekly_sales w
                  (mkLoader path (Some (table_after_weekly df))))).
    rewrite App_get_weekly_sales_loader,
      !App_get_weekly_sales_result, Hfix, Hres. reflexivity.
Qed.

Lemma getitem_table_after_weekly `{PandasRuntime} {X} name (proj : Row -> X) df :
  name <> "week" ->
  (forall v r, proj (set_week v r) = proj r) ->
  getitem name proj (table_after_weekly df) = getitem name proj df
  /\ groupby_getitem name proj (table_after_weekly df)
     = groupby_getitem name proj df.
Proof.
  intros Hne Hproj. unfold table_after_weekly.
  destruct (has_column "date" df); [|split; reflexivity].
  destruct (to_datetime (map date (rows df))); [|split; reflexivity].
  split.
  - now apply getitem_setitem_week_other.
  - now apply groupby_getitem_setitem_week.
Qed.

Lemma filter_up_to_week (f : Cell -> bool) rs' :
  forall rs,
    map forget_week rs' = map forget_week rs ->
    map forget_week (filter (fun r => f (branch_id r)) rs')
    = map forget_week (filter (fun r => f (branch_id r)) rs).
Proof.
  induction rs' as [|r' rs' IH]; intros [|r rs] Heq; simpl in *;
    try discriminate; [reflexivity|].
  assert (Hr : forget_week r' = forget_week r) by congruence.
  assert (Hrs : map forget_week rs' = map forget_week rs) by congruence.
  pose proof (f_equal branch_id Hr) as Hb. simpl in Hb.
  rewrite Hb. destruct (f (branch_id r)); simpl;
    [rewrite Hr; f_equal|]; now apply IH.
Qed.

Lemma monthly_sales_outcome_up_to_week v df' df :
  map forget_week (rows df') = map forget_week (rows df) ->
  same_up_to_week (monthly_sales_outcome v df') (monthly_sales_outcome v df).
Proof.
  intros Hrows.
  pose proof (filter_up_to_week (cell_eq v) _ _ Hrows) as Hf.
  unfold monthly_sales_outcome, branch_rows.
  destruct (filter _ (rows df')) as [|r1 rs1],
           (filter _ (rows df)) as [|r2 rs2];
    simpl in *; try discriminate; [reflexivity|exact Hf].
Qed.

Ltac same_result H1 H2 :=
  run_call; rewrite H1; try rewrite H2;
  repeat match goal with
    | |- context [match ?g with Return _ => _ | Raise _ => _ end] =>
        destruct g; simpl
    end;
  reflexivity.

(** X7.  A call of [get_weekly_sales] changes no other report.  On a cached
    table, after [get_weekly_sales] (returning or raising) the price
    analysis, the product preference and the sales distribution return or
    raise exactly what they would have before it, and [get_monthly_sales]
    raises the same error or returns the same rows in the same order, which
    differ at most in the [week] column.  The same holds of [app.py]. *)
Theorem other_reports_after_weekly `{PandasRuntime} (w : World)
  (path : string) (df : DataFrame) (v : PyStr) :
  let l := mkLoader path (Some df) in
  let l1 := snd (SalesAnalysis.get_weekly_sales w l) in
  let l2 := snd (App.get_weekly_sales w l) in
  (fst (SalesAnalysis.get_product_price_analysis w l1)
   = fst (SalesAnalysis.get_product_price_analysis w l)
   /\ fst (SalesAnalysis.get_product_preference w l1)
      = fst (SalesAnalysis.get_product_preference w l)
   /\ fst (SalesAnalysis.get_sales_distribution w l1)
      = fst (SalesAnalysis.get_sales_distribution w l)
   /\ same_up_to_week (fst (SalesAnalysis.get_monthly_sales w v l1))
                      (fst (SalesAnalysis.get_monthly_sales w v l)))
  /\ (fst (App.get_product_price_analysis w l2)
      = fst (App.get_product_price_analysis w l)
      /\ fst (App.get_product_preference w l2)
         = fst (App.get_product_preference w l)
      /\ fst (App.get_sales_distribution w l2)
         = fst (App.get_sales_distribution w l)
      /\ same_up_to_week (fst (App.get_monthly_sales w v l2))
                         (fst (App.get_monthly_sales w v l))).
Proof.
  intros l l1 l2. subst l l1 l2.
  rewrite SalesAnalysis_get_weekly_sales_loader, App_get_weekly_sales_loader.
  destruct (getitem_table_after_weekly "product_id" product_id df)
    as [Hpid _]; [discriminate|reflexivity|].
  destruct (getitem_table_after_weekly "price" price df)
    as [_ Hprice]; [discriminate|reflexivity|].
  destruct (getitem_table_after_weekly "sales_amount" sales_amount df)
    as [Hamount Hgamount]; [discriminate|reflexivity|].
  destruct (table_after_weekly_frame df) as [Hrows Hcols].
  assert (Hmonthly :
            same_up_to_week
              (if has_column "branch_id" df
               then monthly_sales_outcome v (table_after_weekly df)
               else Raise (mkExc ValueError
                             ("Error fetching monthly sales data: "
                                ++ repr_key "branch_id")))
              (if has_column "branch_id" df
               then monthly_sales_outcome v df
               else Raise (mkExc ValueError
                             ("Error fetching monthly sales data: "
                                ++ repr_key "branch_id")))).
  { destruct (has_column "branch_id" df); [|reflexivity].
    now apply monthly_sales_outcome_up_to_week. }
  assert (Hbranch : has_column "branch_id" (table_after_weekly df)
                    = has_column "branch_id" df)
    by (apply Hcols; discriminate).
  split; (split; [|split; [|split]]).
  - unfold SalesAnalysis.get_product_price_analysis, SalesAnalysis.get_data.
    same_result Hpid Hprice.
  - unfold SalesAnalysis.get_product_preference, SalesAnalysis.get_data.
    same_result Hpid Hgamount.
  - unfold SalesAnalysis.get_sales_distribution, SalesAnalysis.get_data.
    same_result Hamount Hamount.
  - destruct (has_column "branch_id" df) eqn:Hb.
    + rewrite !SalesAnalysis_get_monthly_sales_cached by congruence.
      exact Hmonthly.
    + unfold SalesAnalysis.get_monthly_sales, SalesAnalysis.get_data, getitem.
      run_call. rewrite Hbranch, Hb. reflexivity.
  - unfold App.get_product_price_analysis, App.get_data.
    same_result Hpid Hprice.
  - unfold App.get_product_preference, App.get_data.
    same_result Hpid Hgamount.
  - unfold App.get_sales_distribution, App.get_data.
    same_result Hamount Hamount.
  - destruct (has_column "branch_id" df) eqn:Hb.
    + rewrite !App_get_monthly_sales_cached by congruence.
      exact Hmonthly.
    + unfold App.get_monthly_sales, App.get_data, getitem.
      run_call. rewrite Hbranch, Hb. reflexivity.
Qed.

(** ** The loader constructed again, and a load that failed half-way *)

(** X8.  A construction that fails on a missing path empties the loader
    for everyone: whatever was cached before, after [DataLoader(b)] failed
    because [b] does not exist, the one loader instance holds the path [b]
    and no table, and (while [b] stays absent) every report of either file
    raises [ValueError] whose message is the report's prefix followed by
    "The file b does not exist."; the loader stays as it is, so each later
    call tries the load again. *)
Theorem failed_construction_empties_loader `{PandasRuntime} (w : World)
  (b : string) (l0 : DataLoader) (v : PyStr) :
  path_exists w b = false ->
  let l := mkLoader b None in
  let cause := ("The file " ++ b ++ " does not exist.")%string in
  let fails {A} (prefix : string) (r : Result A * DataLoader) :=
    r = (Raise (mkExc ValueError (prefix ++ cause)), l) in
  snd (SalesAnalysis.__init__ w b l0) = l
  /\ snd (App.__init__ w b l0) = l
  /\ fails "Error fetching monthly sales data: "
       (SalesAnalysis.get_monthly_sales w v l)
  /\ fails "Error fetching product price analysis: "
       (SalesAnalysis.get_product_price_analysis w l)
  /\ fails "Error fetching weekly sales data: "
       (SalesAnalysis.get_weekly_sales w l)
  /\ fails "Error fetching product preference data: "
       (SalesAnalysis.get_product_preference w l)
  /\ fails "Error fetching sales distribution data: "
       (SalesAnalysis.get_sales_distribution w l)
  /\ fails "Error fetching monthly sales data: "
       (App.get_monthly_sales w v l)
  /\ fails "Error fetching product price analysis: "
       (App.get_product_price_analysis w l)
  /\ fails "Error fetching weekly sales data: " (App.get_weekly_sales w l)
  /\ fails "Error fetching product preference data: "
       (App.get_product_preference w l)
  /\ fails "Error fetching sales distribution data: "
       (App.get_sales_distribution w l).
Proof.
  intros Hex l cause fails. subst l cause fails.
  unfold SalesAnalysis.__init__, App.__init__,
    SalesAnalysis.get_monthly_sales, SalesAnalysis.get_product_price_analysis,
    SalesAnalysis.get_weekly_sales, SalesAnalysis.get_product_preference,
    SalesAnalysis.get_sales_distribution,
    App.get_monthly_sales, App.get_product_price_analysis,
    App.get_weekly_sales, App.get_product_preference,
    App.get_sales_distribution,
    SalesAnalysis.get_data, App.get_data,
    SalesAnalysis._load_data, App._load_data.
  run_call. rewrite Hex. simpl.
  repeat split; reflexivity.
Qed.

Lemma failed_construction_empties_loader_witness :
  path_exists sample_world "missing.csv" = false
  /\ snd (SalesAnalysis.__init__ (H := pandas_runtime) sample_world
            "missing.csv" sample_loader) = mkLoader "missing.csv" None
  /\ SalesAnalysis.get_sales_distribution (H := pandas_runtime) sample_world
       (mkLoader "missing.csv" None)
     = (Raise (mkExc ValueError
                 "Error fetching sales distribution data: The file missing.csv does not exist."),
        mkLoader "missing.csv" None).
Proof.
  assert (H1 : path_exists sample_world "missing.csv" = false) by reflexivity.
  split; [exact H1|].
  destruct (failed_construction_empties_loader (H := pandas_runtime)
              sample_world "missing.csv" sample_loader None H1)
    as [Hs [_ [_ [_ [_ [_ [Hd _]]]]]]].
  split; [exact Hs|exact Hd].
Defined.

(** X9.  A load that fails on a file without a [branch_id] column leaves
    the parsed frame in the loader, and the loader then serves it: in both
    files the construction raises, [data] holds the frame as parsed, and
    from then on, whatever the file system holds, [get_data] returns that
    frame without loading again and [get_monthly_sales] raises
    [ValueError] with the message "Error fetching monthly sales data:
    'branch_id'". *)
Theorem failed_load_frame_is_served `{PandasRuntime} (w w' : World)
  (path : string) (df : DataFrame) (l0 : DataLoader) (v : PyStr) :
  path_exists w path = true ->
  read_csv w path = Return df ->
  has_column "branch_id" df = false ->
  let l := mkLoader path (Some df) in
  (is_raise (fst (SalesAnalysis.__init__ w path l0)) = true
   /\ snd (SalesAnalysis.__init__ w path l0) = l
   /\ is_raise (fst (App.__init__ w path l0)) = true
   /\ snd (App.__init__ w path l0) = l)
  /\ SalesAnalysis.get_data w' l = (Return (Some df), l)
  /\ App.get_data w' l = (Return (Some df), l)
  /\ SalesAnalysis.get_monthly_sales w' v l
     = (Raise (mkExc ValueError
                 "Error fetching monthly sales data: 'branch_id'"), l)
  /\ App.get_monthly_sales w' v l
     = (Raise (mkExc ValueError
                 "Error fetching monthly sales data: 'branch_id'"), l).
Proof.
  intros Hex Hread Hcol l. subst l.
  split.
  - unfold SalesAnalysis.__init__, App.__init__,
      SalesAnalysis._load_data, App._load_data.
    run_call. rewrite Hex, Hread. simpl.
    unfold getitem. rewrite Hcol. simpl.
    repeat split; reflexivity.
  - split; [reflexivity|]. split; [reflexivity|].
    unfold SalesAnalysis.get_monthly_sales, App.get_monthly_sales,
      SalesAnalysis.get_data, App.get_data, getitem.
    run_call. rewrite Hcol. simpl. split; reflexivity.
Qed.

Lemma failed_load_frame_is_served_witness :
  path_exists sample_world "no_branch.csv" = true
  /\ read_csv sample_world "no_branch.csv" = Return no_branch_csv
  /\ has_column "branch_id" no_branch_csv = false
  /\ snd (SalesAnalysis.__init__ (H := pandas_runtime) sample_world
            "no_branch.csv" fresh_loader)
     = mkLoader "no_branch.csv" (Some no_branch_csv)
  /\ SalesAnalysis.get_data (H := pandas_runtime) sample_world
       (mkLoader "no_branch.csv" (Some no_branch_csv))
     = (Return (Some no_branch_csv),
        mkLoader "no_branch.csv" (Some no_branch_csv)).
Proof.
  assert (H1 : path_exists sample_world "no_branch.csv" = true) by reflexivity.
  assert (H2 : read_csv sample_world "no_branch.csv" = Return no_branch_csv)
    by reflexivity.
  assert (H3 : has_column "branch_id" no_branch_csv = false) by reflexivity.
  split; [exact H1|]. split; [exact H2|]. split; [exact H3|].
  destruct (failed_load_frame_is_served (H := pandas_runtime) sample_world
              sample_world "no_branch.csv" no_branch_csv fresh_loader None
              H1 H2 H3) as [[_ [Hs _]] [Hd _]].
  split; [exact Hs|exact Hd].
Defined.

(** ** Integer branch ids, asked for by their decimal text *)

Lemma str_of_Z_inj z z' : str_of_Z z = str_of_Z z' -> z = z'.
Proof.
  unfold str_of_Z. intros Heq.
  assert (Hnn : forall n, Z.to_int n <> Decimal.Pos Decimal.Nil
                          /\ Z.to_int n <> Decimal.Neg Decimal.Nil).
  { intros [|p|p]; simpl; split; try discriminate;
      intros Hp; inversion Hp as [Hu];
      now apply DecimalPos.Unsigned.to_uint_nonnil in Hu. }
  apply DecimalZ.to_int_inj.
  assert (Hs : Some (Z.to_int z) = Some (Z.to_int z')).
  { rewrite <- (NilZero.isi (Z.to_int z)) by apply Hnn.
    rewrite <- (NilZero.isi (Z.to_int z')) by apply Hnn.
    now rewrite Heq. }
  now inversion Hs.
Qed.

Lemma init_loads `{PandasRuntime} w path l0 df :
  path_exists w path = true ->
  read_csv w path = Return df ->
  has_column "branch_id" df = true ->
  let l := mkLoader path
             (Some (setitem_branch_id
                      (map astype_str (map branch_id (rows df))) df)) in
  SalesAnalysis.__init__ w path l0 = (Return tt, l)
  /\ App.__init__ w path l0 = (Return tt, l).
Proof.
  intros Hex Hread Hcol l. subst l.
  unfold SalesAnalysis.__init__, App.__init__,
    SalesAnalysis._load_data, App._load_data.
  run_call. rewrite Hex, Hread. simpl.
  unfold getitem. rewrite Hcol. simpl. split; reflexivity.
Qed.

Lemma filter_map_comm {X Y} (f : Y -> bool) (g : X -> Y) l :
  filter f (map g l) = map g (filter (fun x => f (g x)) l).
Proof.
  induction l as [|x l IH]; simpl; [reflexivity|].
  destruct (f (g x)); simpl; now rewrite IH.
Qed.

Lemma integer_rows_by_text `{PandasRuntime} z rs :
  Forall (fun r => exists n, branch_id r = CInt n) rs ->
  map (fun r => set_branch_id (astype_str (branch_id r)) r)
    (filter (fun r => cell_eq (Some (str_of_Z z)) (astype_str (branch_id r)))
       rs)
  = map (set_branch_id (CStr (str_of_Z z))) (filter (has_int_id z) rs).
Proof.
  induction 1 as [|r rs [n Hn] _ IH]; simpl; [reflexivity|].
  unfold has_int_id at 1. rewrite Hn. simpl.
  destruct (Z.eqb_spec n z) as [->|Hne].
  - rewrite String.eqb_refl. simpl. rewrite IH, Hn. reflexivity.
  - destruct (String.eqb_spec (str_of_Z n) (str_of_Z z)) as [Heq|_];
      [apply str_of_Z_inj in Heq; contradiction|exact IH].
Qed.

(** X10.  An integer branch column is found by the decimal text of the id.
    When the file exists, parses, and its [branch_id] column holds integers
    only, the load of either file succeeds, and for every integer [z] that
    occurs in the column [get_monthly_sales(str(z))] returns exactly the
    records whose id was [z], in file order, each now with the text of [z]
    as its branch; an id that differs from [z] never prints as the same
    text. *)
Theorem integer_branch_found_by_text `{PandasRuntime} (w : World)
  (path : string) (l0 : DataLoader) (df : DataFrame) (z : Z) :
  path_exists w path = true ->
  read_csv w path = Return df ->
  has_column "branch_id" df = true ->
  Forall (fun r => exists n, branch_id r = CInt n) (rows df) ->
  (exists r, In r (rows df) /\ branch_id r = CInt z) ->
  exists l out,
    SalesAnalysis.__init__ w path l0 = (Return tt, l)
    /\ App.__init__ w path l0 = (Return tt, l)
    /\ SalesAnalysis.get_monthly_sales w (Some (str_of_Z z)) l = (Return out, l)
    /\ App.get_monthly_sales w (Some (str_of_Z z)) l = (Return out, l)
    /\ rows out
       = map (set_branch_id (CStr (str_of_Z z)))
           (filter (has_int_id z) (rows df)).
Proof.
  intros Hex Hread Hcol Hint [r0 [Hin Hz]].
  destruct (init_loads w path l0 df Hex Hread Hcol) as [Hs Ha].
  pose proof (setitem_branch_id_column
                (map astype_str (map branch_id (rows df))) df) as Hcol'.
  set (df1 := setitem_branch_id (map astype_str (map branch_id (rows df))) df)
    in *.
  assert (Hrows : branch_rows (Some (str_of_Z z)) df1
                  = map (set_branch_id (CStr (str_of_Z z)))
                      (filter (has_int_id z) (rows df))).
  { unfold branch_rows, df1, setitem_branch_id. simpl.
    rewrite assign_branch_id_column, filter_map_comm.
    exact (integer_rows_by_text z (rows df) Hint). }
  assert (Hne : filter (has_int_id z) (rows df) <> []).
  { apply filter_nonempty_iff. exists r0. split; [exact Hin|].
    unfold has_int_id. rewrite Hz. apply Z.eqb_refl. }
  exists (mkLoader path (Some df1)),
    (mkFrame (columns df1) (branch_rows (Some (str_of_Z z)) df1)).
  split; [exact Hs|]. split; [exact Ha|].
  rewrite SalesAnalysis_get_monthly_sales_cached,
    App_get_monthly_sales_cached by exact Hcol'.
  unfold monthly_sales_outcome.
  destruct (branch_rows (Some (str_of_Z z)) df1) as [|r rs] eqn:E.
  - exfalso. symmetry in Hrows. apply map_eq_nil in Hrows. contradiction.
  - split; [reflexivity|]. split; [reflexivity|]. exact Hrows.
Qed.

Lemma integer_branch_found_by_text_witness :
  path_exists sample_world "sales_data.csv" = true
  /\ read_csv sample_world "sales_data.csv" = Return sample_csv
  /\ has_column "branch_id" sample_csv = true
  /\ Forall (fun r => exists n, branch_id r = CInt n) (rows sample_csv)
  /\ (exists r, In r (rows sample_csv) /\ branch_id r = CInt 2)
  /\ exists l out,
       SalesAnalysis.__init__ (H := pandas_runtime) sample_world
         "sales_data.csv" fresh_loader = (Return tt, l)
       /\ SalesAnalysis.get_monthly_sales (H := pandas_runtime) sample_world
            (Some "2") l = (Return out, l)
       /\ length (rows out) = 3%nat.
Proof.
  assert (H1 : path_exists sample_world "sales_data.csv" = true) by reflexivity.
  assert (H2 : read_csv sample_world "sales_data.csv" = Return sample_csv)
    by reflexivity.
  assert (H3 : has_column "branch_id" sample_csv = true) by reflexivity.
  assert (H4 : Forall (fun r => exists n, branch_id r = CInt n)
                 (rows sample_csv))
    by (repeat constructor; eexists; reflexivity).
  assert (H5 : exists r, In r (rows sample_csv) /\ branch_id r = CInt 2).
  { eexists. split; [do 3 right; left; reflexivity|reflexivity]. }
  split; [exact H1|]. split; [exact H2|]. split; [exact H3|].
  split; [exact H4|]. split; [exact H5|].
  destruct (integer_branch_found_by_text (H := pandas_runtime) sample_world
              "sales_data.csv" fresh_loader sample_csv 2 H1 H2 H3 H4 H5)
    as [l [out [Hs [_ [Hm [_ Hrows]]]]]].
  exists l, out. split; [exact Hs|]. split; [exact Hm|].
  rewrite Hrows. reflexivity.
Defined.

(** ** The menu of [main] *)

Lemma SalesAnalysis_analyze_raises `{PandasRuntime} w a l e :
  fst (SalesAnalysis.analyze w a l) = Raise e -> exc_class e = ValueError.
Proof.
  destruct a as [repo v|repo|repo|repo|repo];
    unfold SalesAnalysis.analyze, SalesAnalysis.map_M, bind, ret.
  - destruct (SalesAnalysis_reports_raise w l v e) as [S _].
    destruct (SalesAnalysis.get_monthly_sales w v l) as [[x|e'] l'];
      simpl in *; [discriminate|]. intros Hr. inversion Hr; subst e'.
    apply S. reflexivity.
  - destruct (SalesAnalysis_reports_raise w l None e) as [_ [S _]].
    destruct (SalesAnalysis.get_product_price_analysis w l) as [[x|e'] l'];
      simpl in *; [discriminate|]. intros Hr. inversion Hr; subst e'.
    apply S. reflexivity.
  - destruct (SalesAnalysis_reports_raise w l None e) as [_ [_ [S _]]].
    destruct (SalesAnalysis.get_weekly_sales w l) as [[x|e'] l'];
      simpl in *; [discriminate|]. intros Hr. inversion Hr; subst e'.
    apply S. reflexivity.
  - destruct (SalesAnalysis_reports_raise w l None e) as [_ [_ [_ [S _]]]].
    destruct (SalesAnalysis.get_product_preference w l) as [[x|e'] l'];
      simpl in *; [discriminate|]. intros Hr. inversion Hr; subst e'.
    apply S. reflexivity.
  - destruct (SalesAnalysis_reports_raise w l None e) as [_ [_ [_ [_ S]]]].
    destruct (SalesAnalysis.get_sales_distribution w l) as [[x|e'] l'];
      simpl in *; [discriminate|]. intros Hr. inversion Hr; subst e'.
    apply S. reflexivity.
Qed.

Lemma SalesAnalysis_create_monthly repo b :
  SalesAnalysis.create_analysis "monthly_sales" repo [("branch_id", b)]
  = Return (SalesAnalysis.MonthlySalesAnalysis repo b).
Proof. reflexivity. Qed.

Lemma SalesAnalysis_create_others repo :
  SalesAnalysis.create_analysis "price" repo []
  = Return (SalesAnalysis.PriceAnalysis repo)
  /\ SalesAnalysis.create_analysis "weekly_sales" repo []
     = Return (SalesAnalysis.WeeklySalesAnalysis repo)
  /\ SalesAnalysis.create_analysis "product_preference" repo []
     = Return (SalesAnalysis.ProductPreferenceAnalysis repo)
  /\ SalesAnalysis.create_analysis "sales_distribution" repo []
     = Return (SalesAnalysis.SalesDistributionAnalysis repo).
Proof. repeat split; reflexivity. Qed.

Lemma run_analysis_expected `{PandasRuntime} w a l :
  forallb expected (fst (SalesAnalysis.run_analysis w a l)) = true.
Proof.
  unfold SalesAnalysis.run_analysis.
  pose proof (SalesAnalysis_analyze_raises w a l) as Hraise.
  destruct (SalesAnalysis.analyze w a l) as [[r|e] l']; [reflexivity|].
  rewrite (Hraise e eq_refl). reflexivity.
Qed.

Lemma handled_prepend pre out l e :
  forallb expected pre = true ->
  handled (out, l, e) -> handled (pre ++ out, l, e).
Proof.
  unfold handled. intros Hpre [He Hout]. split; [exact He|].
  rewrite forallb_app, Hpre, Hout. reflexivity.
Qed.

Lemma menu_expected : forallb expected SalesAnalysis.menu = true.
Proof. reflexivity. Qed.

Lemma menu_loop_handled `{PandasRuntime} w n :
  forall inputs l,
    (length inputs <= n)%nat -> handled (SalesAnalysis.menu_loop w inputs l).
Proof.
  induction n as [|n IH]; intros inputs l Hlen.
  - destruct inputs; [|simpl in Hlen; lia].
    simpl. split; [now right|reflexivity].
  - destruct inputs as [|choice rest]; [split; [now right|reflexivity]|].
    simpl in Hlen.
    cbn [SalesAnalysis.menu_loop].
    destruct (String.eqb choice "0"); [split; [now left|reflexivity]|].
    destruct (String.eqb choice "1").
    + destruct rest as [|branch rest1]; [split; [now right|reflexivity]|].
      rewrite SalesAnalysis_create_monthly.
      pose proof (run_analysis_expected w
                    (SalesAnalysis.MonthlySalesAnalysis
                       (mkRepo DataLoader_instance) (Some branch)) l) as Hrun.
      destruct (SalesAnalysis.run_analysis w _ l) as [shown l1].
      simpl in Hrun, Hlen.
      destruct rest1 as [|enter rest2].
      * split; [now right|].
        rewrite !forallb_app, menu_expected, Hrun. reflexivity.
      * specialize (IH rest2 l1 ltac:(simpl in Hlen; lia)).
        destruct (SalesAnalysis.menu_loop w rest2 l1) as [[out l2] e].
        rewrite !app_assoc. apply handled_prepend; [|exact IH].
        rewrite !forallb_app, menu_expected, Hrun. reflexivity.
    + destruct (String.eqb choice "2" || String.eqb choice "3"
                || String.eqb choice "4" || String.eqb choice "5")%bool.
      * destruct (SalesAnalysis_create_others (mkRepo DataLoader_instance))
          as [C2 [C3 [C4 C5]]].
        assert (Hcreate :
                  exists a,
                    SalesAnalysis.create_analysis
                      (if String.eqb choice "2" then "price"
                       else if String.eqb choice "3" then "weekly_sales"
                       else if String.eqb choice "4" then "product_preference"
                       else "sales_distribution")
                      (mkRepo DataLoader_instance) [] = Return a).
        { destruct (String.eqb choice "2"); [eauto|].
          destruct (String.eqb choice "3"); [eauto|].
          destruct (String.eqb choice "4"); eauto. }
        destruct Hcreate as [a ->].
        pose proof (run_analysis_expected w a l) as Hrun.
        destruct (SalesAnalysis.run_analysis w a l) as [shown l1].
        simpl in Hrun.
        destruct rest as [|enter rest1].
        -- split; [now right|].
           rewrite !forallb_app, menu_expected, Hrun. reflexivity.
        -- specialize (IH rest1 l1 ltac:(simpl in Hlen; lia)).
           destruct (SalesAnalysis.menu_loop w rest1 l1) as [[out l2] e].
           rewrite !app_assoc. apply handled_prepend; [|exact IH].
           rewrite !forallb_app, menu_expected, Hrun. reflexivity.
      * destruct rest as [|enter rest1]; [split; [now right|reflexivity]|].
        specialize (IH rest1 l ltac:(simpl in Hlen; lia)).
        destruct (SalesAnalysis.menu_loop w rest1 l) as [[out l2] e].
        rewrite !app_assoc. apply handled_prepend; [reflexivity|exact IH].
Qed.

Lemma SalesAnalysis_init_raises `{PandasRuntime} w path l0 e :
  fst (SalesAnalysis.__init__ w path l0) = Raise e ->
  exc_class e = FileNotFoundError \/ exc_class e = ValueError
  \/ exc_class e = IOError.
Proof.
  unfold SalesAnalysis.__init__, SalesAnalysis._load_data. run_call.
  destruct (path_exists w path); simpl;
    [|intros Hr; inversion Hr; now left].
  destruct (read_csv w path) as [df|[c msg]]; simpl.
  - unfold getitem. destruct (has_column "branch_id" df); simpl;
      intros Hr; inversion Hr. now right; right.
  - destruct c; simpl; intros Hr; inversion Hr; simpl; tauto.
Qed.

(** X11.  [main] handles every error of the program.  For every sequence
    of typed lines, every loader state and every file system, [main]
    either returns or stops at the end of the input; no exception of the
    loader, the factory or a report leaves it.  And it never prints "An
    unexpected error occurred": a failing report is always printed as
    "Value error: ...", since [ValueError] is all a report raises. *)
Theorem main_handles_every_error `{PandasRuntime} (w : World)
  (inputs : list string) (l0 : DataLoader) :
  let '(out, _, ending) := SalesAnalysis.main w inputs l0 in
  (ending = Returned \/ ending = EndOfInput)
  /\ forallb (fun o => negb (is_unexpected o)) out = true.
Proof.
  change (handled (SalesAnalysis.main w inputs l0)).
  unfold SalesAnalysis.main.
  pose proof (SalesAnalysis_init_raises w "sales_data.csv" l0) as Hinit.
  destruct (SalesAnalysis.__init__ w "sales_data.csv" l0) as [[[]|e] l].
  - apply (menu_loop_handled w (length inputs)). lia.
  - destruct (Hinit e eq_refl) as [Hc|[Hc|Hc]]; rewrite Hc; simpl;
      (split; [now left|reflexivity]).
Qed.

(** X12.  When the loader cannot be constructed, [main] prints one line,
    "Initialization error: " followed by the message of the error, and
    returns: the menu is not shown and no line of input is read, whatever
    class ([FileNotFoundError], [ValueError] or [IOError]) the load
    raised. *)
Theorem main_initialization_error `{PandasRuntime} (w : World)
  (inputs : list string) (l0 : DataLoader) (e : Exc) :
  fst (SalesAnalysis.__init__ w "sales_data.csv" l0) = Raise e ->
  SalesAnalysis.main w inputs l0
  = ([Print ("Initialization error: " ++ exc_msg e)],
     snd (SalesAnalysis.__init__ w "sales_data.csv" l0), Returned).
Proof.
  intros Hfail. unfold SalesAnalysis.main.
  pose proof (SalesAnalysis_init_raises w "sales_data.csv" l0 e Hfail) as Hc.
  destruct (SalesAnalysis.__init__ w "sales_data.csv" l0) as [[[]|e'] l];
    simpl in Hfail; [discriminate|].
  inversion Hfail; subst e'.
  destruct Hc as [Hc|[Hc|Hc]]; rewrite Hc; reflexivity.
Qed.

Lemma main_initialization_error_witness :
  fst (SalesAnalysis.__init__ (H := pandas_runtime) empty_file_world
         "sales_data.csv" fresh_loader)
  = Raise (mkExc ValueError "The file is empty.")
  /\ SalesAnalysis.main (H := pandas_runtime) empty_file_world
       ["3"; ""; "0"] fresh_loader
     = ([Print "Initialization error: The file is empty."],
        mkLoader "sales_data.csv" None, Returned).
Proof.
  assert (H1 : fst (SalesAnalysis.__init__ (H := pandas_runtime)
                      empty_file_world "sales_data.csv" fresh_loader)
               = Raise (mkExc ValueError "The file is empty."))
    by reflexivity.
  split; [exact H1|].
  exact (main_initialization_error (H := pandas_runtime) empty_file_world
           ["3"; ""; "0"] fresh_loader _ H1).
Defined.

Lemma SalesAnalysis_analyze_cached `{PandasRuntime} w w' a path df :
  SalesAnalysis.analyze w a (mkLoader path (Some df))
  = SalesAnalysis.analyze w' a (mkLoader path (Some df))
  /\ exists df',
       snd (SalesAnalysis.analyze w a (mkLoader path (Some df)))
       = mkLoader path (Some df').
Proof.
  split; [destruct a; reflexivity|].
  destruct (SalesAnalysis_reports_keep_loader w path df None)
    as [_ [K2 [K4 K5]]].
  cbv zeta in *.
  destruct a as [repo v|repo|repo|repo|repo];
    unfold SalesAnalysis.analyze, SalesAnalysis.map_M, bind, ret.
  - destruct (SalesAnalysis_reports_keep_loader w path df v) as [K1 _].
    cbv zeta in K1. exists df.
    destruct (SalesAnalysis.get_monthly_sales w v _) as [[x|e] l'];
      simpl in *; exact K1.
  - exists df.
    destruct (SalesAnalysis.get_product_price_analysis w _) as [[x|e] l'];
      simpl in *; exact K2.
  - exists (table_after_weekly df).
    pose proof (SalesAnalysis_get_weekly_sales_loader w path df) as K3.
    destruct (SalesAnalysis.get_weekly_sales w _) as [[x|e] l'];
      simpl in *; exact K3.
  - exists df.
    destruct (SalesAnalysis.get_product_preference w _) as [[x|e] l'];
      simpl in *; exact K4.
  - exists df.
    destruct (SalesAnalysis.get_sales_distribution w _) as [[x|e] l'];
      simpl in *; exact K5.
Qed.

Lemma run_analysis_cached `{PandasRuntime} w w' a path df :
  SalesAnalysis.run_analysis w a (mkLoader path (Some df))
  = SalesAnalysis.run_analysis w' a (mkLoader path (Some df))
  /\ exists df',
       snd (SalesAnalysis.run_analysis w a (mkLoader path (Some df)))
       = mkLoader path (Some df').
Proof.
  destruct (SalesAnalysis_analyze_cached w w' a path df) as [Heq [df' Hs]].
  unfold SalesAnalysis.run_analysis. rewrite <- Heq.
  split; [reflexivity|]. exists df'.
  destruct (SalesAnalysis.analyze w a _) as [[r|e] l']; simpl in Hs;
    [exact Hs|].
  destruct (issubclass (exc_class e) ValueError); exact Hs.
Qed.

Lemma menu_loop_cached `{PandasRuntime} w w' n :
  forall inputs path df,
    (length inputs <= n)%nat ->
    SalesAnalysis.menu_loop w inputs (mkLoader path (Some df))
    = SalesAnalysis.menu_loop w' inputs (mkLoader path (Some df)).
Proof.
  induction n as [|n IH]; intros inputs path df Hlen.
  - destruct inputs; [reflexivity|simpl in Hlen; lia].
  - destruct inputs as [|choice rest]; [reflexivity|].
    simpl in Hlen.
    cbn [SalesAnalysis.menu_loop].
    destruct (String.eqb choice "0"); [reflexivity|].
    destruct (String.eqb choice "1").
    + destruct rest as [|branch rest1]; [reflexivity|].
      destruct (SalesAnalysis.create_analysis "monthly_sales" _ _) as [a|e];
        [|reflexivity].
      destruct (run_analysis_cached w w' a path df) as [<- [df' Hs]].
      destruct (SalesAnalysis.run_analysis w a _) as [shown l1].
      simpl in Hs. subst l1.
      destruct rest1 as [|enter rest2]; [reflexivity|].
      rewrite (IH rest2 path df') by (simpl in Hlen; lia). reflexivity.
    + destruct (String.eqb choice "2" || String.eqb choice "3"
                || String.eqb choice "4" || String.eqb choice "5")%bool.
      * destruct (SalesAnalysis.create_analysis _ _ _) as [a|e];
          [|reflexivity].
        destruct (run_analysis_cached w w' a path df) as [<- [df' Hs]].
        destruct (SalesAnalysis.run_analysis w a _) as [shown l1].
        simpl in Hs. subst l1.
        destruct rest as [|enter rest1]; [reflexivity|].
        rewrite (IH rest1 path df') by (simpl in Hlen; lia). reflexivity.
      * destruct rest as [|enter rest1]; [reflexivity|].
        rewrite (IH rest1 path df) by (simpl in Hlen; lia). reflexivity.
Qed.

(** X13.  After start-up the menu never goes back to the file.  When
    [DataLoader('sales_data.csv')] has returned, the rounds of the menu
    print the same lines, leave the same loader and end the same way
    whatever becomes of the file system afterwards (the file changed,
    removed or unreadable): every report works on the cached table, and no
    round empties the cache. *)
Theorem menu_ignores_file_system `{PandasRuntime} (w w1 w2 : World)
  (inputs : list string) (l0 l : DataLoader) :
  SalesAnalysis.__init__ w "sales_data.csv" l0 = (Return tt, l) ->
  SalesAnalysis.menu_loop w1 inputs l = SalesAnalysis.menu_loop w2 inputs l.
Proof.
  intros Hinit. apply SalesAnalysis_init_success in Hinit.
  destruct Hinit as [df [_ [_ [_ ->]]]].
  apply (menu_loop_cached w1 w2 (length inputs)). lia.
Qed.

Lemma menu_ignores_file_system_witness :
  SalesAnalysis.__init__ (H := pandas_runtime) sample_world "sales_data.csv"
    fresh_loader = (Return tt, sample_loader)
  /\ SalesAnalysis.menu_loop (H := pandas_runtime) sample_world
       ["1"; "2"; ""; "0"] sample_loader
     = SalesAnalysis.menu_loop (H := pandas_runtime) empty_file_world
         ["1"; "2"; ""; "0"] sample_loader.
Proof.
  assert (H1 : SalesAnalysis.__init__ (H := pandas_runtime) sample_world
                 "sales_data.csv" fresh_loader = (Return tt, sample_loader))
    by reflexivity.
  split; [exact H1|].
  exact (menu_ignores_file_system (H := pandas_runtime) sample_world
           sample_world empty_file_world ["1"; "2"; ""; "0"] fresh_loader
           sample_loader H1).
Defined.

(** ** The web form *)

Lemma branch_rows_None df : branch_rows None df = [].
Proof.
  unfold branch_rows. induction (rows df) as [|r rs IH]; [reflexivity|].
  simpl. destruct (branch_id r); exact IH.
Qed.

Lemma App_index_unknown `{PandasRuntime} w form t l :
  form_get "analysis_type" form = Some t ->
  ~ In t report_names ->
  App.index w (POST form) l
  = (Rendered (mkContext None (Some "Unknown analysis type") (Some t)), l).
Proof.
  intros Hform Hname. unfold App.index. rewrite Hform.
  unfold report_names in Hname. simpl in Hname.
  destruct (String.eqb_spec t "monthly_sales") as [Heq|_];
    [exfalso; apply Hname; rewrite Heq; tauto|].
  unfold App.create_analysis.
  repeat match goal with
    | |- context [String.eqb t ?s] =>
        destruct (String.eqb_spec t s) as [Heq|_];
        [exfalso; apply Hname; rewrite Heq; tauto|]
    end.
  reflexivity.
Qed.

Ltac index_runs c :=
  unfold App.index;
  match goal with Hform : form_get "analysis_type" _ = Some _ |- _ =>
    rewrite Hform end;
  unfold App.analyze, App.map_M, report_page, series_page, bind, lift, ret;
  simpl;
  destruct c as [[?|?] ?]; reflexivity.

(** X14.  What the web form shows for a POST that names an analysis.  For
    [monthly_sales] the page shows the frame [get_monthly_sales] returns,
    as an HTML table, or the message it raises, called with the form's
    [branch_id], or with [None] when the form has no such field; so the
    factory's [KeyError] cannot occur through the form, and without a
    branch the page shows "Error fetching monthly sales data: No data found
    for branch ID: None" when a table with a branch column is cached.  For
    [price] the page shows the table of the report, or the message it
    raises.  For [weekly_sales], [product_preference] and
    [sales_distribution] the page never shows a result: the report returns
    a series, on which [to_html] raises, and the page shows the message of
    that [AttributeError] ("'Series' object has no attribute 'to_html'"), or
    the message of the report's own error when the report raises.  For any
    other name it shows "Unknown analysis type" and no report is run.  A
    page never has both a result and an error, and it names the analysis
    type of the request. *)
Theorem web_form_outcomes `{PandasRuntime} (w : World)
  (form : list (string * string)) (t : string) (l : DataLoader) :
  form_get "analysis_type" form = Some t ->
  (t = "monthly_sales" ->
   App.index w (POST form) l
   = report_page t FrameReport
       (App.get_monthly_sales w (form_get "branch_id" form) l))
  /\ (t = "price" ->
      App.index w (POST form) l
      = report_page t DescribeTable (App.get_product_price_analysis w l))
  /\ (t = "weekly_sales" ->
      App.index w (POST form) l = series_page t (App.get_weekly_sales w l))
  /\ (t = "product_preference" ->
      App.index w (POST form) l
      = series_page t (App.get_product_preference w l))
  /\ (t = "sales_distribution" ->
      App.index w (POST form) l
      = series_page t (App.get_sales_distribution w l))
  /\ (~ In t report_names ->
      App.index w (POST form) l
      = (Rendered (mkContext None (Some "Unknown analysis type") (Some t)), l))
  /\ (t = "monthly_sales" ->
      form_get "branch_id" form = None ->
      forall path df,
        l = mkLoader path (Some df) ->
        has_column "branch_id" df = true ->
        App.index w (POST form) l
        = (Rendered
             (mkContext None
                (Some "Error fetching monthly sales data: No data found for branch ID: None")
                (Some t)), l))
  /\ (In t ["weekly_sales"; "product_preference"; "sales_distribution"] ->
      exists m l',
        App.index w (POST form) l
        = (Rendered (mkContext None (Some m) (Some t)), l'))
  /\ exists ctx l',
       App.index w (POST form) l = (Rendered ctx, l')
       /\ ctx_analysis_type ctx = Some t
       /\ (ctx_result ctx = None \/ ctx_error ctx = None).
Proof.
  intros Hform.
  assert (Hm : t = "monthly_sales" ->
               App.index w (POST form) l
               = report_page t FrameReport
                   (App.get_monthly_sales w (form_get "branch_id" form) l))
    by (intros ->;
        index_runs (App.get_monthly_sales w (form_get "branch_id" form) l)).
  assert (Hp : t = "price" ->
               App.index w (POST form) l
               = report_page t DescribeTable
                   (App.get_product_price_analysis w l))
    by (intros ->; index_runs (App.get_product_price_analysis w l)).
  assert (Hw : t = "weekly_sales" ->
               App.index w (POST form) l
               = series_page t (App.get_weekly_sales w l))
    by (intros ->; index_runs (App.get_weekly_sales w l)).
  assert (Hf : t = "product_preference" ->
               App.index w (POST form) l
               = series_page t (App.get_product_preference w l))
    by (intros ->; index_runs (App.get_product_preference w l)).
  assert (Hd : t = "sales_distribution" ->
               App.index w (POST form) l
               = series_page t (App.get_sales_distribution w l))
    by (intros ->; index_runs (App.get_sales_distribution w l)).
  pose proof (App_index_unknown w form t l Hform) as Hu.
  assert (Hseries : forall A (c : Result A * DataLoader),
             exists m l',
               series_page t c
               = (Rendered (mkContext None (Some m) (Some t)), l'))
    by (intros A [[a|e] l']; simpl; eexists; eexists; reflexivity).
  split; [exact Hm|]. split; [exact Hp|]. split; [exact Hw|].
  split; [exact Hf|]. split; [exact Hd|]. split; [exact Hu|].
  split; [|split].
  - intros Ht Hbranch path df -> Hcol.
    rewrite (Hm Ht), Hbranch, App_get_monthly_sales_cached by exact Hcol.
    unfold monthly_sales_outcome. rewrite branch_rows_None. reflexivity.
  - intros Hin. simpl in Hin. destruct Hin as [E|[E|[E|[]]]]; symmetry in E.
    + rewrite (Hw E). apply Hseries.
    + rewrite (Hf E). apply Hseries.
    + rewrite (Hd E). apply Hseries.
  - assert (Hpage : forall A (f : A -> Report) (c : Result A * DataLoader),
               exists ctx l',
                 report_page t f c = (Rendered ctx, l')
                 /\ ctx_analysis_type ctx = Some t
                 /\ (ctx_result ctx = None \/ ctx_error ctx = None)).
    { intros A f [[a|e] l']; simpl; eexists; eexists;
        (split; [reflexivity|]); split; (reflexivity || tauto). }
    assert (Hspage : forall A (c : Result A * DataLoader),
               exists ctx l',
                 series_page t c = (Rendered ctx, l')
                 /\ ctx_analysis_type ctx = Some t
                 /\ (ctx_result ctx = None \/ ctx_error ctx = None)).
    { intros A [[a|e] l']; simpl; eexists; eexists;
        (split; [reflexivity|]); split; (reflexivity || tauto). }
    destruct (in_dec string_dec t report_names) as [Hin|Hout].
    + unfold report_names in Hin. simpl in Hin.
      destruct Hin as [E|[E|[E|[E|[E|[]]]]]]; symmetry in E.
      * rewrite (Hm E). apply Hpage.
      * rewrite (Hp E). apply Hpage.
      * rewrite (Hw E). apply Hspage.
      * rewrite (Hf E). apply Hspage.
      * rewrite (Hd E). apply Hspage.
    + rewrite (Hu Hout). eexists. eexists.
      split; [reflexivity|]. split; [reflexivity|]. now left.
Qed.

Lemma web_form_outcomes_witness :
  form_get "analysis_type" [("analysis_type", "weekly_sales")]
  = Some "weekly_sales"
  /\ App.index (H := pandas_runtime) sample_world
       (POST [("analysis_type", "weekly_sales")]) sample_loader
     = series_page "weekly_sales"
         (App.get_weekly_sales (H := pandas_runtime) sample_world
            sample_loader).
Proof.
  assert (H1 : form_get "analysis_type" [("analysis_type", "weekly_sales")]
               = Some "weekly_sales") by reflexivity.
  split; [exact H1|].
  destruct (web_form_outcomes (H := pandas_runtime) sample_world
              [("analysis_type", "weekly_sales")] "weekly_sales"
              sample_loader H1) as [_ [_ [Hw _]]].
  exact (Hw eq_refl).
Defined.

(** On the sample file the form's weekly report ends in the page of the
    [AttributeError], and its monthly report without a branch in the page
    of the report's error. *)
Example web_form_weekly_sales_page :
  exists l',
    App.index (H := pandas_runtime) sample_world
      (POST [("analysis_type", "weekly_sales")]) sample_loader
    = (Rendered
         (mkContext None (Some "'Series' object has no attribute 'to_html'")
            (Some "weekly_sales")), l').
Proof. eexists. vm_compute. reflexivity. Qed.

Example web_form_monthly_sales_page :
  App.index (H := pandas_runtime) sample_world
    (POST [("analysis_type", "monthly_sales")]) sample_loader
  = (Rendered
       (mkContext None
          (Some "Error fetching monthly sales data: No data found for branch ID: None")
          (Some "monthly_sales")), sample_loader).
Proof. vm_compute. reflexivity. Qed.

(** ** The table a load caches, and a table that was never normalised *)

(** X15.  A load keeps every record and every column and changes the
    branch cells only.  When [DataLoader(path)] of either file returns, the
    cached table has the column labels of the parsed file in their order
    and as many rows in the same order; each row is the parsed row with
    its branch cell replaced by its text (the decimal digits of an integer,
    the printed form of a float, a text cell unchanged; a missing cell is
    the text [nan] or still missing) and every other cell as parsed, so a
    file whose branch column is text already is cached exactly as
    parsed. *)
Theorem load_changes_branch_cells_only `{PandasRuntime} (w : World)
  (path : string) (l0 l : DataLoader) :
  SalesAnalysis.__init__ w path l0 = (Return tt, l)
  \/ App.__init__ w path l0 = (Return tt, l) ->
  exists raw df,
    read_csv w path = Return raw
    /\ l = mkLoader path (Some df)
    /\ columns df = columns raw
    /\ Forall2 loaded_row (rows raw) (rows df)
    /\ length (rows df) = length (rows raw)
    /\ (Forall (fun r => is_text (branch_id r) = true) (rows raw) -> df = raw).
Proof.
  intros Hinit.
  assert (Hl : exists raw,
             read_csv w path = Return raw
             /\ has_column "branch_id" raw = true
             /\ l = mkLoader path
                      (Some (setitem_branch_id
                               (map astype_str (map branch_id (rows raw)))
                               raw))).
  { destruct Hinit as [Hinit|Hinit];
      [apply SalesAnalysis_init_success in Hinit
      |apply App_init_success in Hinit];
      destruct Hinit as [raw [_ [Hread [Hcol Hl]]]]; exists raw; auto. }
  destruct Hl as [raw [Hread [Hcol ->]]].
  pose proof (setitem_branch_id_columns
                (map astype_str (map branch_id (rows raw))) raw Hcol) as Hcols.
  pose proof (setitem_branch_id_rows raw) as Hrows.
  eexists raw, _. split; [exact Hread|]. split; [reflexivity|].
  split; [exact Hcols|]. split; [exact Hrows|].
  split; [symmetry; eapply Forall2_length; exact Hrows|].
  intros Htext.
  set (df := setitem_branch_id (map astype_str (map branch_id (rows raw))) raw)
    in *.
  assert (Hsame : rows df = rows raw).
  { clear - Hrows Htext.
    induction Hrows as [|r r' rs rs' [Ht Hr] _ IH]; [reflexivity|].
    inversion Htext as [|? ? Hr0 Hrs]; subst.
    rewrite (IH Hrs). f_equal.
    rewrite Hr. destruct r as [[z|q|t|] d p a c k]; simpl in *;
      try discriminate.
    rewrite Ht. reflexivity. }
  destruct df as [cols rs], raw as [cols0 rs0]. simpl in *.
  now rewrite Hcols, Hsame.
Qed.

Lemma load_changes_branch_cells_only_witness :
  SalesAnalysis.__init__ (H := pandas_runtime) sample_world "sales_data.csv"
    fresh_loader = (Return tt, sample_loader)
  /\ columns sample_table = columns sample_csv
  /\ Forall2 (loaded_row (H := pandas_runtime)) (rows sample_csv)
       (rows sample_table)
  /\ length (rows sample_table) = 6%nat.
Proof.
  assert (H1 : SalesAnalysis.__init__ (H := pandas_runtime) sample_world
                 "sales_data.csv" fresh_loader = (Return tt, sample_loader))
    by reflexivity.
  split; [exact H1|].
  destruct (load_changes_branch_cells_only (H := pandas_runtime)
              sample_world "sales_data.csv" fresh_loader sample_loader
              (or_introl H1))
    as [raw [df [Hread [Hl [Hcols [Hrows [Hlen _]]]]]]].
  assert (Hraw : raw = sample_csv)
    by (assert (Hr : Return raw = Return sample_csv)
          by (rewrite <- Hread; reflexivity); now inversion Hr).
  assert (Hdf : df = sample_table)
    by (assert (Hd : Some df = Some sample_table)
          by (change (data (mkLoader "sales_data.csv" (Some df))
                      = Some sample_table); rewrite <- Hl; reflexivity);
        now inversion Hd).
  subst raw df. split; [exact Hcols|]. split; [exact Hrows|].
  rewrite Hlen. reflexivity.
Defined.

(** X16.  Without the loader's normalisation no branch is found.  On a
    cached table that has a [branch_id] column none of whose cells is text
    (the integer column a file gives when it is read without the loader's
    [astype(str)]), [get_monthly_sales] of either file raises "No data
    found for branch ID: ..." for every argument, also for the decimal text
    of an id that occurs; the comparison of a non-text cell with a string
    is never true. *)
Theorem unnormalised_branch_never_found `{PandasRuntime} (w : World)
  (l : DataLoader) (df : DataFrame) (v : PyStr) :
  data l = Some df ->
  has_column "branch_id" df = true ->
  Forall (fun r => is_text (branch_id r) = false) (rows df) ->
  let e := mkExc ValueError
             ("Error fetching monthly sales data: No data found for branch ID: "
                ++ format_PyStr v) in
  SalesAnalysis.get_monthly_sales w v l = (Raise e, l)
  /\ App.get_monthly_sales w v l = (Raise e, l).
Proof.
  intros Hdata Hcol Hraw e.
  destruct l as [path d]. simpl in Hdata. subst d.
  rewrite SalesAnalysis_get_monthly_sales_cached, App_get_monthly_sales_cached
    by assumption.
  assert (Hnone : branch_rows v df = []).
  { unfold branch_rows.
    induction Hraw as [|r rs Hr _ IH]; simpl; [reflexivity|].
    destruct (branch_id r), v; simpl in *; (discriminate || exact IH). }
  unfold monthly_sales_outcome. rewrite Hnone. split; reflexivity.
Qed.

Lemma unnormalised_branch_never_found_witness :
  data (mkLoader "sales_data.csv" (Some sample_csv)) = Some sample_csv
  /\ has_column "branch_id" sample_csv = true
  /\ Forall (fun r => is_text (branch_id r) = false) (rows sample_csv)
  /\ SalesAnalysis.get_monthly_sales (H := pandas_runtime) sample_world
       (Some "1") (mkLoader "sales_data.csv" (Some sample_csv))
     = (Raise (mkExc ValueError
                 "Error fetching monthly sales data: No data found for branch ID: 1"),
        mkLoader "sales_data.csv" (Some sample_csv)).
Proof.
  assert (H1 : data (mkLoader "sales_data.csv" (Some sample_csv))
               = Some sample_csv) by reflexivity.
  assert (H2 : has_column "branch_id" sample_csv = true) by reflexivity.
  assert (H3 : Forall (fun r => is_text (branch_id r) = false)
                 (rows sample_csv)) by (repeat constructor).
  split; [exact H1|]. split; [exact H2|]. split; [exact H3|].
  exact (proj1 (unnormalised_branch_never_found (H := pandas_runtime)
                  sample_world _ sample_csv (Some "1") H1 H2 H3)).
Defined.
